(** * ccc: the catechism crawler of tlehman/ccc (main.go)

    A shallow embedding of [main.go] and of the parts of the Go standard
    library and of goquery that it calls, followed by the properties of the
    crawl: cache keys, the cached fetch, paragraph extraction, the index and
    the pagination walker.

    Go strings are byte strings: they are modelled by [string], whose
    characters are the 256 values of [ascii].  Go's [int] is the 64-bit
    signed integer of the usual platforms; it is modelled by [Z] with the
    range checks of [strconv] written out. *)

From stdpp Require Import gmap strings list.
From Stdlib Require Import ZArith Ascii String Lia.

Open Scope string_scope.
Open Scope Z_scope.

(** ** Bytes *)

Definition byte_val (c : ascii) : Z := Z.of_N (N_of_ascii c).

Definition byte_of (v : Z) : ascii := ascii_of_N (Z.to_N (v mod 256)).

Definition in_range (lo hi c : ascii) : bool :=
  (byte_val lo <=? byte_val c) && (byte_val c <=? byte_val hi).

Definition is_digit (c : ascii) : bool := in_range "0" "9" c.
Definition is_lower (c : ascii) : bool := in_range "a" "z" c.
Definition is_upper (c : ascii) : bool := in_range "A" "Z" c.
Definition is_alpha (c : ascii) : bool := is_lower c || is_upper c.

(** [c] is one of the bytes of [set]. *)
Fixpoint byte_in (c : ascii) (set : string) : bool :=
  match set with
  | EmptyString => false
  | String d set' => Ascii.eqb c d || byte_in c set'
  end.

(** ** Package [strings] *)

Module strings.

Fixpoint take (n : nat) (s : string) : string :=
  match n, s with
  | S n', String c s' => String c (take n' s')
  | _, _ => EmptyString
  end.

Fixpoint drop (n : nat) (s : string) : string :=
  match n, s with
  | S n', String _ s' => drop n' s'
  | _, _ => s
  end.

Fixpoint smap (f : ascii -> ascii) (s : string) : string :=
  match s with
  | EmptyString => EmptyString
  | String c s' => String (f c) (smap f s')
  end.

Fixpoint sfilter (f : ascii -> bool) (s : string) : string :=
  match s with
  | EmptyString => EmptyString
  | String c s' => if f c then String c (sfilter f s') else sfilter f s'
  end.

Fixpoint sforall (f : ascii -> bool) (s : string) : bool :=
  match s with
  | EmptyString => true
  | String c s' => f c && sforall f s'
  end.

Fixpoint rev_onto (s acc : string) : string :=
  match s with
  | EmptyString => acc
  | String c s' => rev_onto s' (String c acc)
  end.

Definition srev (s : string) : string := rev_onto s EmptyString.

Fixpoint drop_while (f : ascii -> bool) (s : string) : string :=
  match s with
  | EmptyString => EmptyString
  | String c s' => if f c then drop_while f s' else s
  end.

Fixpoint take_while (f : ascii -> bool) (s : string) : string :=
  match s with
  | EmptyString => EmptyString
  | String c s' => if f c then String c (take_while f s') else EmptyString
  end.

Fixpoint HasPrefix (s prefix : string) {struct prefix} : bool :=
  match prefix with
  | EmptyString => true
  | String b prefix' =>
      match s with
      | EmptyString => false
      | String a s' => Ascii.eqb a b && HasPrefix s' prefix'
      end
  end.

Definition HasSuffix (s suffix : string) : bool :=
  (String.length suffix <=? String.length s)%nat
  && String.eqb (drop (String.length s - String.length suffix) s) suffix.

(** Index of the first instance of [substr] in [s]. *)
Fixpoint Index (s substr : string) : option nat :=
  if HasPrefix s substr then Some 0%nat
  else match s with
       | EmptyString => None
       | String _ s' => option_map S (Index s' substr)
       end.

(** Index of the last instance of [substr] in [s]. *)
Fixpoint LastIndex (s substr : string) : option nat :=
  match s with
  | EmptyString => if HasPrefix s substr then Some 0%nat else None
  | String _ s' =>
      match LastIndex s' substr with
      | Some i => Some (S i)
      | None => if HasPrefix s substr then Some 0%nat else None
      end
  end.

Definition Contains (s substr : string) : bool :=
  match Index s substr with Some _ => true | None => false end.

Definition Cut (s sep : string) : string * string * bool :=
  match Index s sep with
  | Some i => (take i s, drop (i + String.length sep) s, true)
  | None => (s, EmptyString, false)
  end.

(** Number of non-overlapping instances of a non-empty [substr]; [skip]
    bytes of [s] belong to the instance found last. *)
Fixpoint count_from (s substr : string) (skip : nat) : nat :=
  match s with
  | EmptyString => 0%nat
  | String _ s' =>
      match skip with
      | S k => count_from s' substr k
      | O => if HasPrefix s substr
             then S (count_from s' substr (String.length substr - 1))
             else count_from s' substr 0
      end
  end.

Definition Count (s substr : string) : nat := count_from s substr 0.

(** [ReplaceAll] for a non-empty [old]: instances are replaced from left
    to right and do not overlap. *)
Fixpoint replace_from (s old new : string) (skip : nat) : string :=
  match s with
  | EmptyString => EmptyString
  | String c s' =>
      match skip with
      | S k => replace_from s' old new k
      | O => if HasPrefix s old
             then new ++ replace_from s' old new (String.length old - 1)
             else String c (replace_from s' old new 0)
      end
  end.

Definition ReplaceAll (s old new : string) : string := replace_from s old new 0.

(** [TrimRight] for a cutset of ASCII bytes. *)
Definition TrimRight (s cutset : string) : string :=
  srev (drop_while (fun c => byte_in c cutset) (srev s)).

Definition lower_byte (c : ascii) : ascii :=
  if is_upper c then byte_of (byte_val c + 32) else c.

(** [ToLower] on the ASCII letters.  On other input Go maps whole runes,
    and no rune but an ASCII letter lowers to one of the bytes of "http",
    the only prefix [ToLower]'s result is tested for in this program. *)
Definition ToLower (s : string) : string := smap lower_byte s.

End strings.

Example strings_ReplaceAll_ex : strings.ReplaceAll "/a/b/" "/" "_" = "_a_b_".
Proof. reflexivity. Qed.

Example strings_TrimRight_ex : strings.TrimRight "_a_b__" "_" = "_a_b".
Proof. reflexivity. Qed.

Example strings_Cut_ex : strings.Cut "ab?cd?e" "?" = ("ab", "cd?e", true).
Proof. reflexivity. Qed.

Example strings_LastIndex_ex : strings.LastIndex "a@b@c" "@" = Some 3%nat.
Proof. reflexivity. Qed.

Example strings_ToLower_ex : strings.ToLower "HtTp://X" = "http://x".
Proof. reflexivity. Qed.

(** ** Package [path] (and [path/filepath] on Unix) *)

Module path.

Definition is_slash (c : ascii) : bool := Ascii.eqb c "/".

Definition at_end_or_slash (p : string) : bool :=
  match p with
  | EmptyString => true
  | String c _ => is_slash c
  end.

(** The output buffer ([lazybuf]) is kept with its last byte first.
    [backtrack out removed dotdot] is the loop
    [for out.w > dotdot && out.index(out.w) != '/' { out.w-- }]
    entered after a first [out.w--] that dropped the byte [removed]. *)
Fixpoint backtrack (out : string) (removed : ascii) (dotdot : nat) : string :=
  match out with
  | EmptyString => EmptyString
  | String c out' =>
      if (dotdot <? String.length out)%nat && negb (is_slash removed)
      then backtrack out' c dotdot
      else out
  end.

(** The loop [for r < n] of [Clean]; [p] is [path[r:]].  Every turn
    consumes at least one byte of [p], so [fuel] beyond the length of
    [p] is never used up. *)
Fixpoint clean_loop (fuel : nat) (rooted : bool) (p out : string) (dotdot : nat)
  : string :=
  match fuel with
  | O => out
  | S fuel' =>
      match p with
      | EmptyString => out
      | String c t =>
          if is_slash c then
            (* empty path element *)
            clean_loop fuel' rooted t out dotdot
          else if Ascii.eqb c "." && at_end_or_slash t then
            (* . element *)
            clean_loop fuel' rooted t out dotdot
          else if Ascii.eqb c "." && strings.HasPrefix t "."
                  && at_end_or_slash (strings.drop 1 t) then
            (* .. element: remove to last / *)
            let p' := strings.drop 1 t in
            if (dotdot <? String.length out)%nat then
              match out with
              | String removed out' =>
                  clean_loop fuel' rooted p' (backtrack out' removed dotdot) dotdot
              | EmptyString => clean_loop fuel' rooted p' out dotdot
              end
            else if negb rooted then
              let out1 := if (0 <? String.length out)%nat then String "/" out else out in
              let out2 := String "." (String "." out1) in
              clean_loop fuel' rooted p' out2 (String.length out2)
            else clean_loop fuel' rooted p' out dotdot
          else
            (* real path element: add slash if needed, copy element *)
            let out1 :=
              if (rooted && negb (String.length out =? 1)%nat)
                 || (negb rooted && negb (String.length out =? 0)%nat)
              then String "/" out else out in
            let not_slash := fun b => negb (is_slash b) in
            clean_loop fuel' rooted (strings.drop_while not_slash p)
              (strings.rev_onto (strings.take_while not_slash p) out1) dotdot
      end
  end.

Definition Clean (path : string) : string :=
  match path with
  | EmptyString => "."
  | String c _ =>
      let rooted := is_slash c in
      let out :=
        if rooted
        then clean_loop (S (String.length path)) rooted (strings.drop 1 path) "/" 1
        else clean_loop (S (String.length path)) rooted path EmptyString 0 in
      match out with
      | EmptyString => "."
      | _ => strings.srev out
      end
  end.

(** [Join] skips empty elements, joins the others with a slash and
    cleans the result; no element at all gives the empty string. *)
Fixpoint join_elems (buf : string) (elem : list string) : string :=
  match elem with
  | [] => buf
  | e :: elem' =>
      match buf, e with
      | EmptyString, EmptyString => join_elems buf elem'
      | EmptyString, _ => join_elems e elem'
      | _, _ => join_elems (buf ++ "/" ++ e) elem'
      end
  end.

Definition Join (elem : list string) : string :=
  if forallb (fun e => (String.length e =? 0)%nat) elem then EmptyString
  else Clean (join_elems EmptyString elem).

End path.

Module filepath.
(** On Unix the separator is the slash and there is no volume name:
    [filepath.Clean] is the algorithm of [path.Clean]. *)
Definition Clean (path : string) : string := path.Clean path.
End filepath.

Example path_Clean_ex1 : path.Clean "/a/./b/../../c/" = "/c".
Proof. reflexivity. Qed.

Example path_Clean_ex2 : path.Clean "a//b/../../../x/.." = "..".
Proof. reflexivity. Qed.

Example path_Clean_ex3 : path.Clean "/../a/b/.." = "/a".
Proof. reflexivity. Qed.

Example path_Join_ex :
  path.Join ["/archive/ENG0015"; "/__P2.HTM"] = "/archive/ENG0015/__P2.HTM".
Proof. reflexivity. Qed.

(** ** Package [strconv] *)

Module strconv.

Inductive NumError := ErrSyntax | ErrRange.

Definition intSize : Z := 64.

Definition maxUint64 : Z := 2 ^ 64 - 1.

(** The digit loop of [ParseUint(s, 10, 0)] on the 64-bit accumulator
    [n]: the value, and the error if there is one. *)
Fixpoint parseUint_loop (s : string) (n : Z) : Z * option NumError :=
  match s with
  | EmptyString => (n, None)
  | String c s' =>
      let base := 10 in
      let cutoff := maxUint64 / 10 + 1 in
      let maxVal := maxUint64 in
      let lc := strings.lower_byte c in
      let digit :=
        if is_digit c then Some (byte_val c - byte_val "0")
        else if is_lower lc then Some (byte_val lc - byte_val "a" + 10)
        else None in
      match digit with
      | None => (0, Some ErrSyntax)
      | Some d =>
          if d >=? base then (0, Some ErrSyntax)
          else if n >=? cutoff then (maxVal, Some ErrRange)
          else
            let n' := (n * base) mod 2 ^ 64 in
            let n1 := (n' + d) mod 2 ^ 64 in
            if (n1 <? n') || (maxVal <? n1) then (maxVal, Some ErrRange)
            else parseUint_loop s' n1
      end
  end.

Definition ParseUint (s : string) : Z * option NumError :=
  match s with
  | EmptyString => (0, Some ErrSyntax)
  | _ => parseUint_loop s 0
  end.

(** [ParseInt(s, 10, 0)]. *)
Definition ParseInt (s : string) : Z * option NumError :=
  match s with
  | EmptyString => (0, Some ErrSyntax)
  | String c s' =>
      let neg := Ascii.eqb c "-" in
      let s1 := if Ascii.eqb c "+" || neg then s' else s in
      let '(un, err) := ParseUint s1 in
      match err with
      | Some ErrSyntax => (0, Some ErrSyntax)
      | _ =>
          let cutoff := 2 ^ (intSize - 1) in
          if negb neg && (un >=? cutoff) then (cutoff - 1, Some ErrRange)
          else if neg && (un >? cutoff) then (- cutoff, Some ErrRange)
          else (if neg then - un else un, None)
      end
  end.

(** The fast path of [Atoi]: [ch -= '0'] is byte arithmetic. *)
Fixpoint atoi_fast (s : string) (n : Z) : option Z :=
  match s with
  | EmptyString => Some n
  | String ch s' =>
      let ch' := (byte_val ch - byte_val "0") mod 256 in
      if ch' >? 9 then None else atoi_fast s' (n * 10 + ch')
  end.

Definition Atoi (s : string) : Z * option NumError :=
  let sLen := Z.of_nat (String.length s) in
  if ((intSize =? 32) && ((0 <? sLen) && (sLen <? 10)))
     || ((intSize =? 64) && ((0 <? sLen) && (sLen <? 19)))
  then
    match s with
    | EmptyString => (0, Some ErrSyntax)
    | String c s' =>
        let signed := Ascii.eqb c "-" || Ascii.eqb c "+" in
        let s1 := if signed then s' else s in
        if signed && (String.length s1 <? 1)%nat then (0, Some ErrSyntax)
        else match atoi_fast s1 0 with
             | None => (0, Some ErrSyntax)
             | Some n => (if Ascii.eqb c "-" then - n else n, None)
             end
    end
  else ParseInt s.

End strconv.

Example strconv_Atoi_ex1 : strconv.Atoi "2765" = (2765, None).
Proof. reflexivity. Qed.

Example strconv_Atoi_ex2 : strconv.Atoi "-12" = (-12, None).
Proof. reflexivity. Qed.

Example strconv_Atoi_ex3 :
  strconv.Atoi "9223372036854775807" = (9223372036854775807, None).
Proof. reflexivity. Qed.

Example strconv_Atoi_ex4 :
  strconv.Atoi "9223372036854775808" = (9223372036854775807, Some strconv.ErrRange).
Proof. reflexivity. Qed.

Example strconv_Atoi_ex5 :
  strconv.Atoi "00000000000000000000042" = (42, None).
Proof. reflexivity. Qed.

Example strconv_Atoi_ex6 : strconv.Atoi "12a" = (0, Some strconv.ErrSyntax).
Proof. reflexivity. Qed.

(** ** Package [regexp]: the two expressions of the program *)

Module regexp.

(** [regexp.MustCompile(`^(\d+)`).FindStringSubmatch(str)]: [\d] is the
    class of the ASCII digits, [+] is greedy and [^] is the start of the
    text.  The result is the whole match followed by group 1, or the
    empty slice when [str] does not start with a digit. *)
Definition FindStringSubmatch_leading_digits (str : string) : list string :=
  match strings.take_while is_digit str with
  | EmptyString => []
  | ds => [ds; ds]
  end.

(** [regexp.MustCompile("[" + class + "]").ReplaceAllString(src, repl)]
    for a class of ASCII bytes and a replacement without [$]: every byte
    of the class is a match of its own. *)
Fixpoint ReplaceAllString_class (class src repl : string) : string :=
  match src with
  | EmptyString => EmptyString
  | String c src' =>
      if byte_in c class then repl ++ ReplaceAllString_class class src' repl
      else String c (ReplaceAllString_class class src' repl)
  end.

End regexp.

(** ** Results of fallible calls *)

Inductive result (E A : Type) : Type :=
| Ok (a : A)
| Err (e : E).
Arguments Ok {E A} a.
Arguments Err {E A} e.

Definition is_empty (s : string) : bool :=
  match s with EmptyString => true | _ => false end.

(** ** Package [net/url] *)

Module url.

Inductive Error :=
| InvalidControlCharacter
| EmptyURL
| MissingProtocolScheme
| InvalidURIForRequest
| FirstPathSegmentColon
| EscapeError (s : string)
| InvalidHostError (s : string)
| MissingBracket
| InvalidPort (s : string)
| InvalidUserinfo.

Inductive encoding :=
| encodePath
| encodePathSegment
| encodeHost
| encodeZone
| encodeUserPassword
| encodeQueryComponent
| encodeFragment.

Definition is_host_mode (mode : encoding) : bool :=
  match mode with encodeHost | encodeZone => true | _ => false end.

Record Userinfo := {
  username : string;
  password : string;
  passwordSet : bool
}.

Record URL := {
  Scheme : string;
  Opaque : string;
  User : option Userinfo;
  Host : string;
  Path : string;
  RawPath : string;
  OmitHost : bool;
  ForceQuery : bool;
  RawQuery : string;
  Fragment : string;
  RawFragment : string
}.

(** The double-quote byte, code 34. *)
Definition dquote : ascii := "034"%char.

Definition ishex (c : ascii) : bool :=
  is_digit c || in_range "a" "f" c || in_range "A" "F" c.

Definition unhex (c : ascii) : Z :=
  if is_digit c then byte_val c - byte_val "0"
  else if in_range "a" "f" c then byte_val c - byte_val "a" + 10
  else if in_range "A" "F" c then byte_val c - byte_val "A" + 10
  else 0.

Definition shouldEscape (c : ascii) (mode : encoding) : bool :=
  if is_lower c || is_upper c || is_digit c then false
  else if is_host_mode mode
          && (byte_in c "!$&'()*+,;=:[]<>" || Ascii.eqb c dquote) then false
  else if byte_in c "-_.~" then false
  else if byte_in c "$&+,/:;=?@"
          && match mode with
             | encodePath | encodePathSegment | encodeUserPassword
             | encodeQueryComponent | encodeFragment => true
             | _ => false
             end
  then match mode with
       | encodePath => Ascii.eqb c "?"
       | encodePathSegment => byte_in c "/;,?"
       | encodeUserPassword => byte_in c "@/?:"
       | encodeQueryComponent => true
       | _ => false
       end
  else if match mode with encodeFragment => byte_in c "!()*" | _ => false end
  then false
  else true.

(** [unescape] checks the escapes from left to right and decodes them;
    the first ill-formed one is the error. *)
Fixpoint unescape (s : string) (mode : encoding) : result Error string :=
  match s with
  | EmptyString => Ok EmptyString
  | String c s' =>
      let cons b r :=
        match r with Ok t => Ok (String b t) | Err e => Err e end in
      if Ascii.eqb c "%" then
        match s' with
        | String h1 (String h2 s'') =>
            let esc := String c (String h1 (String h2 EmptyString)) in
            let v := unhex h1 * 16 + unhex h2 in
            if negb (ishex h1 && ishex h2) then Err (EscapeError esc)
            else if match mode with encodeHost => true | _ => false end
                    && (unhex h1 <? 8) && negb (String.eqb esc "%25")
            then Err (EscapeError esc)
            else if match mode with encodeZone => true | _ => false end
                    && negb (String.eqb esc "%25") && negb (v =? 32)
                    && shouldEscape (byte_of v) encodeHost
            then Err (EscapeError esc)
            else cons (byte_of v) (unescape s'' mode)
        | _ => Err (EscapeError (strings.take 3 s))
        end
      else if Ascii.eqb c "+" then
        cons (match mode with encodeQueryComponent => " "%char | _ => c end)
             (unescape s' mode)
      else if is_host_mode mode && (byte_val c <? 128) && shouldEscape c encodeHost
      then Err (InvalidHostError (String c EmptyString))
      else cons c (unescape s' mode)
  end.

Definition upperhex (v : Z) : ascii :=
  if v <? 10 then byte_of (byte_val "0" + v) else byte_of (byte_val "A" + v - 10).

Fixpoint escape (s : string) (mode : encoding) : string :=
  match s with
  | EmptyString => EmptyString
  | String c s' =>
      if shouldEscape c mode then
        if Ascii.eqb c " " && match mode with encodeQueryComponent => true | _ => false end
        then String "+" (escape s' mode)
        else String "%" (String (upperhex (byte_val c / 16))
               (String (upperhex (byte_val c mod 16)) (escape s' mode)))
      else String c (escape s' mode)
  end.

(** [getScheme]: [i] tells whether the byte read is the first one. *)
Fixpoint getScheme_from (rawURL s : string) (first : bool)
  : result Error (string * string) :=
  match s with
  | EmptyString => Ok (EmptyString, rawURL)
  | String c s' =>
      if is_alpha c then getScheme_from rawURL s' false
      else if is_digit c || byte_in c "+-." then
        if first then Ok (EmptyString, rawURL) else getScheme_from rawURL s' false
      else if Ascii.eqb c ":" then
        if first then Err MissingProtocolScheme
        else Ok (strings.take (String.length rawURL - String.length s) rawURL, s')
      else
        (* an invalid character: there is no valid scheme *)
        Ok (EmptyString, rawURL)
  end.

Definition getScheme (rawURL : string) : result Error (string * string) :=
  getScheme_from rawURL rawURL true.

Definition stringContainsCTLByte (s : string) : bool :=
  negb (strings.sforall (fun b => negb ((byte_val b <? 32) || (byte_val b =? 127))) s).

Definition validOptionalPort (port : string) : bool :=
  match port with
  | EmptyString => true
  | String c digits => Ascii.eqb c ":" && strings.sforall is_digit digits
  end.

Definition validUserinfo (s : string) : bool :=
  strings.sforall
    (fun r => is_upper r || is_lower r || is_digit r || byte_in r "-._:~!$&'()*+,;=%@") s.

Definition validEncoded (s : string) (mode : encoding) : bool :=
  strings.sforall
    (fun c => byte_in c "!$&'()*+,;=:@" || byte_in c "[]" || Ascii.eqb c "%"
              || negb (shouldEscape c mode)) s.

Definition bind {E A B} (r : result E A) (k : A -> result E B) : result E B :=
  match r with Ok a => k a | Err e => Err e end.

Definition parseHost (host : string) : result Error string :=
  let plain := unescape host encodeHost in
  if strings.HasPrefix host "[" then
    match strings.LastIndex host "]" with
    | None => Err MissingBracket
    | Some i =>
        let colonPort := strings.drop (i + 1) host in
        if negb (validOptionalPort colonPort) then Err (InvalidPort colonPort)
        else
          match strings.Index (strings.take i host) "%25" with
          | Some zone =>
              bind (unescape (strings.take zone host) encodeHost) (fun host1 =>
              bind (unescape (strings.drop zone (strings.take i host)) encodeZone) (fun host2 =>
              bind (unescape (strings.drop i host) encodeHost) (fun host3 =>
              Ok (host1 ++ host2 ++ host3))))
          | None => plain
          end
    end
  else
    match strings.LastIndex host ":" with
    | Some i =>
        let colonPort := strings.drop i host in
        if negb (validOptionalPort colonPort) then Err (InvalidPort colonPort)
        else plain
    | None => plain
    end.

Definition parseAuthority (authority : string)
  : result Error (option Userinfo * string) :=
  match strings.LastIndex authority "@" with
  | None => bind (parseHost authority) (fun host => Ok (None, host))
  | Some i =>
      bind (parseHost (strings.drop (i + 1) authority)) (fun host =>
      let userinfo := strings.take i authority in
      if negb (validUserinfo userinfo) then Err InvalidUserinfo
      else if negb (strings.Contains userinfo ":") then
        bind (unescape userinfo encodeUserPassword) (fun userinfo =>
        Ok (Some {| username := userinfo; password := EmptyString;
                    passwordSet := false |}, host))
      else
        let '(username, password, _) := strings.Cut userinfo ":" in
        bind (unescape username encodeUserPassword) (fun username =>
        bind (unescape password encodeUserPassword) (fun password =>
        Ok (Some {| username := username; password := password;
                    passwordSet := true |}, host))))
  end.

Definition setPath (u : URL) (p : string) : result Error URL :=
  bind (unescape p encodePath) (fun path =>
  Ok {| Scheme := Scheme u; Opaque := Opaque u; User := User u; Host := Host u;
        Path := path;
        RawPath := if String.eqb p (escape path encodePath) then EmptyString else p;
        OmitHost := OmitHost u; ForceQuery := ForceQuery u;
        RawQuery := RawQuery u; Fragment := Fragment u;
        RawFragment := RawFragment u |}).

Definition setFragment (u : URL) (f : string) : result Error URL :=
  bind (unescape f encodeFragment) (fun frag =>
  Ok {| Scheme := Scheme u; Opaque := Opaque u; User := User u; Host := Host u;
        Path := Path u; RawPath := RawPath u;
        OmitHost := OmitHost u; ForceQuery := ForceQuery u;
        RawQuery := RawQuery u; Fragment := frag;
        RawFragment := if String.eqb f (escape frag encodeFragment)
                       then EmptyString else f |}).

Definition EscapedPath (u : URL) : string :=
  if negb (is_empty (RawPath u)) && validEncoded (RawPath u) encodePath
     && match unescape (RawPath u) encodePath with
        | Ok p => String.eqb p (Path u)
        | Err _ => false
        end
  then RawPath u
  else if String.eqb (Path u) "*" then "*"
  else escape (Path u) encodePath.

Definition EscapedFragment (u : URL) : string :=
  if negb (is_empty (RawFragment u)) && validEncoded (RawFragment u) encodeFragment
     && match unescape (RawFragment u) encodeFragment with
        | Ok f => String.eqb f (Fragment u)
        | Err _ => false
        end
  then RawFragment u
  else escape (Fragment u) encodeFragment.

Definition empty : URL :=
  {| Scheme := EmptyString; Opaque := EmptyString; User := None;
     Host := EmptyString; Path := EmptyString; RawPath := EmptyString;
     OmitHost := false; ForceQuery := false; RawQuery := EmptyString;
     Fragment := EmptyString; RawFragment := EmptyString |}.

Definition parse (rawURL : string) (viaRequest : bool) : result Error URL :=
  if stringContainsCTLByte rawURL then Err InvalidControlCharacter
  else if is_empty rawURL && viaRequest then Err EmptyURL
  else if String.eqb rawURL "*" then
    Ok {| Scheme := EmptyString; Opaque := EmptyString; User := None;
          Host := EmptyString; Path := "*"; RawPath := EmptyString;
          OmitHost := false; ForceQuery := false; RawQuery := EmptyString;
          Fragment := EmptyString; RawFragment := EmptyString |}
  else
    bind (getScheme rawURL) (fun '(scheme, rest) =>
    let scheme := strings.ToLower scheme in
    let '(rest, forceQuery, rawQuery) :=
      if strings.HasSuffix rest "?" && (strings.Count rest "?" =? 1)%nat
      then (strings.take (String.length rest - 1) rest, true, EmptyString)
      else let '(r, q, _) := strings.Cut rest "?" in (r, false, q) in
    let mk user host omitHost :=
      {| Scheme := scheme; Opaque := EmptyString; User := user; Host := host;
         Path := EmptyString; RawPath := EmptyString;
         OmitHost := omitHost; ForceQuery := forceQuery; RawQuery := rawQuery;
         Fragment := EmptyString; RawFragment := EmptyString |} in
    let rootless := negb (strings.HasPrefix rest "/") in
    if rootless && negb (is_empty scheme) then
      (* rootless paths are opaque *)
      Ok {| Scheme := scheme; Opaque := rest; User := None; Host := EmptyString;
            Path := EmptyString; RawPath := EmptyString;
            OmitHost := false; ForceQuery := forceQuery; RawQuery := rawQuery;
            Fragment := EmptyString; RawFragment := EmptyString |}
    else if rootless && viaRequest then Err InvalidURIForRequest
    else if rootless && strings.Contains (strings.Cut rest "/").1.1 ":" then
      Err FirstPathSegmentColon
    else if (negb (is_empty scheme)
             || (negb viaRequest && negb (strings.HasPrefix rest "///")))
            && strings.HasPrefix rest "//" then
      let authority := strings.drop 2 rest in
      let '(authority, rest) :=
        match strings.Index authority "/" with
        | Some i => (strings.take i authority, strings.drop i authority)
        | None => (authority, EmptyString)
        end in
      bind (parseAuthority authority) (fun '(user, host) =>
      setPath (mk user host false) rest)
    else
      setPath (mk None EmptyString
                 (negb (is_empty scheme) && strings.HasPrefix rest "/")) rest).

Definition Parse (rawURL : string) : result Error URL :=
  let '(u, frag, _) := strings.Cut rawURL "#" in
  bind (parse u false) (fun url =>
  if is_empty frag then Ok url else setFragment url frag).

(** The elements that the loop of [resolvePath] obtains by cutting
    [remaining] at each slash; [cur] is the element being read, last
    byte first. *)
Fixpoint segments (s cur : string) : list string :=
  match s with
  | EmptyString => [strings.srev cur]
  | String c s' =>
      if Ascii.eqb c "/" then strings.srev cur :: segments s' EmptyString
      else segments s' (String c cur)
  end.

Fixpoint resolve_loop (elems : list string) (dst : string) (first : bool) : string :=
  match elems with
  | [] => dst
  | elem :: elems' =>
      if String.eqb elem "." then
        (* drop *)
        resolve_loop elems' dst false
      else if String.eqb elem ".." then
        (* ignore the leading slash already written *)
        let str := strings.drop 1 dst in
        match strings.LastIndex str "/" with
        | None => resolve_loop elems' "/" true
        | Some index => resolve_loop elems' ("/" ++ strings.take index str) first
        end
      else
        resolve_loop elems' ((if first then dst else dst ++ "/") ++ elem) false
  end.

Definition resolvePath (base ref : string) : string :=
  let full :=
    match ref with
    | EmptyString => base
    | String c _ =>
        if Ascii.eqb c "/" then ref
        else match strings.LastIndex base "/" with
             | Some i => strings.take (i + 1) base ++ ref
             | None => ref
             end
    end in
  match full with
  | EmptyString => EmptyString
  | _ =>
      let elems := segments full EmptyString in
      let dst := resolve_loop elems "/" true in
      let elem := List.last elems EmptyString in
      let r := if String.eqb elem "." || String.eqb elem ".." then dst ++ "/" else dst in
      if (1 <? String.length r)%nat && strings.HasPrefix (strings.drop 1 r) "/"
      then strings.drop 1 r else r
  end.

Definition with_path (u : URL) (p : string) : URL :=
  match setPath u p with Ok u' => u' | Err _ => u end.

Definition ResolveReference (u ref : URL) : URL :=
  let url :=
    {| Scheme := if is_empty (Scheme ref) then Scheme u else Scheme ref;
       Opaque := Opaque ref; User := User ref; Host := Host ref;
       Path := Path ref; RawPath := RawPath ref;
       OmitHost := OmitHost ref; ForceQuery := ForceQuery ref;
       RawQuery := RawQuery ref; Fragment := Fragment ref;
       RawFragment := RawFragment ref |} in
  if negb (is_empty (Scheme ref)) || negb (is_empty (Host ref))
     || match User ref with Some _ => true | None => false end then
    (* the "absoluteURI" or "net_path" cases *)
    with_path url (resolvePath (EscapedPath ref) EmptyString)
  else if negb (is_empty (Opaque ref)) then
    {| Scheme := Scheme url; Opaque := Opaque url; User := None;
       Host := EmptyString; Path := EmptyString; RawPath := RawPath url;
       OmitHost := OmitHost url; ForceQuery := ForceQuery url;
       RawQuery := RawQuery url; Fragment := Fragment url;
       RawFragment := RawFragment url |}
  else
    let keep := is_empty (Path ref) && negb (ForceQuery ref) && is_empty (RawQuery ref) in
    let keepf := keep && is_empty (Fragment ref) in
    let url1 :=
      {| Scheme := Scheme url; Opaque := Opaque url; User := User url;
         Host := Host url; Path := Path url; RawPath := RawPath url;
         OmitHost := OmitHost url; ForceQuery := ForceQuery url;
         RawQuery := if keep then RawQuery u else RawQuery url;
         Fragment := if keepf then Fragment u else Fragment url;
         RawFragment := if keepf then RawFragment u else RawFragment url |} in
    if is_empty (Path ref) && negb (is_empty (Opaque u)) then
      {| Scheme := Scheme url1; Opaque := Opaque u; User := None;
         Host := EmptyString; Path := EmptyString; RawPath := RawPath url1;
         OmitHost := OmitHost url1; ForceQuery := ForceQuery url1;
         RawQuery := RawQuery url1; Fragment := Fragment url1;
         RawFragment := RawFragment url1 |}
    else
      (* the "abs_path" or "rel_path" cases *)
      with_path
        {| Scheme := Scheme url1; Opaque := Opaque url1; User := User u;
           Host := Host u; Path := Path url1; RawPath := RawPath url1;
           OmitHost := OmitHost url1; ForceQuery := ForceQuery url1;
           RawQuery := RawQuery url1; Fragment := Fragment url1;
           RawFragment := RawFragment url1 |}
        (resolvePath (EscapedPath u) (EscapedPath ref)).

Definition Userinfo_String (ui : Userinfo) : string :=
  escape (username ui) encodeUserPassword
  ++ (if passwordSet ui then ":" ++ escape (password ui) encodeUserPassword
      else EmptyString).

Definition String (u : URL) : string :=
  let scheme := if is_empty (Scheme u) then EmptyString else Scheme u ++ ":" in
  let has_user := match User u with Some _ => true | None => false end in
  let rest :=
    if negb (is_empty (Opaque u)) then scheme ++ Opaque u
    else
      let authority :=
        if negb (is_empty (Scheme u)) || negb (is_empty (Host u)) || has_user then
          if OmitHost u && is_empty (Host u) && negb has_user then EmptyString
          else
            (if negb (is_empty (Host u)) || negb (is_empty (Path u)) || has_user
             then "//" else EmptyString)
            ++ match User u with
               | Some ui => Userinfo_String ui ++ "@"
               | None => EmptyString
               end
            ++ (if is_empty (Host u) then EmptyString else escape (Host u) encodeHost)
        else EmptyString in
      let path := EscapedPath u in
      let buf := scheme ++ authority in
      let buf :=
        if negb (is_empty path) && negb (strings.HasPrefix path "/")
           && negb (is_empty (Host u))
        then buf ++ "/" else buf in
      let buf :=
        if is_empty buf && strings.Contains (strings.Cut path "/").1.1 ":"
        then buf ++ "./" else buf in
      buf ++ path in
  rest
  ++ (if ForceQuery u || negb (is_empty (RawQuery u)) then "?" ++ RawQuery u
      else EmptyString)
  ++ (if is_empty (Fragment u) then EmptyString else "#" ++ EscapedFragment u).

End url.

Definition url_Path (r : result url.Error url.URL) : option string :=
  match r with Ok u => Some (url.Path u) | Err _ => None end.

Example url_Parse_ex1 :
  url.Parse "https://www.vatican.va/archive/ENG0015/__P2.HTM"
  = Ok {| url.Scheme := "https"; url.Opaque := EmptyString; url.User := None;
          url.Host := "www.vatican.va"; url.Path := "/archive/ENG0015/__P2.HTM";
          url.RawPath := EmptyString; url.OmitHost := false;
          url.ForceQuery := false; url.RawQuery := EmptyString;
          url.Fragment := EmptyString; url.RawFragment := EmptyString |}.
Proof. reflexivity. Qed.

Example url_Parse_ex2 :
  url_Path (url.Parse "HTTP://u:p@h.org:80/a%2Fb%20c?q=1#f") = Some "/a/b c".
Proof. reflexivity. Qed.

Example url_Parse_ex3 : url_Path (url.Parse "mailto:x@y.org") = Some EmptyString.
Proof. reflexivity. Qed.

Example url_Parse_ex4 : url.Parse "/a%zz" = Err (url.EscapeError "%zz").
Proof. reflexivity. Qed.

Example url_Parse_ex5 : url.Parse "a:b/c" = Ok
  {| url.Scheme := "a"; url.Opaque := "b/c"; url.User := None;
     url.Host := EmptyString; url.Path := EmptyString;
     url.RawPath := EmptyString; url.OmitHost := false;
     url.ForceQuery := false; url.RawQuery := EmptyString;
     url.Fragment := EmptyString; url.RawFragment := EmptyString |}.
Proof. reflexivity. Qed.

Example url_Parse_ex6 : url.Parse "1a:b" = Err url.FirstPathSegmentColon.
Proof. reflexivity. Qed.

Example url_String_ex :
  match url.Parse "HTTP://u:p@h.org:80/a%2Fb%20c?q=1#f" with
  | Ok u => url.String u
  | Err _ => EmptyString
  end = "http://u:p@h.org:80/a%2Fb%20c?q=1#f".
Proof. reflexivity. Qed.

Example url_resolvePath_ex1 : url.resolvePath "/a/b/c" "../d/./e/.." = "/a/d/".
Proof. reflexivity. Qed.

Example url_resolvePath_ex2 : url.resolvePath EmptyString "/x/../../y" = "/y".
Proof. reflexivity. Qed.

(** ** The document tree ([golang.org/x/net/html]) and goquery *)

Inductive NodeType :=
| ErrorNode | TextNode | DocumentNode | ElementNode | CommentNode | DoctypeNode.

Record Attribute := { Key : string; Val : string }.

(** A node with its children in document order. *)
Unset Elimination Schemes.
Inductive Node :=
| mkNode (Type_ : NodeType) (Data : string) (Attr : list Attribute)
         (children : list Node).
Set Elimination Schemes.

Definition node_children (n : Node) : list Node :=
  match n with mkNode _ _ _ cs => cs end.

Definition node_attrs (n : Node) : list Attribute :=
  match n with mkNode _ _ attrs _ => attrs end.

Module goquery.

(** A document is its root node; a selection made by [Each] holds one
    node, and a nil [*Selection] is [None]. *)
Definition Document := Node.
Definition Selection := Node.

(** [Selection.Text]: the data of the text nodes below the node, the
    node itself included, in document order. *)
Fixpoint Text (n : Node) : string :=
  match n with
  | mkNode t d _ cs =>
      (match t with TextNode => d | _ => EmptyString end)
      ++ (fix children_text (cs : list Node) : string :=
            match cs with
            | [] => EmptyString
            | c :: cs' => Text c ++ children_text cs'
            end) cs
  end.

Definition is_element (tag : string) (n : Node) : bool :=
  match n with
  | mkNode ElementNode d _ _ => String.eqb d tag
  | _ => false
  end.

(** The matches of the type selector [tag] in the subtree of [n], [n]
    first (cascadia's [MatchAll]). *)
Fixpoint MatchAll (tag : string) (n : Node) : list Node :=
  ((if is_element tag n then [n] else [])
   ++ (fix children_matches (cs : list Node) : list Node :=
         match cs with
         | [] => []
         | c :: cs' => MatchAll tag c ++ children_matches cs'
         end) (node_children n))%list.

(** [doc.Find(tag)]: the matching descendants of the root in document
    order; the search enters the element children of the root. *)
Definition Find (tag : string) (doc : Document) : list Selection :=
  flat_map (fun c => match c with
                     | mkNode ElementNode _ _ _ => MatchAll tag c
                     | _ => []
                     end) (node_children doc).

(** [Selection.Attr]: the value of the first attribute named [name]. *)
Fixpoint attr_value (attrs : list Attribute) (name : string) : string * bool :=
  match attrs with
  | [] => (EmptyString, false)
  | a :: attrs' =>
      if String.eqb (Key a) name then (Val a, true) else attr_value attrs' name
  end.

Definition Attr (s : Selection) (name : string) : string * bool :=
  attr_value (node_attrs s) name.

End goquery.

(** Builders for documents. *)
Definition text (s : string) : Node := mkNode TextNode s [] [].
Definition elem (tag : string) (attrs : list Attribute) (cs : list Node) : Node :=
  mkNode ElementNode tag attrs cs.
Definition document (cs : list Node) : Node := mkNode DocumentNode EmptyString [] cs.
Definition href (v : string) : Attribute := {| Key := "href"; Val := v |}.

Example goquery_Find_ex :
  map goquery.Text
    (goquery.Find "p"
       (document [elem "html" [] [elem "body" []
          [elem "p" [] [text "1 a "; elem "b" [] [text "bold"]; elem "p" [] [text "in"]];
           text "loose"; elem "p" [] [text "2 b"]]]]))
  = ["1 a boldin"; "in"; "2 b"].
Proof. reflexivity. Qed.

(** ** The file system, the network and the process *)

Inductive Entry :=
| RegularFile (data : string) (readable : bool)
| Directory.

(** What the directory [cache] of the working directory is. *)
Inductive DirState := DirMissing | DirNoSearch | DirReadOnly | DirOk.

Record FS := {
  cache_dir : DirState;
  entries : gmap string Entry;   (* by the name the program opens them with *)
  disk_full : bool
}.

Module os.

Inductive StatError := ErrNotExist | ErrPermission.

Definition IsNotExist (e : StatError) : bool :=
  match e with ErrNotExist => true | ErrPermission => false end.

(** The names [cache/.] and [cache/..] are directories. *)
Definition lookup (fs : FS) (name : string) : option Entry :=
  if String.eqb name "cache/." || String.eqb name "cache/.." then Some Directory
  else entries fs !! name.

Definition Stat (fs : FS) (name : string) : result StatError unit :=
  match cache_dir fs with
  | DirMissing => Err ErrNotExist
  | DirNoSearch => Err ErrPermission
  | DirReadOnly | DirOk =>
      match lookup fs name with
      | Some _ => Ok tt
      | None => Err ErrNotExist
      end
  end.

(** [os.Create]: the file is created, or truncated when it exists. *)
Definition Create (fs : FS) (name : string) : option FS :=
  match cache_dir fs, lookup fs name with
  | DirOk, None =>
      Some {| cache_dir := cache_dir fs;
              entries := <[name := RegularFile EmptyString true]> (entries fs);
              disk_full := disk_full fs |}
  | DirOk, Some (RegularFile _ r) =>
      Some {| cache_dir := cache_dir fs;
              entries := <[name := RegularFile EmptyString r]> (entries fs);
              disk_full := disk_full fs |}
  | _, _ => None
  end.

(** [file.Write] on the file just created: nothing is stored when the
    disk is full. *)
Definition Write (fs : FS) (name : string) (b : string) : FS :=
  match entries fs !! name with
  | Some (RegularFile d r) =>
      {| cache_dir := cache_dir fs;
         entries := <[name := RegularFile (if disk_full fs then d else d ++ b) r]>
                      (entries fs);
         disk_full := disk_full fs |}
  | _ => fs
  end.

Definition ReadFile (fs : FS) (name : string) : option string :=
  match cache_dir fs with
  | DirMissing | DirNoSearch => None
  | DirReadOnly | DirOk =>
      match lookup fs name with
      | Some (RegularFile d true) => Some d
      | _ => None
      end
  end.

End os.

(** What the program prints, one constructor for each [Printf]. *)
Inductive Output :=
| ErrorParsingUrl (urlStr : string) (err : url.Error)
| ErrorGettingUrl (urlFullStr : string)
| ErrorDumpingResponse
| ErrorCreatingCacheFile (filename : string)
| ErrorReadingFile (filename : string)
| ErrorCreatingDoc
| ErrorGeneratingVaticanURL (urlPath : string)
| ErrorParsingArg (arg : string)
| Line (s : string).

Record World := {
  fs : FS;
  requests : list string;   (* the URLs given to http.Get, oldest first *)
  stdout : list Output;     (* oldest first *)
  fetched : list string     (* ghost: the URLs given to getOnce, oldest first *)
}.

(** A run returns, stops the process with [os.Exit], or is still running
    when the fuel of the loop is used up. *)
Inductive Outcome (A : Type) :=
| Return (a : A) (w : World)
| Exit (code : Z) (w : World)
| OutOfFuel.
Arguments Return {A} a w.
Arguments Exit {A} code w.
Arguments OutOfFuel {A}.

Definition M (A : Type) : Type := World -> Outcome A.

Definition ret {A} (a : A) : M A := fun w => Return a w.

Definition mbind {A B} (m : M A) (k : A -> M B) : M B :=
  fun w => match m w with
           | Return a w' => k a w'
           | Exit c w' => Exit c w'
           | OutOfFuel => OutOfFuel
           end.

Notation "'do' x <- m ; k" := (mbind m (fun x => k))
  (at level 10, x name, m at level 100, k at level 200, only parsing).
Notation "'run' m ; k" := (mbind m (fun _ => k))
  (at level 10, m at level 100, k at level 200, only parsing).

Definition os_Exit {A} (code : Z) : M A := fun w => Exit code w.

Definition set_fs (w : World) (f : FS) : World :=
  {| fs := f; requests := requests w; stdout := stdout w; fetched := fetched w |}.

Definition Printf (o : Output) : M unit :=
  fun w => Return tt {| fs := fs w; requests := requests w;
                        stdout := stdout w ++ [o]; fetched := fetched w |}.

Definition os_Stat (name : string) : M (result os.StatError unit) :=
  fun w => Return (os.Stat (fs w) name) w.

Definition os_Create (name : string) : M bool :=
  fun w => match os.Create (fs w) name with
           | Some f => Return true (set_fs w f)
           | None => Return false w
           end.

Definition file_Write (name : string) (b : string) : M unit :=
  fun w => Return tt (set_fs w (os.Write (fs w) name b)).

Definition ioutil_ReadFile (name : string) : M (option string) :=
  fun w => Return (os.ReadFile (fs w) name) w.

Definition note_fetch (urlStr : string) : M unit :=
  fun w => Return tt {| fs := fs w; requests := requests w;
                        stdout := stdout w; fetched := fetched w ++ [urlStr] |}.

(** ** main.go *)

(** A paragraph has a number (e.g. 484) and text.  [Parent] is a pointer
    to the sub-article, nil in every paragraph the program builds. *)
Record Paragraph := {
  Parent : option nat;
  Number : Z;
  Text : string;
  References : list string
}.

(** The zero value, which a Go map gives for a key it does not hold. *)
Definition Paragraph_zero : Paragraph :=
  {| Parent := None; Number := 0; Text := EmptyString; References := [] |}.

Definition map_index (paragraphs : gmap Z Paragraph) (n : Z) : Paragraph :=
  default Paragraph_zero (paragraphs !! n).

Definition vatican : string := "https://www.vatican.va".
Definition archeng : string := "/archive/ENG0015".

Definition illegalChars : string := "<>:" ++ String url.dquote "|?*".

Definition vaticanURL (relativePath : string) : result url.Error string :=
  (* some next links are absolute and some are relative *)
  if strings.HasPrefix (strings.ToLower relativePath) "http" then Ok relativePath
  else
    match url.Parse vatican with
    | Err err => Err err
    | Ok u =>
        match url.Parse (path.Join [archeng; relativePath]) with
        | Err err => Err err
        | Ok rel => Ok (url.String (url.ResolveReference u rel))
        end
    end.

(** The string of a [(string, error)] pair whose error is dropped. *)
Definition string_of {E} (r : result E string) : string :=
  match r with Ok s => s | Err _ => EmptyString end.

(** This is the first page of the catechism. *)
Definition vaticanFirstPage : string := string_of (vaticanURL "/__P2.HTM").

(** The file name computed by [urlToFilename] from the path of the URL. *)
Definition filename_of_path (path : string) : string :=
  (* replace slashes with underscores and remove trailing slash *)
  let path := strings.TrimRight (strings.ReplaceAll path "/" "_") "_" in
  (* remove any illegal characters *)
  let path := regexp.ReplaceAllString_class illegalChars path EmptyString in
  filepath.Clean path.

Definition urlToFilename (urlStr : string) : M string :=
  match url.Parse urlStr with
  | Err err => run Printf (ErrorParsingUrl urlStr err); os_Exit 1
  | Ok u => ret (filename_of_path (url.Path u))
  end.

Definition extractNumber (str : string) : Z * bool :=
  let matches := regexp.FindStringSubmatch_leading_digits str in
  if (1 <? List.length matches)%nat then
    match strconv.Atoi (nth 1 matches EmptyString) with
    | (_, Some _) => (0, false)
    | (num, None) => (num, true)
    end
  else (0, false).

(** The callback of [Each] assigns [next] and returns from the callback
    only: the iteration goes on over the remaining links. *)
Definition getNextLink (doc : goquery.Document) : option goquery.Selection :=
  fold_left
    (fun next s => if String.eqb (goquery.Text s) "Next" then Some s else next)
    (goquery.Find "a" doc) None.

(** The callback given to [doc.Find("p").Each] in [getCatechism]. *)
Definition store_paragraph (paragraphs : gmap Z Paragraph) (s : goquery.Selection)
  : gmap Z Paragraph :=
  (* check for paragraph number *)
  let '(num, startsWithNumber) := extractNumber (goquery.Text s) in
  let isStoredInMap := bool_decide (is_Some (paragraphs !! num)) in
  if startsWithNumber && negb isStoredInMap
  then <[num := {| Parent := None; Number := num; Text := goquery.Text s;
                   References := [] |}]> paragraphs
  else paragraphs.

Definition extract_paragraphs (doc : goquery.Document) (paragraphs : gmap Z Paragraph)
  : gmap Z Paragraph :=
  fold_left store_paragraph (goquery.Find "p" doc) paragraphs.

Section Crawl.

(** The network and the HTML parser: [http.Get] gives a response or an
    error, [httputil.DumpResponse] its bytes on the wire or an error,
    and [goquery.NewDocumentFromReader] a document or an error. *)
Context {Response : Type}.
Variable http_Get : string -> option Response.
Variable DumpResponse : Response -> option string.
Variable NewDocumentFromReader : string -> option goquery.Document.

Definition http_get (urlFullStr : string) : M (option Response) :=
  fun w => Return (http_Get urlFullStr)
             {| fs := fs w; requests := requests w ++ [urlFullStr];
                stdout := stdout w; fetched := fetched w |}.

(** The request made and the cache file written when the file does not
    exist. *)
Definition fetch_and_cache (urlStr filename : string) : M unit :=
  let urlFullStr :=
    if negb (strings.HasPrefix urlStr "http") then string_of (vaticanURL urlStr)
    else urlStr in
  do res <- http_get urlFullStr;
  match res with
  | None => run Printf (ErrorGettingUrl urlFullStr); os_Exit 1
  | Some res =>
      (* dump the response to raw bytes for caching *)
      match DumpResponse res with
      | None => run Printf ErrorDumpingResponse; os_Exit 1
      | Some body =>
          (* save the bytes to the cache folder *)
          do created <- os_Create filename;
          if created then file_Write filename body
          else run Printf (ErrorCreatingCacheFile filename); os_Exit 1
      end
  end.

Definition getOnce (urlStr : string) : M string :=
  run note_fetch urlStr;
  (* check if cached url is in ./cache/url file *)
  do name <- urlToFilename urlStr;
  let filename := "cache/" ++ name in
  do st <- os_Stat filename;
  run match st with
      | Err err =>
          if os.IsNotExist err then fetch_and_cache urlStr filename else ret tt
      | Ok _ => ret tt
      end;
  (* open and read the dumped response *)
  do data <- ioutil_ReadFile filename;
  match data with
  | None => run Printf (ErrorReadingFile filename); ret EmptyString
  | Some data => ret data
  end.

(** The loop of [getCatechism]; [fuel] bounds the number of pages. *)
Fixpoint getCatechism_loop (fuel : nat) (urlStr : string)
    (paragraphs : gmap Z Paragraph) : M (gmap Z Paragraph) :=
  match fuel with
  | O => fun _ => OutOfFuel
  | S fuel' =>
      do body <- getOnce urlStr;
      match NewDocumentFromReader body with
      | None => run Printf ErrorCreatingDoc; os_Exit 1
      | Some doc =>
          (* extract paragraphs from doc *)
          let paragraphs := extract_paragraphs doc paragraphs in
          (* get next link *)
          match getNextLink doc with
          | None => ret paragraphs
          | Some next =>
              let urlPath := (goquery.Attr next "href").1 in
              match vaticanURL urlPath with
              | Ok urlStr => getCatechism_loop fuel' urlStr paragraphs
              | Err _ =>
                  run Printf (ErrorGeneratingVaticanURL urlPath);
                  getCatechism_loop fuel' EmptyString paragraphs
              end
          end
      end
  end.

Definition getCatechism (fuel : nat) : M (gmap Z Paragraph) :=
  getCatechism_loop fuel vaticanFirstPage ∅.

(** What [main] does with the index.  The order in which Go ranges over
    a map is not specified: the lines of the listing are printed here in
    the order of [map_to_list]. *)
Definition main_dispatch (paragraphs : gmap Z Paragraph) (Args : list string) : M unit :=
  if (1 <? List.length Args)%nat then
    let arg := nth 1 Args EmptyString in
    match strconv.Atoi arg with
    | (_, Some _) => run Printf (ErrorParsingArg arg); os_Exit 1
    | (paragraphNumber, None) =>
        Printf (Line (Text (map_index paragraphs paragraphNumber)))
    end
  else
    fold_right
      (fun p k => run Printf (Line (strings.ReplaceAll (Text p.2) (String "010" EmptyString) " ")); k)
      (ret tt) (map_to_list paragraphs).

Definition main (fuel : nat) (Args : list string) : M unit :=
  (* load the catechism *)
  do paragraphs <- getCatechism fuel;
  main_dispatch paragraphs Args.

End Crawl.

Example vaticanFirstPage_value :
  vaticanFirstPage = "https://www.vatican.va/archive/ENG0015/__P2.HTM".
Proof. reflexivity. Qed.

Example extractNumber_ex1 : extractNumber "484 The Annunciation" = (484, true).
Proof. reflexivity. Qed.

Example extractNumber_ex2 : extractNumber "Not numbered" = (0, false).
Proof. reflexivity. Qed.

Example filename_of_path_ex :
  filename_of_path "/archive/ENG0015/__P2.HTM" = "_archive_ENG0015___P2.HTM".
Proof. reflexivity. Qed.

(** * Properties *)

#[local] Arguments String.append !s1 s2 : simpl nomatch.

(** ** The next link *)

Definition is_Next (s : goquery.Selection) : Prop := goquery.Text s = "Next".

Lemma fold_next_last (l : list goquery.Selection) (acc : option goquery.Selection) :
  fold_left
    (fun next s => if String.eqb (goquery.Text s) "Next" then Some s else next) l acc
  = match last (filter is_Next l) with
    | Some s => Some s
    | None => acc
    end.
Proof.
  revert acc. induction l as [|a l IH]; intros acc; simpl; [done|].
  rewrite IH, filter_cons.
  destruct (String.eqb_spec (goquery.Text a) "Next") as [E|E];
    destruct (decide (is_Next a)) as [D|D]; try done.
  destruct (filter is_Next l) as [|b l'] eqn:F; [done|].
  change (last (a :: b :: l')) with (last (b :: l')).
  destruct (last (b :: l')) eqn:L; [done|]. by apply last_None in L.
Qed.

(** [getNextLink] returns the last link labelled [Next] in document
    order, and nil when there is none. *)
Lemma getNextLink_last (doc : goquery.Document) :
  getNextLink doc = last (filter is_Next (goquery.Find "a" doc)).
Proof.
  unfold getNextLink. rewrite fold_next_last.
  by destruct (last (filter is_Next (goquery.Find "a" doc))).
Qed.

Lemma getNextLink_None (doc : goquery.Document) :
  getNextLink doc = None <-> filter is_Next (goquery.Find "a" doc) = [].
Proof.
  rewrite getNextLink_last. apply last_None.
Qed.

Definition two_next_first : Node := elem "a" [href "__P3.HTM"] [text "Next"].
Definition two_next_second : Node := elem "a" [href "__P9.HTM"] [text "Next"].
Definition two_next_page : goquery.Document :=
  document [elem "html" [] [elem "body" []
    [elem "p" [] [text "1 First"]; two_next_first; two_next_second]]].

(** C1, evaluated on a page with two links labelled [Next]: both are
    found by [Find], in document order, and [getNextLink] returns the
    second one, not the first. *)
Theorem getNextLink_two_Next_links :
  goquery.Find "a" two_next_page = [two_next_first; two_next_second]
  /\ is_Next two_next_first /\ is_Next two_next_second
  /\ getNextLink two_next_page = Some two_next_second
  /\ getNextLink two_next_page <> Some two_next_first.
Proof.
  repeat split; try reflexivity. discriminate.
Qed.

(** ** URL resolution *)

(** The string starts with the four letters of "http", in either case. *)
Definition http_prefixed (s : string) : Prop :=
  exists c1 c2 c3 c4 rest,
    s = String c1 (String c2 (String c3 (String c4 rest)))
    /\ (c1 = "h" \/ c1 = "H")%char /\ (c2 = "t" \/ c2 = "T")%char
    /\ (c3 = "t" \/ c3 = "T")%char /\ (c4 = "p" \/ c4 = "P")%char.

Lemma lower_byte_cases (d : ascii) :
  byte_val (strings.lower_byte d) = byte_val d
  \/ byte_val (strings.lower_byte d) = byte_val d + 32.
Proof.
  destruct d as [[] [] [] [] [] [] [] []]; vm_compute; auto.
Qed.

Lemma lower_byte_is (c l u : ascii) :
  byte_val u = byte_val l - 32 ->
  strings.lower_byte c = l -> c = l \/ c = u.
Proof.
  intros Hv Hc. pose proof (lower_byte_cases c) as [E|E]; rewrite Hc in E.
  - left. rewrite <- (ascii_N_embedding c), <- (ascii_N_embedding l).
    f_equal. unfold byte_val in E. lia.
  - right. rewrite <- (ascii_N_embedding c), <- (ascii_N_embedding u).
    f_equal. unfold byte_val in E, Hv. lia.
Qed.

Lemma HasPrefix_cons (s : string) (b : ascii) (p : string) :
  strings.HasPrefix s (String b p) = true
  <-> exists s', s = String b s' /\ strings.HasPrefix s' p = true.
Proof.
  split.
  - destruct s as [|a s']; simpl; [discriminate|].
    intros [E H]%andb_true_iff. apply Ascii.eqb_eq in E as ->. eauto.
  - intros (s' & -> & H). simpl. by rewrite Ascii.eqb_refl.
Qed.

(** The test of [vaticanURL] is the test for such a prefix. *)
Lemma http_prefix_test (s : string) :
  strings.HasPrefix (strings.ToLower s) "http" = true <-> http_prefixed s.
Proof.
  split.
  - intros (s1 & E1 & (s2 & E2 & (s3 & E3 & (s4 & E4 & _)%HasPrefix_cons)%HasPrefix_cons)%HasPrefix_cons)%HasPrefix_cons.
    destruct s as [|c1 [|c2 [|c3 [|c4 rest]]]]; simplify_eq/=.
    unfold strings.ToLower in E1. cbn [strings.smap] in E1.
    injection E1 as E1 E2 E3 E4 _.
    exists c1, c2, c3, c4, rest. split; [done|].
    split; [by apply (lower_byte_is c1 "h" "H")|].
    split; [by apply (lower_byte_is c2 "t" "T")|].
    split; [by apply (lower_byte_is c3 "t" "T")|].
    by apply (lower_byte_is c4 "p" "P").
  - intros (c1 & c2 & c3 & c4 & rest & -> & H1 & H2 & H3 & H4).
    destruct H1 as [-> | ->], H2 as [-> | ->], H3 as [-> | ->], H4 as [-> | ->];
      reflexivity.
Qed.

(** C2 as stated fails on its first test vector: the input is joined to
    the archive root, which the vector already carries. *)
Lemma vaticanURL_archive_vector_fails :
  vaticanURL "/archive/ENG0015/_INDEX.HTM"
  <> Ok "https://www.vatican.va/archive/ENG0015/_INDEX.HTM".
Proof. vm_compute. discriminate. Qed.

(** C2, amended: a path is resolved against the archive root (so
    [/_INDEX.HTM] gives the URL of the vector, and the vector's own input
    gives the archive root twice), and every input that starts with the
    letters of "http" in either case is returned unchanged. *)
Theorem vaticanURL_resolution :
  vaticanURL "/_INDEX.HTM" = Ok "https://www.vatican.va/archive/ENG0015/_INDEX.HTM"
  /\ vaticanURL "/archive/ENG0015/_INDEX.HTM"
     = Ok "https://www.vatican.va/archive/ENG0015/archive/ENG0015/_INDEX.HTM"
  /\ forall s, http_prefixed s -> vaticanURL s = Ok s.
Proof.
  split; [reflexivity|]. split; [reflexivity|].
  intros s H. apply http_prefix_test in H. unfold vaticanURL. by rewrite H.
Qed.

Lemma vaticanURL_resolution_witness :
  http_prefixed "https://example.com/x"
  /\ vaticanURL "https://example.com/x" = Ok "https://example.com/x".
Proof.
  assert (H : http_prefixed "https://example.com/x").
  { exists "h"%char, "t"%char, "t"%char, "p"%char, "s://example.com/x".
    repeat split; auto. }
  split; [exact H|].
  exact (proj2 (proj2 vaticanURL_resolution) "https://example.com/x" H).
Defined.

(** ** The index *)

Definition paragraph_of (n : Z) (t : string) : Paragraph :=
  {| Parent := None; Number := n; Text := t; References := [] |}.

(** The node is a candidate for the number [n]. *)
Definition numbered (n : Z) (s : goquery.Selection) : Prop :=
  extractNumber (goquery.Text s) = (n, true).

#[global] Instance numbered_dec (n : Z) (s : goquery.Selection) : Decision (numbered n s) :=
  decide (extractNumber (goquery.Text s) = (n, true)).

Lemma store_paragraph_lookup (m : gmap Z Paragraph) (s : goquery.Selection) (n : Z) :
  store_paragraph m s !! n
  = match m !! n with
    | Some p => Some p
    | None => if decide (numbered n s)
              then Some (paragraph_of n (goquery.Text s)) else None
    end.
Proof.
  unfold store_paragraph.
  destruct (decide (numbered n s)) as [D|D]; unfold numbered in D.
  - rewrite D. simpl. case_bool_decide as Hs; simpl.
    + destruct Hs as [p Hp]. by rewrite Hp.
    + apply eq_None_not_Some in Hs. by rewrite lookup_insert_eq, Hs.
  - destruct (extractNumber (goquery.Text s)) as [num b] eqn:E.
    destruct b; simpl; [|by destruct (m !! n)].
    case_bool_decide as Hs; simpl; [by destruct (m !! n)|].
    rewrite lookup_insert_ne by congruence. by destruct (m !! n).
Qed.

Lemma fold_store_lookup (sels : list goquery.Selection) (m : gmap Z Paragraph) (n : Z) :
  fold_left store_paragraph sels m !! n
  = match m !! n with
    | Some p => Some p
    | None => paragraph_of n ∘ goquery.Text <$> head (filter (numbered n) sels)
    end.
Proof.
  revert m. induction sels as [|a sels IH]; intros m; simpl.
  - by destruct (m !! n).
  - rewrite IH, store_paragraph_lookup, filter_cons.
    destruct (m !! n); [done|]. by destruct (decide (numbered n a)).
Qed.

Definition ten_first : Node := elem "p" [] [text "10 first text"].
Definition ten_second : Node := elem "p" [] [text "10 second text"].

(** C3: in the index built from any sequence of paragraph nodes, on top
    of any index built before, an entry that was there stays as it was,
    and a number that was absent holds the first node of the sequence
    with that number; later nodes with the number are discarded.  In
    particular two nodes numbered 10 leave the text of the first. *)
Theorem index_first_write_wins :
  (forall (sels : list goquery.Selection) (m : gmap Z Paragraph) (n : Z),
     fold_left store_paragraph sels m !! n
     = match m !! n with
       | Some p => Some p
       | None => paragraph_of n ∘ goquery.Text <$> head (filter (numbered n) sels)
       end)
  /\ fold_left store_paragraph [ten_first; ten_second] ∅ !! 10
     = Some (paragraph_of 10 "10 first text").
Proof.
  split; [apply fold_store_lookup|].
  rewrite fold_store_lookup. reflexivity.
Qed.

(** ** Leading numbers *)

(** The value of a run of decimal digits, read from the left. *)
Fixpoint decimal_from (ds : string) (acc : Z) : Z :=
  match ds with
  | EmptyString => acc
  | String c ds' => decimal_from ds' (acc * 10 + (byte_val c - 48))
  end.

Definition decimal (ds : string) : Z := decimal_from ds 0.

(** The largest [int]. *)
Definition maxInt : Z := 2 ^ 63 - 1.

Definition all_digits (ds : string) : Prop := strings.sforall is_digit ds = true.

Lemma is_digit_val (c : ascii) :
  is_digit c = true <-> 48 <= byte_val c <= 57.
Proof.
  unfold is_digit, in_range. change (byte_val "0") with 48.
  change (byte_val "9") with 57. rewrite andb_true_iff. lia.
Qed.

Lemma all_digits_cons (c : ascii) (ds : string) :
  all_digits (String c ds) <-> is_digit c = true /\ all_digits ds.
Proof. unfold all_digits. simpl. apply andb_true_iff. Qed.

Lemma decimal_from_mono (ds : string) (n : Z) :
  all_digits ds -> 0 <= n -> n <= decimal_from ds n.
Proof.
  revert n. induction ds as [|c ds IH]; intros n H Hn; simpl; [lia|].
  apply all_digits_cons in H as [Hc H]. apply is_digit_val in Hc.
  specialize (IH (n * 10 + (byte_val c - 48)) H). lia.
Qed.

Lemma decimal_from_bound (ds : string) (n : Z) :
  all_digits ds -> 0 <= n ->
  decimal_from ds n < (n + 1) * 10 ^ Z.of_nat (String.length ds).
Proof.
  revert n. induction ds as [|c ds IH]; intros n H Hn.
  - simpl. lia.
  - apply all_digits_cons in H as [Hc H]. apply is_digit_val in Hc.
    cbn [decimal_from String.length].
    specialize (IH (n * 10 + (byte_val c - 48)) H).
    rewrite Nat2Z.inj_succ, Z.pow_succ_r by lia.
    assert (0 < 10 ^ Z.of_nat (String.length ds)) by (apply Z.pow_pos_nonneg; lia).
    nia.
Qed.

Lemma atoi_fast_digits (ds : string) (n : Z) :
  all_digits ds -> strconv.atoi_fast ds n = Some (decimal_from ds n).
Proof.
  revert n. induction ds as [|c ds IH]; intros n H; simpl; [done|].
  apply all_digits_cons in H as [Hc H]. apply is_digit_val in Hc.
  change (byte_val "0") with 48.
  rewrite Z.mod_small by lia.
  destruct (Z.gtb_spec (byte_val c - 48) 9); [lia|]. by apply IH.
Qed.

Lemma parseUint_loop_digits (ds : string) (n : Z) :
  all_digits ds -> 0 <= n <= strconv.maxUint64 ->
  strconv.parseUint_loop ds n
  = if decimal_from ds n <=? strconv.maxUint64
    then (decimal_from ds n, None)
    else (strconv.maxUint64, Some strconv.ErrRange).
Proof.
  revert n. induction ds as [|c ds IH]; intros n H Hn.
  - simpl. destruct (Z.leb_spec n strconv.maxUint64); [done|lia].
  - apply all_digits_cons in H as [Hc H].
    pose proof (decimal_from_mono ds (n * 10 + (byte_val c - 48)) H) as Hm.
    cbn [strconv.parseUint_loop decimal_from]. rewrite Hc.
    apply is_digit_val in Hc. change (byte_val "0") with 48.
    cbv zeta. change (strconv.maxUint64 / 10 + 1) with 1844674407370955162.
    unfold strconv.maxUint64 in *. change (2 ^ 64 - 1) with 18446744073709551615 in *.
    change (2 ^ 64) with 18446744073709551616.
    destruct (Z.geb_spec (byte_val c - 48) 10); [lia|].
    destruct (Z.geb_spec n 1844674407370955162).
    { destruct (Z.leb_spec (decimal_from ds (n * 10 + (byte_val c - 48)))
                 18446744073709551615); [lia|done]. }
    rewrite (Z.mod_small (n * 10)) by lia.
    destruct (Z_lt_ge_dec (n * 10 + (byte_val c - 48)) 18446744073709551616) as [Hs|Hb].
    + rewrite Z.mod_small by lia.
      destruct (Z.ltb_spec (n * 10 + (byte_val c - 48)) (n * 10)); [lia|].
      destruct (Z.ltb_spec 18446744073709551615 (n * 10 + (byte_val c - 48))); [lia|].
      simpl. apply IH; [done|lia].
    + replace ((n * 10 + (byte_val c - 48)) mod 18446744073709551616)
        with (n * 10 + (byte_val c - 48) - 18446744073709551616).
      2:{ apply Z.mod_unique with 1; lia. }
      destruct (Z.ltb_spec (n * 10 + (byte_val c - 48) - 18446744073709551616) (n * 10));
        [|lia].
      simpl.
      destruct (Z.leb_spec (decimal_from ds (n * 10 + (byte_val c - 48)))
                 18446744073709551615); [lia|done].
Qed.

(** [strconv.Atoi] on a run of digits: its value when it is an [int],
    and a range error otherwise. *)
Lemma Atoi_digits (ds : string) :
  ds <> EmptyString -> all_digits ds ->
  strconv.Atoi ds
  = if decimal ds <=? maxInt then (decimal ds, None)
    else (maxInt, Some strconv.ErrRange).
Proof.
  intros Hne H. destruct ds as [|c ds]; [done|].
  pose proof H as H0. apply all_digits_cons in H0 as [Hc Hds].
  pose proof Hc as Hv. apply is_digit_val in Hv.
  assert (Hm : Ascii.eqb c "-" = false).
  { apply Ascii.eqb_neq. intros ->. change (byte_val "-") with 45 in Hv. lia. }
  assert (Hp : Ascii.eqb c "+" = false).
  { apply Ascii.eqb_neq. intros ->. change (byte_val "+") with 43 in Hv. lia. }
  unfold strconv.Atoi. change (strconv.intSize =? 32) with false.
  change (strconv.intSize =? 64) with true. cbv zeta. rewrite Hm, Hp.
  cbn [orb andb].
  destruct (Z.ltb_spec 0 (Z.of_nat (String.length (String c ds))));
    [|simpl in *; lia].
  destruct (Z.ltb_spec (Z.of_nat (String.length (String c ds))) 19) as [Hl|Hl];
    cbn [andb].
  - rewrite (atoi_fast_digits _ 0 H). fold (decimal (String c ds)).
    pose proof (decimal_from_bound (String c ds) 0 H ltac:(lia)) as Hb.
    fold (decimal (String c ds)) in Hb.
    assert (10 ^ Z.of_nat (String.length (String c ds)) <= 10 ^ 18)
      by (apply Z.pow_le_mono_r; lia).
    unfold maxInt. change (2 ^ 63 - 1) with 9223372036854775807.
    change (10 ^ 18) with 1000000000000000000 in *.
    destruct (Z.leb_spec (decimal (String c ds)) 9223372036854775807); [done|lia].
  - unfold strconv.ParseInt. rewrite Hm, Hp. cbn [orb].
    unfold strconv.ParseUint.
    rewrite (parseUint_loop_digits (String c ds) 0 H) by (unfold strconv.maxUint64; lia).
    fold (decimal (String c ds)).
    pose proof (decimal_from_mono (String c ds) 0 H ltac:(lia)) as Hge.
    fold (decimal (String c ds)) in Hge.
    unfold strconv.maxUint64, maxInt, strconv.intSize.
    change (2 ^ 64 - 1) with 18446744073709551615.
    change (2 ^ (64 - 1)) with 9223372036854775808.
    change (2 ^ 63 - 1) with 9223372036854775807.
    destruct (Z.leb_spec (decimal (String c ds)) 18446744073709551615);
      destruct (Z.leb_spec (decimal (String c ds)) 9223372036854775807);
      try lia; cbn [negb andb].
    + destruct (Z.geb_spec (decimal (String c ds)) 9223372036854775808); [lia|done].
    + destruct (Z.geb_spec (decimal (String c ds)) 9223372036854775808); [done|lia].
    + done.
Qed.

Lemma take_drop_while (f : ascii -> bool) (s : string) :
  strings.take_while f s ++ strings.drop_while f s = s.
Proof.
  induction s as [|c s IH]; simpl; [done|].
  destruct (f c); simpl; [by rewrite IH|done].
Qed.

Lemma take_while_forall (f : ascii -> bool) (s : string) :
  strings.sforall f (strings.take_while f s) = true.
Proof.
  induction s as [|c s IH]; simpl; [done|].
  destruct (f c) eqn:E; simpl; [by rewrite E|done].
Qed.

(** The string is empty or starts with a byte that is not a digit. *)
Definition no_digit_ahead (rest : string) : Prop :=
  match rest with
  | EmptyString => True
  | String c _ => is_digit c = false
  end.

Lemma drop_while_head (s : string) :
  no_digit_ahead (strings.drop_while is_digit s).
Proof.
  induction s as [|c s IH]; simpl; [done|].
  destruct (is_digit c) eqn:E; simpl; done.
Qed.

(** [ds] is the run of digits that [t] begins with. *)
Definition digit_run (t ds : string) : Prop :=
  ds <> EmptyString /\ all_digits ds
  /\ exists rest, t = ds ++ rest /\ no_digit_ahead rest.

Lemma digit_run_take_while (t ds : string) :
  digit_run t ds <->
  ds = strings.take_while is_digit t /\ ds <> EmptyString.
Proof.
  split.
  - intros (Hne & Hd & rest & -> & Hr). split; [|done]. clear Hne.
    induction ds as [|c ds IH]; simpl.
    + destruct rest as [|c r]; simpl in *; [done|]. by rewrite Hr.
    + apply all_digits_cons in Hd as [Hc Hd]. rewrite Hc. f_equal. by apply IH.
  - intros [-> Hne]. split; [done|]. split; [apply take_while_forall|].
    exists (strings.drop_while is_digit t).
    split; [by rewrite take_drop_while|apply drop_while_head].
Qed.

(** The number that a text begins with: the value of its leading run of
    digits, when there is one and the value is an [int]. *)
Definition leading_number (t : string) : option Z :=
  let ds := strings.take_while is_digit t in
  if is_empty ds then None
  else if decimal ds <=? maxInt then Some (decimal ds) else None.

Lemma leading_number_Some (t : string) (n : Z) :
  leading_number t = Some n
  <-> exists ds, digit_run t ds /\ decimal ds = n /\ n <= maxInt.
Proof.
  unfold leading_number. split.
  - destruct (strings.take_while is_digit t) as [|c ds] eqn:E; simpl; [done|].
    destruct (Z.leb_spec (decimal (String c ds)) maxInt); [|done].
    intros [= <-]. exists (String c ds). split; [|done].
    apply digit_run_take_while. by rewrite E.
  - intros (ds & [-> Hne]%digit_run_take_while & <- & Hle).
    destruct (strings.take_while is_digit t); [done|]. simpl.
    by destruct (Z.leb_spec (decimal (String a s)) maxInt); [|lia].
Qed.

(** [extractNumber] finds the leading number. *)
Lemma extractNumber_leading_number (t : string) :
  extractNumber t
  = match leading_number t with
    | Some n => (n, true)
    | None => (0, false)
    end.
Proof.
  unfold extractNumber, leading_number, regexp.FindStringSubmatch_leading_digits.
  pose proof (take_while_forall is_digit t) as Hd.
  destruct (strings.take_while is_digit t) as [|c ds]; [done|].
  cbn [List.length Nat.ltb Nat.leb nth is_empty].
  rewrite Atoi_digits by done.
  by destruct (decimal (String c ds) <=? maxInt).
Qed.

(** The candidate that a paragraph node yields, and the candidates of a
    page in document order. *)
Definition candidate (s : goquery.Selection) : option (Z * string) :=
  let '(num, startsWithNumber) := extractNumber (goquery.Text s) in
  if startsWithNumber then Some (num, goquery.Text s) else None.

Definition candidates (doc : goquery.Document) : list (Z * string) :=
  omap candidate (goquery.Find "p" doc).

Definition insert_candidate (m : gmap Z Paragraph) (c : Z * string) : gmap Z Paragraph :=
  if bool_decide (is_Some (m !! c.1)) then m else <[c.1 := paragraph_of c.1 c.2]> m.

Lemma fold_store_candidates (sels : list goquery.Selection) (m : gmap Z Paragraph) :
  fold_left store_paragraph sels m = fold_left insert_candidate (omap candidate sels) m.
Proof.
  revert m. induction sels as [|s sels IH]; intros m; simpl; [done|].
  rewrite IH. unfold store_paragraph, candidate, insert_candidate.
  destruct (extractNumber (goquery.Text s)) as [num []]; simpl; [|done].
  by destruct (bool_decide (is_Some (m !! num))).
Qed.

Definition three_node_page : goquery.Document :=
  document [elem "html" [] [elem "body" []
    [elem "p" [] [text "123 Some text"];
     elem "p" [] [text "Not numbered"];
     elem "p" [] [text "456 More text"]]]].

Definition overflow_page : goquery.Document :=
  document [elem "html" [] [elem "body" []
    [elem "p" [] [text "9223372036854775808 is one more than the largest int"]]]].

(** C5 as stated fails on a paragraph whose leading digits do not fit an
    [int]: the node begins with a run of digits and yields no candidate. *)
Lemma candidates_overflow_skipped :
  map (fun s => strings.take_while is_digit (goquery.Text s))
      (goquery.Find "p" overflow_page) = ["9223372036854775808"]
  /\ candidates overflow_page = [].
Proof. split; reflexivity. Qed.

(** C5, amended: the candidates of a page are, in document order, the
    pairs of the leading number and the full text of the paragraph nodes
    whose text begins with a run of digits of value at most 2^63 - 1;
    the other nodes are skipped; the callback of the crawl inserts these
    candidates in that order; and the page of the three nodes yields the
    two pairs of the example. *)
Theorem paragraph_candidates :
  (forall doc : goquery.Document,
     candidates doc
     = omap (fun s => (fun n => (n, goquery.Text s)) <$> leading_number (goquery.Text s))
            (goquery.Find "p" doc))
  /\ (forall (doc : goquery.Document) (m : gmap Z Paragraph),
        extract_paragraphs doc m = fold_left insert_candidate (candidates doc) m)
  /\ (forall t n, leading_number t = Some n
        <-> exists ds, digit_run t ds /\ decimal ds = n /\ n <= 2 ^ 63 - 1)
  /\ candidates three_node_page = [(123, "123 Some text"); (456, "456 More text")].
Proof.
  split; [|split; [|split]].
  - intros doc. unfold candidates.
    induction (goquery.Find "p" doc) as [|s sels IH]; [done|]. csimpl.
    rewrite IH. unfold candidate at 1. rewrite extractNumber_leading_number.
    by destruct (leading_number (goquery.Text s)).
  - intros doc m. apply fold_store_candidates.
  - apply leading_number_Some.
  - reflexivity.
Qed.

(** ** A site of three pages *)

Module Mock.

Fixpoint assoc {A} (k : string) (l : list (string * A)) : option A :=
  match l with
  | [] => None
  | (k', a) :: l' => if String.eqb k k' then Some a else assoc k l'
  end.

Definition page1 : goquery.Document :=
  document [elem "html" [] [elem "body" []
    [elem "p" [] [text "1 First"]; elem "p" [] [text "2 Second"];
     elem "a" [href "__P1.HTM"] [text "Previous"];
     elem "a" [href "__P3.HTM"] [text "Next"]]]].

Definition page2 : goquery.Document :=
  document [elem "html" [] [elem "body" []
    [elem "p" [] [text "3 Third"]; elem "p" [] [text "2 Second again"];
     elem "a" [href "/__P4.HTM"] [text "Next"]]]].

Definition page3 : goquery.Document :=
  document [elem "html" [] [elem "body" []
    [elem "p" [] [text "4 Fourth"]; elem "p" [] [text "The end"];
     elem "a" [href "__P3.HTM"] [text "Previous"]]]].

Definition url1 : string := "https://www.vatican.va/archive/ENG0015/__P2.HTM".
Definition url2 : string := "https://www.vatican.va/archive/ENG0015/__P3.HTM".
Definition url3 : string := "https://www.vatican.va/archive/ENG0015/__P4.HTM".

(** The responses on the wire stand for themselves. *)
Definition http_Get (u : string) : option string :=
  assoc u [(url1, "HTTP/1.1 200 OK page1"); (url2, "HTTP/1.1 200 OK page2");
           (url3, "HTTP/1.1 200 OK page3")].

Definition DumpResponse (res : string) : option string := Some res.

Definition NewDocumentFromReader (body : string) : option goquery.Document :=
  Some (default (document [])
          (assoc body [("HTTP/1.1 200 OK page1", page1);
                       ("HTTP/1.1 200 OK page2", page2);
                       ("HTTP/1.1 200 OK page3", page3)])).

Definition empty_cache : FS :=
  {| cache_dir := DirOk; entries := ∅; disk_full := false |}.

Definition start (f : FS) : World :=
  {| fs := f; requests := []; stdout := []; fetched := [] |}.

Definition crawl (fuel : nat) (w : World) : Outcome (gmap Z Paragraph) :=
  getCatechism http_Get DumpResponse NewDocumentFromReader fuel w.

Definition index : gmap Z Paragraph :=
  <[4 := paragraph_of 4 "4 Fourth"]>
    (<[3 := paragraph_of 3 "3 Third"]>
       (<[2 := paragraph_of 2 "2 Second"]>
          (<[1 := paragraph_of 1 "1 First"]> ∅))).

Definition filled_cache : FS :=
  {| cache_dir := DirOk;
     entries :=
       <["cache/_archive_ENG0015___P4.HTM" := RegularFile "HTTP/1.1 200 OK page3" true]>
         (<["cache/_archive_ENG0015___P3.HTM" := RegularFile "HTTP/1.1 200 OK page2" true]>
            (<["cache/_archive_ENG0015___P2.HTM" := RegularFile "HTTP/1.1 200 OK page1" true]> ∅));
     disk_full := false |}.

Definition finish : World :=
  {| fs := filled_cache; requests := [url1; url2; url3]; stdout := [];
     fetched := [url1; url2; url3] |}.

End Mock.

Example Mock_crawl_cold : Mock.crawl 3 (Mock.start Mock.empty_cache) = Return Mock.index Mock.finish.
Proof. vm_compute. reflexivity. Qed.

(** ** Consistency of the index *)

(** The text begins with a run of digits whose value is [n]. *)
Definition begins_with_number (t : string) (n : Z) : Prop :=
  exists ds, digit_run t ds /\ decimal ds = n.

(** Every key holds a paragraph of that number whose text begins with
    that number. *)
Definition index_consistent (m : gmap Z Paragraph) : Prop :=
  forall n p, m !! n = Some p -> Number p = n /\ begins_with_number (Text p) n.

Lemma numbered_begins (n : Z) (s : goquery.Selection) :
  numbered n s -> begins_with_number (goquery.Text s) n.
Proof.
  unfold numbered. rewrite extractNumber_leading_number.
  destruct (leading_number (goquery.Text s)) as [k|] eqn:E; [|done].
  intros [= ->]. apply leading_number_Some in E as (ds & Hr & Hd & _).
  by exists ds.
Qed.

Lemma store_paragraph_consistent (m : gmap Z Paragraph) (s : goquery.Selection) :
  index_consistent m -> index_consistent (store_paragraph m s).
Proof.
  intros Hm n p. rewrite store_paragraph_lookup.
  destruct (m !! n) as [q|] eqn:E.
  - intros [= <-]. by apply Hm.
  - destruct (decide (numbered n s)) as [D|D]; [|done].
    intros [= <-]. split; [done|]. by apply numbered_begins.
Qed.

Section CrawlInvariant.

Context {Response : Type}.
Variable http_Get : string -> option Response.
Variable DumpResponse : Response -> option string.
Variable NewDocumentFromReader : string -> option goquery.Document.

#[local] Abbreviation loop := (getCatechism_loop http_Get DumpResponse NewDocumentFromReader).

(** A property of the index that the callback preserves holds of the
    index that the crawl returns. *)
Lemma getCatechism_loop_preserves (P : gmap Z Paragraph -> Prop) :
  (forall m s, P m -> P (store_paragraph m s)) ->
  forall fuel urlStr m w idx w',
    P m -> loop fuel urlStr m w = Return idx w' -> P idx.
Proof.
  intros Hstep. induction fuel as [|fuel IH]; intros urlStr m w idx w' Hm; [done|].
  cbn [getCatechism_loop]. unfold mbind at 1.
  destruct (getOnce _ _ _ w) as [body w1| |]; [|done..].
  destruct (NewDocumentFromReader body) as [doc|]; [|done].
  assert (Hd : P (extract_paragraphs doc m)).
  { unfold extract_paragraphs. revert m Hm.
    induction (goquery.Find "p" doc) as [|s sels IHs]; intros m Hm; simpl; auto. }
  destruct (getNextLink doc) as [next|].
  - destruct (vaticanURL _) as [u|e]; [by apply IH|].
    unfold mbind, Printf. by apply IH.
  - by intros [= <- _].
Qed.

End CrawlInvariant.

(** C10: the empty index is consistent, every insertion of the crawl
    keeps the index consistent, and so every index that a crawl returns
    is consistent: each key [n] holds a paragraph whose [Number] is [n]
    and whose [Text] begins with a run of decimal digits of value [n]. *)
Theorem index_key_consistency :
  index_consistent ∅
  /\ (forall m s, index_consistent m -> index_consistent (store_paragraph m s))
  /\ (forall (Response : Type) (http_Get : string -> option Response)
        (DumpResponse : Response -> option string)
        (NewDocumentFromReader : string -> option goquery.Document)
        (fuel : nat) (w : World) (idx : gmap Z Paragraph) (w' : World),
        getCatechism http_Get DumpResponse NewDocumentFromReader fuel w = Return idx w' ->
        index_consistent idx).
Proof.
  split; [|split].
  - intros n p. by rewrite lookup_empty.
  - apply store_paragraph_consistent.
  - intros Response http_Get DumpResponse NewDocumentFromReader fuel w idx w' H.
    eapply getCatechism_loop_preserves; [apply store_paragraph_consistent| |exact H].
    intros n p. by rewrite lookup_empty.
Qed.

Lemma index_key_consistency_witness :
  Mock.crawl 3 (Mock.start Mock.empty_cache) = Return Mock.index Mock.finish
  /\ index_consistent Mock.index.
Proof.
  assert (H : Mock.crawl 3 (Mock.start Mock.empty_cache) = Return Mock.index Mock.finish)
    by (vm_compute; reflexivity).
  split; [exact H|].
  exact (proj2 (proj2 index_key_consistency) _ _ _ _ _ _ _ _ H).
Defined.

(** ** Lookup of a missing paragraph *)

(** C9: when the crawl has returned an index that does not hold the
    number given on the command line, the paragraph looked up has the
    empty text, and [main] prints that empty line and returns: the
    process ends normally, not through [os.Exit]. *)
Theorem lookup_miss_prints_empty_line
    (Response : Type) (http_Get : string -> option Response)
    (DumpResponse : Response -> option string)
    (NewDocumentFromReader : string -> option goquery.Document)
    (fuel : nat) (prog arg : string) (n : Z)
    (w : World) (idx : gmap Z Paragraph) (w1 : World) :
  getCatechism http_Get DumpResponse NewDocumentFromReader fuel w = Return idx w1 ->
  strconv.Atoi arg = (n, None) ->
  idx !! n = None ->
  Text (map_index idx n) = EmptyString
  /\ main http_Get DumpResponse NewDocumentFromReader fuel [prog; arg] w
     = Return tt {| fs := fs w1; requests := requests w1;
                    stdout := stdout w1 ++ [Line EmptyString];
                    fetched := fetched w1 |}.
Proof.
  intros Hc Ha Hn. unfold map_index. rewrite Hn. split; [done|].
  unfold main, mbind. rewrite Hc. unfold main_dispatch. simpl.
  rewrite Ha. unfold map_index. by rewrite Hn.
Qed.

Lemma lookup_miss_prints_empty_line_witness :
  main Mock.http_Get Mock.DumpResponse Mock.NewDocumentFromReader 3 ["ccc"; "2765"]
    (Mock.start Mock.empty_cache)
  = Return tt {| fs := Mock.filled_cache; requests := requests Mock.finish;
                 stdout := [Line EmptyString]; fetched := fetched Mock.finish |}.
Proof.
  refine (proj2 (lookup_miss_prints_empty_line _ Mock.http_Get Mock.DumpResponse
            Mock.NewDocumentFromReader 3 "ccc" "2765" 2765
            (Mock.start Mock.empty_cache) Mock.index Mock.finish _ _ _)).
  - vm_compute; reflexivity.
  - vm_compute; reflexivity.
  - vm_compute; reflexivity.
Defined.

(** ** The cached fetch *)

(** The cache key of a URL that parses, and the name of its cache file. *)
Definition cache_key (urlStr : string) : option string :=
  match url.Parse urlStr with
  | Ok u => Some (filename_of_path (url.Path u))
  | Err _ => None
  end.

Definition cache_file (name : string) : string := "cache/" ++ name.

Definition noted (urlStr : string) (w : World) : World :=
  {| fs := fs w; requests := requests w; stdout := stdout w;
     fetched := fetched w ++ [urlStr] |}.

Definition printed (o : Output) (w : World) : World :=
  {| fs := fs w; requests := requests w; stdout := stdout w ++ [o];
     fetched := fetched w |}.

(** The end of [getOnce]: the file is read, and a file that cannot be
    read gives a message and the empty data. *)
Definition read_back (filename : string) (w : World) : Outcome string :=
  match os.ReadFile (fs w) filename with
  | Some data => Return data w
  | None => Return EmptyString (printed (ErrorReadingFile filename) w)
  end.

Section CachedFetch.

Context {Response : Type}.
Variable http_Get : string -> option Response.
Variable DumpResponse : Response -> option string.

#[local] Abbreviation getOnce' := (getOnce http_Get DumpResponse).
#[local] Abbreviation fetch_and_cache' := (fetch_and_cache http_Get DumpResponse).

Lemma getOnce_unfold (urlStr : string) (w : World) :
  getOnce' urlStr w
  = match url.Parse urlStr with
    | Err err => Exit 1 (printed (ErrorParsingUrl urlStr err) (noted urlStr w))
    | Ok u =>
        let filename := cache_file (filename_of_path (url.Path u)) in
        match os.Stat (fs w) filename with
        | Err os.ErrNotExist =>
            match fetch_and_cache' urlStr filename (noted urlStr w) with
            | Return _ w' => read_back filename w'
            | Exit c w' => Exit c w'
            | OutOfFuel => OutOfFuel
            end
        | _ => read_back filename (noted urlStr w)
        end
    end.
Proof.
  unfold getOnce, urlToFilename, cache_file, read_back.
  destruct (url.Parse urlStr) as [u|e]; [|done].
  unfold mbind, note_fetch, ret, os_Stat, ioutil_ReadFile.
  cbn [fs requests stdout fetched]. fold (noted urlStr w).
  destruct (os.Stat (fs w) _) as [[]|[]]; cbn [os.IsNotExist].
  - by destruct (os.ReadFile _ _).
  - destruct (fetch_and_cache _ _ _ _ _) as [[] w'| |]; [|done..].
    by destruct (os.ReadFile _ _).
  - by destruct (os.ReadFile _ _).
Qed.

Lemma read_back_fs (filename : string) (w : World) (data : string) (w' : World) :
  read_back filename w = Return data w' ->
  fs w' = fs w /\ requests w' = requests w
  /\ data = default EmptyString (os.ReadFile (fs w) filename).
Proof.
  unfold read_back. destruct (os.ReadFile (fs w) filename); by intros [= <- <-].
Qed.

Lemma read_back_same (filename : string) (w1 w2 : World) :
  fs w1 = fs w2 ->
  exists w2', read_back filename w2
              = Return (default EmptyString (os.ReadFile (fs w1) filename)) w2'
              /\ fs w2' = fs w2 /\ requests w2' = requests w2.
Proof.
  intros E. unfold read_back. rewrite E.
  destruct (os.ReadFile (fs w2) filename); eauto.
Qed.

(** A file just created and written exists and can be read. *)
Lemma os_Create_Write (f f' : FS) (name body : string) :
  os.Stat f name = Err os.ErrNotExist ->
  os.Create f name = Some f' ->
  os.Stat (os.Write f' name body) name = Ok tt
  /\ os.ReadFile (os.Write f' name body) name
     = Some (if disk_full f then EmptyString else body).
Proof.
  unfold os.Stat, os.Create, os.ReadFile, os.Write, os.lookup.
  destruct (cache_dir f) eqn:Ed; try done.
  destruct (String.eqb name "cache/." || String.eqb name "cache/..") eqn:En; [done|].
  destruct (entries f !! name) eqn:El; [done|].
  intros _ [= <-]. cbn [entries cache_dir disk_full].
  rewrite lookup_insert_eq. cbn [entries cache_dir disk_full].
  rewrite lookup_insert_eq. by destruct (disk_full f).
Qed.

Lemma fetch_and_cache_Return (urlStr filename : string) (w w' : World) :
  os.Stat (fs w) filename = Err os.ErrNotExist ->
  fetch_and_cache' urlStr filename w = Return tt w' ->
  os.Stat (fs w') filename = Ok tt.
Proof.
  intros Hs. unfold fetch_and_cache, mbind, http_get, os_Create, file_Write, Printf, os_Exit.
  destruct (http_Get _) as [res|]; [|done].
  destruct (DumpResponse res) as [body|]; [|done].
  cbn [fs]. destruct (os.Create (fs w) filename) as [f'|] eqn:Ec; [|done].
  intros [= <-]. cbn [fs set_fs].
  exact (proj1 (os_Create_Write _ _ _ body Hs Ec)).
Qed.


(** C4: when a call of [getOnce] has returned, a second call for the same
    URL returns the same bytes, which are those of the cache file (the
    empty data when that file cannot be read), makes no request to the
    network and leaves the file system as it is. *)
Theorem getOnce_idempotent (urlStr : string) (w : World) (data : string) (w1 : World) :
  getOnce' urlStr w = Return data w1 ->
  exists name w2,
    cache_key urlStr = Some name
    /\ data = default EmptyString (os.ReadFile (fs w1) (cache_file name))
    /\ getOnce' urlStr w1 = Return data w2
    /\ requests w2 = requests w1
    /\ fs w2 = fs w1.
Proof.
  rewrite !getOnce_unfold. unfold cache_key.
  destruct (url.Parse urlStr) as [u|e]; [|done].
  cbv zeta. set (filename := cache_file (filename_of_path (url.Path u))).
  intros H. exists (filename_of_path (url.Path u)).
  fold filename.
  assert (Hrb : forall w0, read_back filename w0 = Return data w1 ->
                os.Stat (fs w1) filename <> Err os.ErrNotExist ->
                exists w2,
                  data = default EmptyString (os.ReadFile (fs w1) filename)
                  /\ match os.Stat (fs w1) filename with
                     | Err os.ErrNotExist =>
                         match fetch_and_cache' urlStr filename (noted urlStr w1) with
                         | Return _ w' => read_back filename w'
                         | Exit c w' => Exit c w'
                         | OutOfFuel => OutOfFuel
                         end
                     | _ => read_back filename (noted urlStr w1)
                     end = Return data w2
                  /\ requests w2 = requests w1 /\ fs w2 = fs w1).
  { intros w0 Hr Hne. apply read_back_fs in Hr as (Hf & _ & Hd).
    destruct (read_back_same filename w1 (noted urlStr w1) eq_refl)
      as (w2 & Hr2 & Hf2 & Hq2).
    cbn [noted fs requests] in Hf2, Hq2.
    exists w2. rewrite Hf, <- Hd in Hr2. rewrite Hf at 1. rewrite <- Hd.
    split; [done|]. split; [|done].
    by destruct (os.Stat (fs w1) filename) as [[]|[]]. }
  destruct (os.Stat (fs w) filename) as [[]|[]] eqn:Hs.
  - destruct (Hrb _ H) as (w2 & ?); [|by exists w2].
    apply read_back_fs in H as (Hf & _). rewrite Hf. cbn [fs noted]. by rewrite Hs.
  - destruct (fetch_and_cache' urlStr filename (noted urlStr w)) as [[] w'| |] eqn:Hfc;
      [|done..].
    apply fetch_and_cache_Return in Hfc; [|done].
    destruct (Hrb _ H) as (w2 & ?); [|by exists w2].
    apply read_back_fs in H as (Hf & _). by rewrite Hf, Hfc.
  - destruct (Hrb _ H) as (w2 & ?); [|by exists w2].
    apply read_back_fs in H as (Hf & _). rewrite Hf. cbn [fs noted]. by rewrite Hs.
Qed.

(** The URL that [getOnce] requests when the cache file does not exist. *)
Definition full_url (urlStr : string) : string :=
  if negb (strings.HasPrefix urlStr "http") then string_of (vaticanURL urlStr)
  else urlStr.

Definition requested (urlFullStr : string) (w : World) : World :=
  {| fs := fs w; requests := requests w ++ [urlFullStr]; stdout := stdout w;
     fetched := fetched w |}.

(** A cache file that cannot be created ends the process with status 1. *)
Lemma getOnce_create_failure_exits (urlStr : string) (u : url.URL) (w : World)
    (res : Response) (body : string) :
  url.Parse urlStr = Ok u ->
  os.Stat (fs w) (cache_file (filename_of_path (url.Path u))) = Err os.ErrNotExist ->
  http_Get (full_url urlStr) = Some res ->
  DumpResponse res = Some body ->
  os.Create (fs w) (cache_file (filename_of_path (url.Path u))) = None ->
  getOnce' urlStr w
  = Exit 1 (printed (ErrorCreatingCacheFile (cache_file (filename_of_path (url.Path u))))
              (requested (full_url urlStr) (noted urlStr w))).
Proof.
  intros Hp Hs Hg Hd Hc. rewrite getOnce_unfold, Hp. cbv zeta. rewrite Hs.
  unfold fetch_and_cache, mbind, http_get, os_Create, Printf, os_Exit.
  fold (full_url urlStr). rewrite Hg, Hd. cbn [fs noted]. by rewrite Hc.
Qed.

End CachedFetch.

Module MockCache.

(** The state after the first page has been fetched with an empty cache. *)
Definition first_cached : World :=
  {| fs := {| cache_dir := DirOk;
              entries := <["cache/_archive_ENG0015___P2.HTM"
                           := RegularFile "HTTP/1.1 200 OK page1" true]> ∅;
              disk_full := false |};
     requests := [Mock.url1]; stdout := []; fetched := [Mock.url1] |}.

(** The cache file of the first page exists and cannot be read. *)
Definition unreadable : FS :=
  {| cache_dir := DirOk;
     entries := <["cache/_archive_ENG0015___P2.HTM"
                  := RegularFile "HTTP/1.1 200 OK page1" false]> ∅;
     disk_full := false |}.

(** The cache directory cannot be written to. *)
Definition read_only : FS :=
  {| cache_dir := DirReadOnly; entries := ∅; disk_full := false |}.

End MockCache.

Example getOnce_first_page_cold :
  getOnce Mock.http_Get Mock.DumpResponse Mock.url1 (Mock.start Mock.empty_cache)
  = Return "HTTP/1.1 200 OK page1" MockCache.first_cached.
Proof. vm_compute. reflexivity. Qed.

Lemma getOnce_idempotent_witness :
  exists name w2,
    cache_key Mock.url1 = Some name
    /\ "HTTP/1.1 200 OK page1"
       = default EmptyString (os.ReadFile (fs MockCache.first_cached) (cache_file name))
    /\ getOnce Mock.http_Get Mock.DumpResponse Mock.url1 MockCache.first_cached
       = Return "HTTP/1.1 200 OK page1" w2
    /\ requests w2 = requests MockCache.first_cached
    /\ fs w2 = fs MockCache.first_cached.
Proof.
  apply (getOnce_idempotent Mock.http_Get Mock.DumpResponse Mock.url1
           (Mock.start Mock.empty_cache)).
  vm_compute. reflexivity.
Defined.

Example getOnce_read_only_cache_exits :
  getOnce Mock.http_Get Mock.DumpResponse Mock.url1 (Mock.start MockCache.read_only)
  = Exit 1 {| fs := MockCache.read_only; requests := [Mock.url1];
              stdout := [ErrorCreatingCacheFile "cache/_archive_ENG0015___P2.HTM"];
              fetched := [Mock.url1] |}.
Proof. vm_compute. reflexivity. Qed.

(** C7, evaluated on a cache file that exists and cannot be read: [Stat]
    finds the file, [ReadFile] fails, and [getOnce] prints a message and
    returns the empty data instead of ending the process; the crawl goes
    on with the empty page and returns an empty index. *)
Theorem getOnce_unreadable_file_returns :
  os.Stat MockCache.unreadable "cache/_archive_ENG0015___P2.HTM" = Ok tt
  /\ os.ReadFile MockCache.unreadable "cache/_archive_ENG0015___P2.HTM" = None
  /\ getOnce Mock.http_Get Mock.DumpResponse vaticanFirstPage
       (Mock.start MockCache.unreadable)
     = Return EmptyString
         {| fs := MockCache.unreadable; requests := [];
            stdout := [ErrorReadingFile "cache/_archive_ENG0015___P2.HTM"];
            fetched := [Mock.url1] |}
  /\ Mock.crawl 3 (Mock.start MockCache.unreadable)
     = Return ∅
         {| fs := MockCache.unreadable; requests := [];
            stdout := [ErrorReadingFile "cache/_archive_ENG0015___P2.HTM"];
            fetched := [Mock.url1] |}.
Proof. repeat split; vm_compute; reflexivity. Qed.

(** ** Cache keys *)

Lemma sforall_app (f : ascii -> bool) (s t : string) :
  strings.sforall f (s ++ t) = strings.sforall f s && strings.sforall f t.
Proof.
  induction s as [|c s IH]; simpl; [done|]. by rewrite IH, andb_assoc.
Qed.

Lemma append_empty_r (s : string) : s ++ EmptyString = s.
Proof. induction s as [|c s IH]; simpl; [done|]. by rewrite IH. Qed.

Lemma append_assoc (s t u : string) : (s ++ t) ++ u = s ++ t ++ u.
Proof. induction s as [|c s IH]; simpl; [done|]. by rewrite IH. Qed.

Lemma rev_onto_srev (s acc : string) :
  strings.rev_onto s acc = strings.srev s ++ acc.
Proof.
  unfold strings.srev. revert acc.
  induction s as [|c s IH]; intros acc; simpl; [done|].
  rewrite IH, (IH (String c EmptyString)), append_assoc. done.
Qed.

Lemma srev_cons (c : ascii) (s : string) :
  strings.srev (String c s) = strings.srev s ++ String c EmptyString.
Proof. unfold strings.srev at 1. simpl. apply rev_onto_srev. Qed.

Lemma srev_app (s t : string) :
  strings.srev (s ++ t) = strings.srev t ++ strings.srev s.
Proof.
  induction s as [|c s IH]; simpl.
  - by rewrite append_empty_r.
  - by rewrite !srev_cons, IH, append_assoc.
Qed.

Lemma srev_involutive (s : string) : strings.srev (strings.srev s) = s.
Proof.
  induction s as [|c s IH]; [done|].
  by rewrite srev_cons, srev_app, IH.
Qed.

Lemma drop_while_suffix (f : ascii -> bool) (s : string) :
  exists a, s = a ++ strings.drop_while f s.
Proof.
  induction s as [|c s [a IH]]; simpl; [by exists EmptyString|].
  destruct (f c).
  - exists (String c a). simpl. by rewrite <- IH.
  - by exists EmptyString.
Qed.

(** [TrimRight] leaves a prefix of the string. *)
Lemma TrimRight_prefix (s cutset : string) :
  exists t, s = strings.TrimRight s cutset ++ t.
Proof.
  unfold strings.TrimRight.
  destruct (drop_while_suffix (fun c => byte_in c cutset) (strings.srev s)) as [a Ha].
  exists (strings.srev a).
  rewrite <- srev_app, <- Ha. by rewrite srev_involutive.
Qed.

(** Replacing the byte of the slash by that of the underscore. *)
Definition slash_to_underscore (c : ascii) : ascii :=
  if Ascii.eqb c "/" then "_"%char else c.

Lemma ReplaceAll_slash (s : string) :
  strings.ReplaceAll s "/" "_" = strings.smap slash_to_underscore s.
Proof.
  unfold strings.ReplaceAll.
  induction s as [|c s IH]; [done|].
  cbn [strings.replace_from strings.HasPrefix strings.smap String.length Nat.sub].
  unfold slash_to_underscore at 1.
  rewrite andb_true_r. destruct (Ascii.eqb c "/"); simpl; by rewrite IH.
Qed.

Lemma ReplaceAllString_class_filter (class s : string) :
  regexp.ReplaceAllString_class class s EmptyString
  = strings.sfilter (fun c => negb (byte_in c class)) s.
Proof.
  induction s as [|c s IH]; simpl; [done|].
  destruct (byte_in c class); simpl; by rewrite IH.
Qed.

Lemma sforall_sfilter (f g : ascii -> bool) (s : string) :
  strings.sforall f s = true -> strings.sforall f (strings.sfilter g s) = true.
Proof.
  induction s as [|c s IH]; simpl; [done|].
  intros [Hc Hs]%andb_true_iff. destruct (g c); simpl; auto.
  by rewrite Hc, IH.
Qed.

Lemma sforall_sfilter_self (g : ascii -> bool) (s : string) :
  strings.sforall g (strings.sfilter g s) = true.
Proof.
  induction s as [|c s IH]; simpl; [done|].
  destruct (g c) eqn:E; simpl; [by rewrite E|done].
Qed.

Lemma sforall_byte_in (f : ascii -> bool) (s : string) (c : ascii) :
  strings.sforall f s = true -> byte_in c s = true -> f c = true.
Proof.
  induction s as [|d s IH]; simpl; [done|].
  intros [Hd Hs]%andb_true_iff [E|Hin]%orb_true_iff; [|auto].
  by apply Ascii.eqb_eq in E as ->.
Qed.

Definition not_slash (c : ascii) : bool := negb (path.is_slash c).

Lemma take_while_all (f : ascii -> bool) (s : string) :
  strings.sforall f s = true ->
  strings.take_while f s = s /\ strings.drop_while f s = EmptyString.
Proof.
  induction s as [|c s IH]; simpl; [done|].
  intros [Hc [E1 E2]%IH]%andb_true_iff. by rewrite Hc, E1, E2.
Qed.

(** [Clean] leaves a non-empty path without a slash as it is. *)
Lemma Clean_no_slash (p : string) :
  p <> EmptyString -> strings.sforall not_slash p = true -> path.Clean p = p.
Proof.
  intros Hne Hp. destruct p as [|c t]; [done|]. clear Hne.
  pose proof Hp as Hp'. simpl in Hp'. apply andb_true_iff in Hp' as [Hc Ht].
  unfold not_slash in Hc. apply negb_true_iff in Hc.
  unfold path.Clean. rewrite Hc.
  cbn [String.length path.clean_loop]. rewrite Hc.
  assert (Ht' : path.at_end_or_slash t = is_empty t).
  { destruct t as [|d t']; [done|]. simpl in Ht.
    apply andb_true_iff in Ht as [Hd _]. unfold not_slash in Hd.
    by apply negb_true_iff in Hd. }
  rewrite Ht'.
  destruct (Ascii.eqb_spec c ".") as [->|Hdot]; cbn [andb].
  - destruct t as [|d t']; cbn [is_empty].
    + (* the path is a single dot *)
      done.
    + cbn [strings.HasPrefix strings.drop].
      simpl in Ht. apply andb_true_iff in Ht as [Hd Ht].
      assert (Ht2 : path.at_end_or_slash t' = is_empty t').
      { destruct t' as [|e t'']; [done|]. simpl in Ht.
        apply andb_true_iff in Ht as [He _]. unfold not_slash in He.
        by apply negb_true_iff in He. }
      rewrite Ht2, andb_true_r.
      destruct (Ascii.eqb_spec d ".") as [->|Hd2]; cbn [andb].
      * destruct t' as [|e t'']; cbn [is_empty].
        -- (* the path is two dots *)
           done.
        -- cbn [negb orb andb String.length Nat.eqb].
           fold not_slash.
           destruct (take_while_all not_slash _ Hp) as [-> ->].
           rewrite rev_onto_srev, append_empty_r.
           destruct (strings.srev _) eqn:E.
           { apply (f_equal strings.srev) in E. by rewrite srev_involutive in E. }
           rewrite <- E. cbn [path.clean_loop]. by rewrite srev_involutive.
      * cbn [negb orb andb String.length Nat.eqb]. fold not_slash.
        destruct (take_while_all not_slash _ Hp) as [-> ->].
        rewrite rev_onto_srev, append_empty_r.
        destruct (strings.srev _) eqn:E.
        { apply (f_equal strings.srev) in E. by rewrite srev_involutive in E. }
        rewrite <- E. cbn [path.clean_loop]. by rewrite srev_involutive.
  - cbn [negb orb andb String.length Nat.eqb]. fold not_slash.
    destruct (take_while_all not_slash _ Hp) as [-> ->].
    rewrite rev_onto_srev, append_empty_r.
    destruct (strings.srev _) eqn:E.
    { apply (f_equal strings.srev) in E. by rewrite srev_involutive in E. }
    rewrite <- E.
    destruct (String.length t); cbn [path.clean_loop]; by rewrite srev_involutive.
Qed.

(** The bytes that [urlToFilename] removes. *)
Definition legal (c : ascii) : bool := negb (byte_in c illegalChars).

(** The path after the slashes are replaced, the trailing underscores
    trimmed and the illegal bytes removed. *)
Definition sanitized (p : string) : string :=
  strings.sfilter legal (strings.TrimRight (strings.smap slash_to_underscore p) "_").

Lemma smap_not_slash (p : string) :
  strings.sforall not_slash (strings.smap slash_to_underscore p) = true.
Proof.
  induction p as [|c p IH]; simpl; [done|]. rewrite IH, andb_true_r.
  unfold slash_to_underscore, not_slash, path.is_slash.
  destruct (Ascii.eqb c "/") eqn:E; [done|]. by rewrite E.
Qed.

Lemma sanitized_not_slash (p : string) :
  strings.sforall not_slash (sanitized p) = true.
Proof.
  unfold sanitized. apply sforall_sfilter.
  destruct (TrimRight_prefix (strings.smap slash_to_underscore p) "_") as [t Ht].
  pose proof (smap_not_slash p) as H. rewrite Ht, sforall_app in H.
  by apply andb_true_iff in H as [H _].
Qed.

Lemma filename_of_path_sanitized (p : string) :
  filename_of_path p
  = if is_empty (sanitized p) then "." else sanitized p.
Proof.
  unfold filename_of_path, filepath.Clean.
  rewrite ReplaceAll_slash, ReplaceAllString_class_filter. fold legal. fold (sanitized p).
  destruct (is_empty (sanitized p)) eqn:E.
  - by destruct (sanitized p).
  - apply Clean_no_slash; [by intros E'; rewrite E' in E|apply sanitized_not_slash].
Qed.

Lemma sanitized_rooted (p : string) :
  strings.HasPrefix p "/" = true ->
  sanitized p = EmptyString \/ strings.HasPrefix (sanitized p) "_" = true.
Proof.
  intros (p' & -> & _)%HasPrefix_cons. unfold sanitized.
  cbn [strings.smap]. change (slash_to_underscore "/") with "_"%char.
  destruct (TrimRight_prefix (String "_" (strings.smap slash_to_underscore p')) "_")
    as [t Ht].
  destruct (strings.TrimRight _ _) as [|c T]; [by left|].
  simpl in Ht. injection Ht as <- _. right. reflexivity.
Qed.

(** The key has no slash and none of the illegal bytes, and it is not
    empty. *)
Lemma filename_of_path_bytes (p : string) :
  filename_of_path p <> EmptyString
  /\ byte_in "/" (filename_of_path p) = false
  /\ forall c, byte_in c illegalChars = true -> byte_in c (filename_of_path p) = false.
Proof.
  rewrite filename_of_path_sanitized.
  pose proof (sanitized_not_slash p) as Hs.
  assert (Hl : strings.sforall legal (sanitized p) = true)
    by apply sforall_sfilter_self.
  destruct (sanitized p) as [|a s] eqn:E; cbn [is_empty].
  - split; [done|]. split; [done|]. intros c Hc.
    destruct (Ascii.eqb_spec c ".") as [->|Hne]; [by vm_compute in Hc|].
    simpl. by apply Ascii.eqb_neq in Hne as ->.
  - split; [done|]. split.
    + apply not_true_is_false. intros Hin.
      by pose proof (sforall_byte_in _ _ _ Hs Hin).
    + intros c Hc. apply not_true_is_false. intros Hin.
      pose proof (sforall_byte_in _ _ _ Hl Hin) as Hlc.
      unfold legal in Hlc. by rewrite Hc in Hlc.
Qed.

(** The key of an empty or rooted path is not the parent directory. *)
Lemma filename_of_path_rooted (p : string) :
  p = EmptyString \/ strings.HasPrefix p "/" = true ->
  filename_of_path p <> "..".
Proof.
  intros [->|H]; [by vm_compute|].
  rewrite filename_of_path_sanitized.
  destruct (sanitized_rooted p H) as [->|Hu]; [done|].
  destruct (sanitized p) as [|c s]; [done|]. cbn [is_empty].
  apply HasPrefix_cons in Hu as (s' & [= -> ->] & _). done.
Qed.

Lemma unescape_path_rooted (p q : string) :
  p = EmptyString \/ strings.HasPrefix p "/" = true ->
  url.unescape p url.encodePath = Ok q ->
  q = EmptyString \/ strings.HasPrefix q "/" = true.
Proof.
  intros [->|(p' & -> & _)%HasPrefix_cons].
  - simpl. intros [= <-]. by left.
  - cbn [url.unescape]. change (Ascii.eqb "/" "%") with false.
    change (Ascii.eqb "/" "+") with false. cbn [url.is_host_mode andb].
    destruct (url.unescape p' url.encodePath); [|done].
    intros [= <-]. by right.
Qed.

Lemma Index_drop (s sep : string) (i : nat) :
  strings.Index s sep = Some i -> strings.HasPrefix (strings.drop i s) sep = true.
Proof.
  revert i. induction s as [|c s IH]; intros i; cbn [strings.Index].
  - destruct (strings.HasPrefix EmptyString sep) eqn:E; [|done]. by intros [= <-].
  - destruct (strings.HasPrefix (String c s) sep) eqn:E; [by intros [= <-]|].
    destruct (strings.Index s sep) as [j|]; [|done].
    intros [= <-]. simpl. by apply IH.
Qed.

Lemma setPath_Ok (u u' : url.URL) (p : string) :
  url.setPath u p = Ok u' ->
  url.Scheme u' = url.Scheme u /\ url.unescape p url.encodePath = Ok (url.Path u').
Proof.
  unfold url.setPath, url.bind. destruct (url.unescape p url.encodePath); [|done].
  by intros [= <-].
Qed.

Lemma parse_rooted (rawURL : string) (u : url.URL) :
  url.parse rawURL false = Ok u ->
  url.Scheme u <> EmptyString ->
  url.Path u = EmptyString \/ strings.HasPrefix (url.Path u) "/" = true.
Proof.
  unfold url.parse.
  destruct (url.stringContainsCTLByte rawURL); [done|].
  cbn [andb]. rewrite andb_false_r.
  destruct (String.eqb rawURL "*"); [by intros [= <-]|].
  unfold url.bind at 1.
  destruct (url.getScheme rawURL) as [[scheme rest0]|]; [|done].
  destruct (if strings.HasSuffix rest0 "?" && (strings.Count rest0 "?" =? 1)%nat
            then _ else _) as [[rest forceQuery] rawQuery].
  rewrite andb_false_r.
  destruct (strings.HasPrefix rest "/") eqn:Hr; cbn [negb andb].
  - (* the path is rooted *)
    destruct (_ && strings.HasPrefix rest "//").
    + destruct (strings.Index (strings.drop 2 rest) "/") as [i|] eqn:Hi.
      * unfold url.bind at 1.
        destruct (url.parseAuthority _) as [[user host]|]; [|done].
        intros [_ Hp]%setPath_Ok _.
        eapply unescape_path_rooted; [|exact Hp]. right. by apply Index_drop.
      * unfold url.bind at 1.
        destruct (url.parseAuthority _) as [[user host]|]; [|done].
        intros [_ Hp]%setPath_Ok _.
        eapply unescape_path_rooted; [|exact Hp]. by left.
    + intros [_ Hp]%setPath_Ok _.
      eapply unescape_path_rooted; [|exact Hp]. by right.
  - (* the path is rootless *)
    destruct (is_empty (strings.ToLower scheme)) eqn:Hs; cbn [negb].
    + (* no scheme *)
      destruct (strings.Contains _ _); [done|].
      destruct (_ && strings.HasPrefix rest "//").
      * destruct (strings.Index (strings.drop 2 rest) "/") as [i|];
          unfold url.bind at 1;
          (destruct (url.parseAuthority _) as [[user host]|]; [|done]);
          intros [Hsc _]%setPath_Ok Hne; cbn [url.Scheme] in Hsc;
          rewrite Hsc in Hne; by destruct (strings.ToLower scheme).
      * intros [Hsc _]%setPath_Ok Hne; cbn [url.Scheme] in Hsc;
          rewrite Hsc in Hne; by destruct (strings.ToLower scheme).
    + (* a rootless path after a scheme is opaque *)
      intros [= <-] _. by left.
Qed.

Lemma setFragment_Ok (u u' : url.URL) (f : string) :
  url.setFragment u f = Ok u' ->
  url.Scheme u' = url.Scheme u /\ url.Path u' = url.Path u.
Proof.
  unfold url.setFragment, url.bind. destruct (url.unescape f url.encodeFragment); [|done].
  by intros [= <-].
Qed.

(** The path of an absolute URL is empty or rooted. *)
Lemma Parse_rooted (rawURL : string) (u : url.URL) :
  url.Parse rawURL = Ok u ->
  url.Scheme u <> EmptyString ->
  url.Path u = EmptyString \/ strings.HasPrefix (url.Path u) "/" = true.
Proof.
  unfold url.Parse.
  destruct (strings.Cut rawURL "#") as [[r frag] found].
  unfold url.bind.
  destruct (url.parse r false) as [url|] eqn:Hp; [|done].
  destruct (is_empty frag).
  - intros [= <-]. by apply parse_rooted with r.
  - intros [Hs Hpath]%setFragment_Ok. rewrite Hs, Hpath.
    by apply parse_rooted with r.
Qed.


(** C8 as stated fails on a reference without a scheme: the star is
    removed as an illegal byte, and what is left is the parent
    directory. *)
Lemma cache_key_parent_directory :
  byte_in "*" illegalChars = true
  /\ byte_in "*" "*.." = true
  /\ url_Path (url.Parse "*..") = Some "*.."
  /\ forall w, urlToFilename "*.." w = Return ".." w.
Proof. repeat split. Qed.

(** C8, amended: for every URL that parses, the cache key is a name that
    is not empty, holds no slash and none of the seven illegal bytes;
    and when the URL is absolute (it has a scheme) the key is not the
    parent directory [..]. *)
Theorem cache_key_safe (urlStr : string) (u : url.URL) (w : World) :
  url.Parse urlStr = Ok u ->
  exists name,
    urlToFilename urlStr w = Return name w
    /\ name <> EmptyString
    /\ byte_in "/" name = false
    /\ (forall c, byte_in c illegalChars = true -> byte_in c name = false)
    /\ (url.Scheme u <> EmptyString -> name <> "..").
Proof.
  intros Hp. exists (filename_of_path (url.Path u)).
  unfold urlToFilename. rewrite Hp.
  destruct (filename_of_path_bytes (url.Path u)) as (Hne & Hs & Hi).
  repeat split; try done.
  intros Hsc. apply filename_of_path_rooted. by apply Parse_rooted with urlStr.
Qed.

Lemma cache_key_safe_witness :
  exists name,
    urlToFilename "https://www.vatican.va/archive/../<ENG0015>/a:b|c?d*e/" (Mock.start Mock.empty_cache)
    = Return name (Mock.start Mock.empty_cache)
    /\ name <> EmptyString
    /\ byte_in "/" name = false
    /\ (forall c, byte_in c illegalChars = true -> byte_in c name = false)
    /\ ("https" <> EmptyString -> name <> "..").
Proof.
  refine (cache_key_safe "https://www.vatican.va/archive/../<ENG0015>/a:b|c?d*e/"
            {| url.Scheme := "https"; url.Opaque := EmptyString; url.User := None;
               url.Host := "www.vatican.va"; url.Path := "/archive/../<ENG0015>/a:b|c";
               url.RawPath := "/archive/../<ENG0015>/a:b|c"; url.OmitHost := false;
               url.ForceQuery := false; url.RawQuery := "d*e/";
               url.Fragment := EmptyString; url.RawFragment := EmptyString |}
            (Mock.start Mock.empty_cache) _).
  vm_compute. reflexivity.
Defined.

Example cache_key_ex :
  cache_key "https://www.vatican.va/archive/../<ENG0015>/a:b|c?d*e/"
  = Some "_archive_.._ENG0015_abc".
Proof. reflexivity. Qed.

(** ** The pagination walker *)

(** A page of the document: its URL, the bytes of its response and the
    tree that the parser makes of them. *)
Record Page := {
  page_url : string;
  page_body : string;
  page_doc : goquery.Document
}.

(** Each page but the last has a next link that resolves to the URL of
    the page after it, and the last page has none. *)
Fixpoint linked (pages : list Page) : Prop :=
  match pages with
  | [] => False
  | pg :: rest =>
      match rest with
      | [] => getNextLink (page_doc pg) = None
      | pg' :: _ =>
          (exists next, getNextLink (page_doc pg) = Some next
                        /\ vaticanURL (goquery.Attr next "href").1 = Ok (page_url pg'))
          /\ linked rest
      end
  end.

(** The index that the pages give, from the first to the last. *)
Definition index_of_pages (pages : list Page) (m : gmap Z Paragraph) : gmap Z Paragraph :=
  fold_left (fun m pg => extract_paragraphs (page_doc pg) m) pages m.

Lemma cache_file_inj (a b : string) : cache_file a = cache_file b -> a = b.
Proof. unfold cache_file. simpl. by intros [= ->]. Qed.

Section Walker.

Context {Response : Type}.
Variable http_Get : string -> option Response.
Variable DumpResponse : Response -> option string.
Variable NewDocumentFromReader : string -> option goquery.Document.

#[local] Abbreviation getOnce' := (getOnce http_Get DumpResponse).
#[local] Abbreviation loop := (getCatechism_loop http_Get DumpResponse NewDocumentFromReader).

(** The page is in the cache under the key [name], or the key is free
    and the network serves the page. *)
Definition served (f : FS) (name : string) (pg : Page) : Prop :=
  cache_key (page_url pg) = Some name
  /\ (os.lookup f (cache_file name) = Some (RegularFile (page_body pg) true)
      \/ (os.lookup f (cache_file name) = None
          /\ exists res, http_Get (full_url (page_url pg)) = Some res
                         /\ DumpResponse res = Some (page_body pg))).

(** Every page is served under its key, and the keys differ. *)
Definition all_served (f : FS) (pages : list Page) : Prop :=
  exists names, Forall2 (served f) names pages /\ NoDup names.

Definition parsed (pages : list Page) : Prop :=
  Forall (fun pg => NewDocumentFromReader (page_body pg) = Some (page_doc pg)) pages.

Lemma getOnce_cached (urlStr name body : string) (w : World) :
  cache_key urlStr = Some name ->
  os.Stat (fs w) (cache_file name) = Ok tt ->
  os.ReadFile (fs w) (cache_file name) = Some body ->
  getOnce' urlStr w = Return body (noted urlStr w).
Proof.
  unfold cache_key. intros Hk Hs Hr. rewrite getOnce_unfold.
  destruct (url.Parse urlStr) as [u|]; [|done]. injection Hk as Hk.
  cbv zeta. rewrite Hk, Hs. unfold read_back. cbn [noted fs]. by rewrite Hr.
Qed.

Lemma getOnce_served (name : string) (pg : Page) (w : World) :
  served (fs w) name pg ->
  cache_dir (fs w) = DirOk -> disk_full (fs w) = false ->
  exists w',
    getOnce' (page_url pg) w = Return (page_body pg) w'
    /\ fetched w' = (fetched w ++ [page_url pg])%list
    /\ cache_dir (fs w') = DirOk /\ disk_full (fs w') = false
    /\ forall name', name' <> name ->
         os.lookup (fs w') (cache_file name') = os.lookup (fs w) (cache_file name').
Proof.
  intros [Hk [Hc|[Hn (res & Hg & Hd)]]] Hdir Hfull.
  - exists (noted (page_url pg) w). split; [|done].
    apply getOnce_cached with name; [done| |].
    + unfold os.Stat. by rewrite Hdir, Hc.
    + unfold os.ReadFile. by rewrite Hdir, Hc.
  - unfold cache_key in Hk. rewrite getOnce_unfold.
    destruct (url.Parse (page_url pg)) as [u|]; [|done]. injection Hk as Hk.
    cbv zeta. rewrite Hk.
    assert (Hs : os.Stat (fs w) (cache_file name) = Err os.ErrNotExist)
      by (unfold os.Stat; by rewrite Hdir, Hn).
    rewrite Hs.
    unfold fetch_and_cache, mbind, http_get, os_Create, file_Write.
    fold (full_url (page_url pg)). rewrite Hg, Hd. cbn [fs noted].
    assert (Hcr : exists f', os.Create (fs w) (cache_file name) = Some f'
              /\ f' = {| cache_dir := cache_dir (fs w);
                         entries := <[cache_file name := RegularFile EmptyString true]>
                                      (entries (fs w));
                         disk_full := disk_full (fs w) |}).
    { unfold os.Create. rewrite Hdir, Hn. eauto. }
    destruct Hcr as (f' & Hcr & Hf'). rewrite Hcr.
    destruct (os_Create_Write _ _ _ (page_body pg) Hs Hcr) as [_ Hrd].
    rewrite Hfull in Hrd.
    unfold read_back. cbn [fs set_fs]. rewrite Hrd.
    eexists. split; [reflexivity|]. cbn [fetched fs set_fs].
    split; [done|].
    assert (Hw : os.Write f' (cache_file name) (page_body pg)
                 = {| cache_dir := cache_dir (fs w);
                      entries := <[cache_file name := RegularFile (page_body pg) true]>
                                   (entries f');
                      disk_full := disk_full (fs w) |}).
    { unfold os.Write. rewrite Hf'. cbn [entries cache_dir disk_full].
      rewrite lookup_insert_eq, Hfull. done. }
    rewrite Hw. cbn [cache_dir disk_full]. split; [done|]. split; [done|].
    intros name' Hne. unfold os.lookup. cbn [entries]. rewrite Hf'. cbn [entries].
    destruct (_ || _); [done|].
    rewrite !lookup_insert_ne; [done| |]; by intros ?%cache_file_inj.
Qed.

Lemma served_other (f f' : FS) (name' : string) (pg : Page) :
  os.lookup f' (cache_file name') = os.lookup f (cache_file name') ->
  served f name' pg -> served f' name' pg.
Proof. unfold served. intros ->. done. Qed.

Lemma served_preserved (f f' : FS) (name : string) (names : list string)
    (pages : list Page) :
  (forall name', name' <> name ->
     os.lookup f' (cache_file name') = os.lookup f (cache_file name')) ->
  name ∉ names ->
  Forall2 (served f) names pages -> Forall2 (served f') names pages.
Proof.
  intros Hother Hnin Hs. induction Hs as [|name' pg' names pages Hsv Hs IH];
    constructor.
  - apply (served_other f f'); [|exact Hsv]. apply Hother. intros ->.
    apply Hnin. by left.
  - apply IH. intros Hin. apply Hnin. by right.
Qed.

(** The walker on a chain of pages, from any index and any state in
    which the pages are served. *)
Lemma getCatechism_loop_chain (pages : list Page) :
  forall (pg : Page) (rest : list Page) (m : gmap Z Paragraph) (w : World) (fuel : nat),
    pages = pg :: rest ->
    linked pages -> parsed pages -> all_served (fs w) pages ->
    cache_dir (fs w) = DirOk -> disk_full (fs w) = false ->
    (List.length pages <= fuel)%nat ->
    exists w',
      loop fuel (page_url pg) m w = Return (index_of_pages pages m) w'
      /\ fetched w' = (fetched w ++ map page_url pages)%list.
Proof.
  induction pages as [|pg0 pages IH]; intros pg rest m w fuel [= <- <-].
  intros Hl Hp (names & Hs & Hnd) Hdir Hfull Hfuel.
  destruct fuel as [|fuel]; [simpl in Hfuel; lia|].
  apply Forall_cons in Hp as [Hp0 Hp].
  destruct names as [|name names]; [by apply Forall2_nil_cons_inv in Hs|].
  apply Forall2_cons in Hs as [Hs0 Hs]. apply NoDup_cons in Hnd as [Hnin Hnd].
  destruct (getOnce_served name pg0 w Hs0 Hdir Hfull)
    as (w1 & Hg & Hf & Hdir1 & Hfull1 & Hother).
  cbn [getCatechism_loop]. unfold mbind at 1. rewrite Hg, Hp0.
  cbn [index_of_pages fold_left]. fold (index_of_pages pages (extract_paragraphs (page_doc pg0) m)).
  destruct pages as [|pg1 pages].
  - cbn [linked] in Hl. rewrite Hl. exists w1. split; [done|]. by rewrite Hf.
  - destruct Hl as [(next & Hn & Hv) Hl]. rewrite Hn, Hv.
    destruct (IH pg1 pages (extract_paragraphs (page_doc pg0) m) w1 fuel eq_refl Hl Hp)
      as (w' & Hloop & Hfw); try done.
    + exists names. split; [|done]. by apply served_preserved with (fs w) name.
    + simpl in Hfuel |- *. lia.
    + exists w'. split; [done|]. rewrite Hfw, Hf. cbn [map]. by rewrite <- app_assoc.
Qed.

(** The walker never returns when the page it reads sends it back to
    the URL that it is reading. *)
Lemma getCatechism_loop_forever (f : FS) (urlStr body : string)
    (doc : goquery.Document) (next : goquery.Selection) (m : gmap Z Paragraph) :
  (forall w, fs w = f -> getOnce' urlStr w = Return body (noted urlStr w)) ->
  NewDocumentFromReader body = Some doc ->
  extract_paragraphs doc m = m ->
  getNextLink doc = Some next ->
  vaticanURL (goquery.Attr next "href").1 = Ok urlStr ->
  forall fuel w, fs w = f -> loop fuel urlStr m w = OutOfFuel.
Proof.
  intros Hg Hp He Hn Hv. induction fuel as [|fuel IH]; intros w Hw; [done|].
  cbn [getCatechism_loop]. unfold mbind at 1.
  rewrite (Hg w Hw), Hp, He, Hn, Hv. by apply IH.
Qed.

End Walker.

(** A site of two pages whose URLs differ in the query only. *)
Module Loop.

Definition url1 : string := "https://www.vatican.va/archive/ENG0015/__P2.HTM".
Definition url2 : string := "https://www.vatican.va/archive/ENG0015/__P2.HTM?page=2".

Definition next_link : Node := elem "a" [href "__P2.HTM?page=2"] [text "Next"].

Definition doc1 : goquery.Document :=
  document [elem "html" [] [elem "body" [] [elem "p" [] [text "1 First"]; next_link]]].

Definition doc2 : goquery.Document :=
  document [elem "html" [] [elem "body" [] [elem "p" [] [text "2 Second"]]]].

Definition first : Page :=
  {| page_url := url1; page_body := "HTTP/1.1 200 OK first"; page_doc := doc1 |}.

Definition second : Page :=
  {| page_url := url2; page_body := "HTTP/1.1 200 OK second"; page_doc := doc2 |}.

Definition http_Get (u : string) : option string :=
  Mock.assoc u [(url1, page_body first); (url2, page_body second)].

Definition NewDocumentFromReader (body : string) : option goquery.Document :=
  Some (default (document [])
          (Mock.assoc body [(page_body first, doc1); (page_body second, doc2)])).

Definition crawl (fuel : nat) (w : World) : Outcome (gmap Z Paragraph) :=
  getCatechism http_Get Mock.DumpResponse NewDocumentFromReader fuel w.

(** The cache after the first page has been fetched. *)
Definition first_cached : FS :=
  {| cache_dir := DirOk;
     entries := <["cache/_archive_ENG0015___P2.HTM" := RegularFile (page_body first) true]> ∅;
     disk_full := false |}.

End Loop.

Module MockChain.

Definition next1 : Node := elem "a" [href "__P3.HTM"] [text "Next"].
Definition next2 : Node := elem "a" [href "/__P4.HTM"] [text "Next"].

Definition first : Page :=
  {| page_url := Mock.url1; page_body := "HTTP/1.1 200 OK page1"; page_doc := Mock.page1 |}.

Definition rest : list Page :=
  [ {| page_url := Mock.url2; page_body := "HTTP/1.1 200 OK page2"; page_doc := Mock.page2 |};
    {| page_url := Mock.url3; page_body := "HTTP/1.1 200 OK page3"; page_doc := Mock.page3 |} ].

Definition pages : list Page := first :: rest.

Definition names : list string :=
  ["_archive_ENG0015___P2.HTM"; "_archive_ENG0015___P3.HTM"; "_archive_ENG0015___P4.HTM"].

End MockChain.

(** C6 as stated fails on a chain of two pages whose cache keys are the
    same: the pages are distinct, only the first has a next link, which
    leads to the second, the network serves both and the cache is empty;
    but the second URL is answered from the cache file of the first, and
    the walker never returns. *)
Lemma walker_loops_on_equal_keys :
  page_url Loop.first = vaticanFirstPage
  /\ linked [Loop.first; Loop.second]
  /\ parsed Loop.NewDocumentFromReader [Loop.first; Loop.second]
  /\ page_url Loop.first <> page_url Loop.second
  /\ Forall (fun pg => Loop.http_Get (page_url pg) = Some (page_body pg))
       [Loop.first; Loop.second]
  /\ cache_key (page_url Loop.first) = cache_key (page_url Loop.second)
  /\ forall fuel, Loop.crawl fuel (Mock.start Mock.empty_cache) = OutOfFuel.
Proof.
  split; [vm_compute; reflexivity|]. split.
  { split; [|vm_compute; reflexivity].
    exists Loop.next_link. split; vm_compute; reflexivity. }
  split.
  { unfold parsed. repeat constructor; vm_compute; reflexivity. }
  split; [discriminate|].
  split; [repeat constructor; vm_compute; reflexivity|].
  split; [vm_compute; reflexivity|].
  intros [|fuel]; [reflexivity|].
  unfold Loop.crawl, getCatechism. cbn [getCatechism_loop]. unfold mbind at 1.
  assert (H1 : getOnce Loop.http_Get Mock.DumpResponse vaticanFirstPage
                 (Mock.start Mock.empty_cache)
               = Return (page_body Loop.first)
                   {| fs := Loop.first_cached; requests := [Loop.url1]; stdout := [];
                      fetched := [Loop.url1] |}) by (vm_compute; reflexivity).
  rewrite H1.
  assert (H0 : Loop.NewDocumentFromReader (page_body Loop.first) = Some Loop.doc1)
    by (vm_compute; reflexivity).
  rewrite H0.
  assert (H2 : getNextLink Loop.doc1 = Some Loop.next_link) by (vm_compute; reflexivity).
  assert (H3 : vaticanURL (goquery.Attr Loop.next_link "href").1 = Ok Loop.url2)
    by (vm_compute; reflexivity).
  rewrite H2, H3.
  apply getCatechism_loop_forever
    with (f := Loop.first_cached) (body := page_body Loop.first)
         (doc := Loop.doc1) (next := Loop.next_link).
  - intros w Hw. apply getOnce_cached with "_archive_ENG0015___P2.HTM".
    + vm_compute; reflexivity.
    + rewrite Hw. vm_compute; reflexivity.
    + rewrite Hw. vm_compute; reflexivity.
  - exact H0.
  - vm_compute; reflexivity.
  - exact H2.
  - exact H3.
  - reflexivity.
Qed.

(** C6, amended: for every chain of pages that starts at the first page
    of the catechism, in which each page but the last has a next link
    that resolves to the page after it and the last has none, whose
    pages have cache keys that differ from one another and are each in
    the cache or, the key being free, served by the network, with a
    cache directory that can be written to, the walker visits exactly
    the pages of the chain, in the order of the chain, and returns the
    index of their paragraphs. *)
Theorem walker_visits_chain
    (Response : Type) (http_Get : string -> option Response)
    (DumpResponse : Response -> option string)
    (NewDocumentFromReader : string -> option goquery.Document)
    (first : Page) (rest : list Page) (w : World) (fuel : nat) :
  page_url first = vaticanFirstPage ->
  linked (first :: rest) ->
  parsed NewDocumentFromReader (first :: rest) ->
  all_served http_Get DumpResponse (fs w) (first :: rest) ->
  cache_dir (fs w) = DirOk -> disk_full (fs w) = false ->
  (List.length (first :: rest) <= fuel)%nat ->
  exists w',
    getCatechism http_Get DumpResponse NewDocumentFromReader fuel w
    = Return (index_of_pages (first :: rest) ∅) w'
    /\ fetched w' = (fetched w ++ map page_url (first :: rest))%list.
Proof.
  intros Hfirst Hl Hp Hs Hdir Hfull Hfuel. unfold getCatechism. rewrite <- Hfirst.
  by eapply getCatechism_loop_chain.
Qed.

Lemma walker_visits_chain_witness :
  exists w',
    getCatechism Mock.http_Get Mock.DumpResponse Mock.NewDocumentFromReader 3
      (Mock.start Mock.empty_cache)
    = Return (index_of_pages MockChain.pages ∅) w'
    /\ fetched w' = (fetched (Mock.start Mock.empty_cache) ++ map page_url MockChain.pages)%list.
Proof.
  assert (H1 : page_url MockChain.first = vaticanFirstPage) by (vm_compute; reflexivity).
  assert (H2 : linked MockChain.pages).
  { split; [exists MockChain.next1; split; vm_compute; reflexivity|].
    split; [exists MockChain.next2; split; vm_compute; reflexivity|].
    vm_compute; reflexivity. }
  assert (H3 : parsed Mock.NewDocumentFromReader MockChain.pages).
  { unfold parsed. repeat constructor; vm_compute; reflexivity. }
  assert (H4 : all_served Mock.http_Get Mock.DumpResponse
                 (fs (Mock.start Mock.empty_cache)) MockChain.pages).
  { exists MockChain.names. split.
    - repeat (apply Forall2_cons; split;
                [split; [vm_compute; reflexivity|]; right;
                 split; [vm_compute; reflexivity|];
                 eexists; split; vm_compute; reflexivity|]).
      apply Forall2_nil. exact I.
    - apply NoDup_ListNoDup. repeat constructor; simpl; intros H;
        repeat (destruct H as [H|H]; [discriminate H|]); exact H. }
  exact (walker_visits_chain _ Mock.http_Get Mock.DumpResponse
           Mock.NewDocumentFromReader MockChain.first MockChain.rest
           (Mock.start Mock.empty_cache) 3 H1 H2 H3 H4 eq_refl eq_refl
           (le_n 3)).
Defined.
Example index_of_mock_pages : index_of_pages MockChain.pages ∅ = Mock.index.
Proof. vm_compute. reflexivity. Qed.

(** * Further properties *)

(** ** What the cached fetch does to the file system and the network *)

(** The world in which a run ends. *)
Definition final_world {A} (o : Outcome A) : option World :=
  match o with
  | Return _ w => Some w
  | Exit _ w => Some w
  | OutOfFuel => None
  end.

(** [f'] holds every entry of [f], in the same directory. *)
Definition fs_extends (f f' : FS) : Prop :=
  cache_dir f' = cache_dir f /\ disk_full f' = disk_full f
  /\ forall name e, os.lookup f name = Some e -> os.lookup f' name = Some e.

Lemma fs_extends_refl (f : FS) : fs_extends f f.
Proof. by repeat split. Qed.

Lemma fs_extends_trans (f1 f2 f3 : FS) :
  fs_extends f1 f2 -> fs_extends f2 f3 -> fs_extends f1 f3.
Proof.
  intros (Hd1 & Hf1 & H1) (Hd2 & Hf2 & H2). repeat split; try congruence. auto.
Qed.

Lemma os_Create_Write_extends (f f' : FS) (name body : string) :
  os.Stat f name = Err os.ErrNotExist ->
  os.Create f name = Some f' ->
  fs_extends f (os.Write f' name body).
Proof.
  unfold os.Stat, os.Create, os.Write, os.lookup, fs_extends.
  destruct (cache_dir f) eqn:Ed; try done.
  destruct (String.eqb name "cache/." || String.eqb name "cache/..") eqn:En; [done|].
  destruct (entries f !! name) eqn:El; [done|].
  intros _ [= <-]. cbn [entries cache_dir disk_full].
  rewrite lookup_insert_eq. cbn [entries cache_dir disk_full].
  split; [done|]. split; [done|]. intros name' e. unfold os.lookup. cbn [entries].
  destruct (String.eqb name' "cache/." || String.eqb name' "cache/.."); [done|].
  intros He. destruct (decide (name = name')) as [<-|Hne]; [by rewrite El in He|].
  by rewrite !lookup_insert_ne.
Qed.

Section FetchEffects.

Context {Response : Type}.
Variable http_Get : string -> option Response.
Variable DumpResponse : Response -> option string.

#[local] Abbreviation getOnce' := (getOnce http_Get DumpResponse).
#[local] Abbreviation fetch_and_cache' := (fetch_and_cache http_Get DumpResponse).

(** The effects of the request and of the write, whatever the outcome. *)
Lemma fetch_and_cache_effects (urlStr filename : string) (w : World) :
  os.Stat (fs w) filename = Err os.ErrNotExist ->
  match fetch_and_cache' urlStr filename w with
  | Return _ w' =>
      fs_extends (fs w) (fs w') /\ os.Stat (fs w') filename = Ok tt
      /\ requests w' = (requests w ++ [full_url urlStr])%list
      /\ fetched w' = fetched w
  | Exit c w' =>
      c = 1 /\ fs w' = fs w
      /\ requests w' = (requests w ++ [full_url urlStr])%list
      /\ fetched w' = fetched w
  | OutOfFuel => False
  end.
Proof.
  intros Hs. unfold fetch_and_cache, mbind, http_get, os_Create, file_Write, Printf, os_Exit.
  fold (full_url urlStr).
  destruct (http_Get _) as [res|]; [|done].
  destruct (DumpResponse res) as [body|]; [|done].
  cbn [fs]. destruct (os.Create (fs w) filename) as [f'|] eqn:Ec; [|done].
  cbn [fs set_fs requests fetched]. split; [by apply os_Create_Write_extends|].
  split; [|done]. exact (proj1 (os_Create_Write _ _ _ body Hs Ec)).
Qed.

Lemma read_back_effects (filename : string) (w : World) :
  exists data w', read_back filename w = Return data w'
    /\ fs w' = fs w /\ requests w' = requests w /\ fetched w' = fetched w.
Proof.
  unfold read_back. destruct (os.ReadFile (fs w) filename); eauto 10.
Qed.

(** The effects of [getOnce], whatever the outcome: the process can only
    end with status 1, and then the file system is as it was; the call is
    noted; a request is made exactly when the URL parses and [Stat]
    finds no file; and no entry of the file system is lost or changed. *)
Lemma getOnce_effects (urlStr : string) (w : World) :
  exists w', final_world (getOnce' urlStr w) = Some w'
    /\ fs_extends (fs w) (fs w')
    /\ fetched w' = (fetched w ++ [urlStr])%list
    /\ requests w'
       = match cache_key urlStr with
         | Some name =>
             match os.Stat (fs w) (cache_file name) with
             | Err os.ErrNotExist => (requests w ++ [full_url urlStr])%list
             | _ => requests w
             end
         | None => requests w
         end
    /\ forall c w'', getOnce' urlStr w = Exit c w'' -> c = 1 /\ fs w'' = fs w.
Proof.
  rewrite getOnce_unfold. unfold cache_key.
  destruct (url.Parse urlStr) as [u|e].
  2:{ eexists. split; [reflexivity|]. split; [apply fs_extends_refl|].
      split; [done|]. split; [done|]. by intros c w'' [= <- <-]. }
  cbv zeta. set (filename := cache_file (filename_of_path (url.Path u))).
  assert (Hrb : forall w0 : World, fs w0 = fs w ->
           exists w', final_world (read_back filename w0) = Some w'
             /\ fs_extends (fs w) (fs w') /\ fetched w' = fetched w0
             /\ requests w' = requests w0
             /\ forall c w'', read_back filename w0 = Exit c w'' -> c = 1 /\ fs w'' = fs w).
  { intros w0 Hw0. destruct (read_back_effects filename w0) as (d & w' & -> & Hf & Hr & Hn).
    exists w'. split; [done|]. rewrite Hf, Hw0. split; [apply fs_extends_refl|]. done. }
  destruct (os.Stat (fs w) filename) as [[]|[]] eqn:Hs.
  - destruct (Hrb (noted urlStr w) eq_refl) as (w' & ? & ? & ? & ? & ?). by exists w'.
  - pose proof (fetch_and_cache_effects urlStr filename (noted urlStr w) Hs) as Hfc.
    destruct (fetch_and_cache' urlStr filename (noted urlStr w)) as [[] w1|c w1|]; [| |done].
    + destruct Hfc as (Hext & _ & Hrq & Hft).
      destruct (read_back_effects filename w1) as (d & w' & Hrd & Hf & Hr & Hn).
      rewrite Hrd. exists w'. split; [done|]. rewrite Hf, Hn, Hr, Hft, Hrq.
      split; [done|]. split; [done|]. split; [done|]. done.
    + destruct Hfc as (-> & Hf & Hrq & Hft). exists w1. split; [done|].
      rewrite Hf, Hft, Hrq. split; [apply fs_extends_refl|]. split; [done|].
      split; [done|]. by intros c w'' [= <- <-].
  - destruct (Hrb (noted urlStr w) eq_refl) as (w' & ? & ? & ? & ? & ?). by exists w'.
Qed.

End FetchEffects.

Lemma fs_extends_Stat_ReadFile (f f' : FS) (name : string) :
  fs_extends f f' ->
  os.Stat f name <> Err os.ErrNotExist ->
  os.Stat f' name = os.Stat f name /\ os.ReadFile f' name = os.ReadFile f name.
Proof.
  intros (Hd & _ & He). unfold os.Stat, os.ReadFile. rewrite Hd.
  destruct (cache_dir f); try done.
  - destruct (os.lookup f name) as [e|] eqn:El; [|done]. by rewrite (He _ _ El).
  - destruct (os.lookup f name) as [e|] eqn:El; [|done]. by rewrite (He _ _ El).
Qed.

Section Replay.

Context {Response : Type}.
Variable http_Get : string -> option Response.
Variable DumpResponse : Response -> option string.
Variable NewDocumentFromReader : string -> option goquery.Document.

#[local] Abbreviation getOnce' := (getOnce http_Get DumpResponse).
#[local] Abbreviation fetch_and_cache' := (fetch_and_cache http_Get DumpResponse).
#[local] Abbreviation loop := (getCatechism_loop http_Get DumpResponse NewDocumentFromReader).

(** What a call that returned has read, and where it has left the file. *)
Lemma getOnce_Return_read (urlStr : string) (w : World) (data : string) (w1 : World) :
  getOnce' urlStr w = Return data w1 ->
  exists name,
    cache_key urlStr = Some name
    /\ data = default EmptyString (os.ReadFile (fs w1) (cache_file name))
    /\ os.Stat (fs w1) (cache_file name) <> Err os.ErrNotExist.
Proof.
  rewrite getOnce_unfold. unfold cache_key.
  destruct (url.Parse urlStr) as [u|e]; [|done].
  cbv zeta. set (filename := cache_file (filename_of_path (url.Path u))).
  intros H. exists (filename_of_path (url.Path u)). fold filename. split; [done|].
  destruct (os.Stat (fs w) filename) as [[]|[]] eqn:Hs.
  - apply read_back_fs in H as (Hf & _ & Hd). cbn [noted fs] in *.
    rewrite Hf, Hs. by split.
  - pose proof (fetch_and_cache_effects http_Get DumpResponse urlStr filename
                  (noted urlStr w) Hs) as Hfc.
    destruct (fetch_and_cache' urlStr filename (noted urlStr w)) as [[] w0| |];
      [|done..].
    destruct Hfc as (_ & Hst & _). apply read_back_fs in H as (Hf & _ & Hd).
    rewrite Hf, Hst. by split.
  - apply read_back_fs in H as (Hf & _ & Hd). cbn [noted fs] in *.
    rewrite Hf, Hs. by split.
Qed.

(** A call that returned returns the same bytes again, without a
    request, in every state that holds the entries it left. *)
Lemma getOnce_replay (urlStr : string) (w : World) (data : string) (w1 w2 : World) :
  getOnce' urlStr w = Return data w1 ->
  fs_extends (fs w1) (fs w2) ->
  exists w2', getOnce' urlStr w2 = Return data w2'
    /\ fs w2' = fs w2 /\ requests w2' = requests w2.
Proof.
  intros (name & Hk & -> & Hne)%getOnce_Return_read Hext.
  destruct (fs_extends_Stat_ReadFile _ _ _ Hext Hne) as [Hs Hr].
  rewrite getOnce_unfold. unfold cache_key in Hk.
  destruct (url.Parse urlStr) as [u|]; [|done]. injection Hk as Hk.
  cbv zeta. rewrite Hk, Hs, <- Hr.
  destruct (read_back_same (cache_file name) w2 (noted urlStr w2) eq_refl)
    as (w2' & Hrb & Hf & Hq).
  exists w2'. split; [|done].
  by destruct (os.Stat (fs w1) (cache_file name)) as [[]|[]].
Qed.

(** The crawl loses and changes no entry of the file system. *)
Lemma getCatechism_loop_extends (fuel : nat) :
  forall urlStr m w w',
    final_world (loop fuel urlStr m w) = Some w' -> fs_extends (fs w) (fs w').
Proof.
  induction fuel as [|fuel IH]; intros urlStr m w w'; [done|].
  cbn [getCatechism_loop]. unfold mbind at 1.
  destruct (getOnce_effects http_Get DumpResponse urlStr w) as (w1 & Hw1 & Hext & _).
  destruct (getOnce' urlStr w) as [body w0|c w0|]; [| |done].
  - injection Hw1 as ->.
    destruct (NewDocumentFromReader body) as [doc|].
    2:{ cbn. by intros [= <-]. }
    destruct (getNextLink doc) as [next|].
    2:{ cbn. by intros [= <-]. }
    destruct (vaticanURL _) as [u|e].
    + intros H. eapply fs_extends_trans; [exact Hext|]. by eapply IH.
    + unfold mbind, Printf. intros H.
      eapply fs_extends_trans; [exact Hext|]. by apply IH in H.
  - injection Hw1 as ->. cbn. by intros [= <-].
Qed.

(** A crawl that returned returns the same index again, without a
    request and without a change to the file system, in every state
    that holds the entries it left. *)
Lemma getCatechism_loop_replay (fuel : nat) :
  forall urlStr m w idx w' w2,
    loop fuel urlStr m w = Return idx w' ->
    fs_extends (fs w') (fs w2) ->
    exists w2', loop fuel urlStr m w2 = Return idx w2'
      /\ fs w2' = fs w2 /\ requests w2' = requests w2.
Proof.
  induction fuel as [|fuel IH]; intros urlStr m w idx w' w2; [done|].
  cbn [getCatechism_loop]. intros Hloop Hext.
  unfold mbind at 1 in Hloop. unfold mbind at 1.
  destruct (getOnce' urlStr w) as [body w1| |] eqn:Hg; [|done..].
  assert (Hext1 : fs_extends (fs w1) (fs w')).
  { destruct (NewDocumentFromReader body) as [doc|]; [|done].
    destruct (getNextLink doc) as [next|]; [|injection Hloop as _ <-; apply fs_extends_refl].
    destruct (vaticanURL _) as [u|e].
    - eapply getCatechism_loop_extends. by rewrite Hloop.
    - unfold mbind, Printf in Hloop.
      apply (f_equal final_world), getCatechism_loop_extends in Hloop. exact Hloop. }
  destruct (getOnce_replay urlStr w body w1 w2 Hg (fs_extends_trans _ _ _ Hext1 Hext))
    as (w2a & -> & Hf2 & Hq2).
  destruct (NewDocumentFromReader body) as [doc|]; [|done].
  destruct (getNextLink doc) as [next|].
  2:{ injection Hloop as <- _. by exists w2a. }
  destruct (vaticanURL _) as [u|e].
  - destruct (IH u _ w1 idx w' w2a Hloop) as (w2' & Hl & Hf & Hq); [by rewrite Hf2|].
    exists w2'. split; [done|]. by rewrite Hf, Hq.
  - unfold mbind, Printf in Hloop |- *.
    match type of Hloop with loop _ _ _ ?w0 = _ =>
      destruct (IH EmptyString (extract_paragraphs doc m) w0 idx w'
                  {| fs := fs w2a; requests := requests w2a;
                     stdout := (stdout w2a ++ [ErrorGeneratingVaticanURL (goquery.Attr next "href").1])%list;
                     fetched := fetched w2a |} Hloop)
        as (w2' & Hl & Hf & Hq); [by rewrite Hf2|]
    end.
    exists w2'. split; [done|]. cbn [fs requests] in Hf, Hq. by rewrite Hf, Hq.
Qed.

End Replay.

(** X1: [getOnce] ends the process only with status 1, and then it has
    written nothing: the file system is as it was before the call. *)
Theorem getOnce_exit_status
    (Response : Type) (http_Get : string -> option Response)
    (DumpResponse : Response -> option string)
    (urlStr : string) (w : World) (c : Z) (w' : World) :
  getOnce http_Get DumpResponse urlStr w = Exit c w' ->
  c = 1 /\ fs w' = fs w.
Proof.
  intros H.
  destruct (getOnce_effects http_Get DumpResponse urlStr w) as (_ & _ & _ & _ & _ & He).
  by apply He.
Qed.

Lemma getOnce_exit_status_witness :
  (1 : Z) = 1 /\ MockCache.read_only = fs (Mock.start MockCache.read_only).
Proof.
  refine (getOnce_exit_status _ Mock.http_Get Mock.DumpResponse Mock.url1
            (Mock.start MockCache.read_only) 1
            {| fs := MockCache.read_only; requests := [Mock.url1];
               stdout := [ErrorCreatingCacheFile "cache/_archive_ENG0015___P2.HTM"];
               fetched := [Mock.url1] |} _).
  vm_compute. reflexivity.
Defined.

(** X2: a call of [getOnce] that returns loses and changes no entry of
    the file system: every name that held a file or a directory before
    the call holds the same one after it. *)
Theorem getOnce_keeps_entries
    (Response : Type) (http_Get : string -> option Response)
    (DumpResponse : Response -> option string)
    (urlStr : string) (w : World) (data : string) (w' : World) :
  getOnce http_Get DumpResponse urlStr w = Return data w' ->
  fs_extends (fs w) (fs w').
Proof.
  intros H.
  destruct (getOnce_effects http_Get DumpResponse urlStr w) as (w1 & Hw & Hext & _).
  rewrite H in Hw. by injection Hw as <-.
Qed.

Lemma getOnce_keeps_entries_witness :
  fs_extends (fs (Mock.start Mock.empty_cache)) (fs MockCache.first_cached).
Proof.
  refine (getOnce_keeps_entries _ Mock.http_Get Mock.DumpResponse Mock.url1
            (Mock.start Mock.empty_cache) "HTTP/1.1 200 OK page1"
            MockCache.first_cached _).
  vm_compute. reflexivity.
Defined.

(** X3: whatever its outcome, [getOnce] makes a request to the network
    exactly when the URL parses and [Stat] reports that the cache file
    does not exist, and then it makes one request, for the URL itself or
    for its resolution by [vaticanURL]; any other answer of [Stat], a
    permission error included, leads to no request. *)
Theorem getOnce_requests
    (Response : Type) (http_Get : string -> option Response)
    (DumpResponse : Response -> option string)
    (urlStr : string) (w w' : World) :
  final_world (getOnce http_Get DumpResponse urlStr w) = Some w' ->
  requests w'
  = match cache_key urlStr with
    | Some name =>
        match os.Stat (fs w) (cache_file name) with
        | Err os.ErrNotExist => (requests w ++ [full_url urlStr])%list
        | _ => requests w
        end
    | None => requests w
    end.
Proof.
  intros H.
  destruct (getOnce_effects http_Get DumpResponse urlStr w) as (w1 & Hw & _ & _ & Hr & _).
  rewrite H in Hw. by injection Hw as <-.
Qed.

Lemma getOnce_requests_witness :
  requests MockCache.first_cached = [Mock.url1].
Proof.
  refine (getOnce_requests _ Mock.http_Get Mock.DumpResponse Mock.url1
            (Mock.start Mock.empty_cache) MockCache.first_cached _).
  vm_compute. reflexivity.
Defined.

(** X4: when the cache file of the URL exists and can be read, in a
    cache directory that can be searched, [getOnce] returns the bytes of
    the file, whatever the network would answer: no request is made and
    the file system is left as it is. *)
Theorem getOnce_cache_hit
    (Response : Type) (http_Get : string -> option Response)
    (DumpResponse : Response -> option string)
    (urlStr name body : string) (w : World) :
  cache_key urlStr = Some name ->
  cache_dir (fs w) = DirOk \/ cache_dir (fs w) = DirReadOnly ->
  os.lookup (fs w) (cache_file name) = Some (RegularFile body true) ->
  getOnce http_Get DumpResponse urlStr w
  = Return body {| fs := fs w; requests := requests w; stdout := stdout w;
                   fetched := (fetched w ++ [urlStr])%list |}.
Proof.
  intros Hk Hd Hl. apply getOnce_cached with name; [done| |].
  - unfold os.Stat. rewrite Hl. by destruct Hd as [-> | ->].
  - unfold os.ReadFile. rewrite Hl. by destruct Hd as [-> | ->].
Qed.

Lemma getOnce_cache_hit_witness :
  getOnce (fun _ => @None string) Mock.DumpResponse Mock.url2 (Mock.start Mock.filled_cache)
  = Return "HTTP/1.1 200 OK page2"
      {| fs := Mock.filled_cache; requests := []; stdout := []; fetched := [Mock.url2] |}.
Proof.
  refine (getOnce_cache_hit _ (fun _ => None) Mock.DumpResponse Mock.url2
            "_archive_ENG0015___P3.HTM" "HTTP/1.1 200 OK page2"
            (Mock.start Mock.filled_cache) _ _ _).
  - vm_compute. reflexivity.
  - left. reflexivity.
  - vm_compute. reflexivity.
Defined.

(** X5: when the cache file of the URL does not exist, in a cache
    directory that can be written to on a disk that is not full, and the
    network answers, [getOnce] makes one request, stores the dumped
    response under the key of the URL, and returns those bytes; every
    other name of the file system is left as it was. *)
Theorem getOnce_cache_miss
    (Response : Type) (http_Get : string -> option Response)
    (DumpResponse : Response -> option string)
    (urlStr name body : string) (res : Response) (w : World) :
  cache_key urlStr = Some name ->
  cache_dir (fs w) = DirOk -> disk_full (fs w) = false ->
  os.lookup (fs w) (cache_file name) = None ->
  http_Get (full_url urlStr) = Some res ->
  DumpResponse res = Some body ->
  exists w',
    getOnce http_Get DumpResponse urlStr w = Return body w'
    /\ requests w' = (requests w ++ [full_url urlStr])%list
    /\ os.Stat (fs w') (cache_file name) = Ok tt
    /\ default EmptyString (os.ReadFile (fs w') (cache_file name)) = body
    /\ forall name', name' <> name ->
         os.lookup (fs w') (cache_file name') = os.lookup (fs w) (cache_file name').
Proof.
  intros Hk Hdir Hfull Hl Hg Hd.
  set (pg := {| page_url := urlStr; page_body := body; page_doc := document [] |}).
  destruct (getOnce_served http_Get DumpResponse name pg w) as (w' & Hret & _ & _ & _ & Ho);
    [|done..|].
  { split; [done|]. right. split; [done|]. by exists res. }
  cbn [page_url page_body pg] in Hret. exists w'. split; [done|].
  assert (Hst : os.Stat (fs w) (cache_file name) = Err os.ErrNotExist)
    by (unfold os.Stat; by rewrite Hdir, Hl).
  destruct (getOnce_effects http_Get DumpResponse urlStr w)
    as (w1 & Hw & (Hd' & _ & _) & _ & Hr & _).
  rewrite Hret in Hw. injection Hw as <-. rewrite Hk, Hst in Hr. split; [done|].
  destruct (getOnce_Return_read http_Get DumpResponse urlStr w body w' Hret)
    as (name0 & Hk0 & Hb & Hne).
  rewrite Hk in Hk0. injection Hk0 as <-. split; [|split; [done|exact Ho]].
  unfold os.Stat in *. rewrite Hd', Hdir in *.
  by destruct (os.lookup (fs w') (cache_file name)).
Qed.

Lemma getOnce_cache_miss_witness :
  exists w',
    getOnce Mock.http_Get Mock.DumpResponse Mock.url1 (Mock.start Mock.empty_cache)
    = Return "HTTP/1.1 200 OK page1" w'
    /\ requests w' = (requests (Mock.start Mock.empty_cache) ++ [full_url Mock.url1])%list
    /\ os.Stat (fs w') (cache_file "_archive_ENG0015___P2.HTM") = Ok tt
    /\ default EmptyString (os.ReadFile (fs w') (cache_file "_archive_ENG0015___P2.HTM"))
       = "HTTP/1.1 200 OK page1"
    /\ forall name', name' <> "_archive_ENG0015___P2.HTM" ->
         os.lookup (fs w') (cache_file name')
         = os.lookup (fs (Mock.start Mock.empty_cache)) (cache_file name').
Proof.
  refine (getOnce_cache_miss _ Mock.http_Get Mock.DumpResponse Mock.url1
            "_archive_ENG0015___P2.HTM" "HTTP/1.1 200 OK page1"
            "HTTP/1.1 200 OK page1" (Mock.start Mock.empty_cache) _ _ _ _ _ _).
  - vm_compute. reflexivity.
  - reflexivity.
  - reflexivity.
  - vm_compute. reflexivity.
  - vm_compute. reflexivity.
  - reflexivity.
Defined.

(** X6: whatever its outcome, the crawl loses and changes no entry of
    the file system: cache files are only added, never rewritten or
    removed. *)
Theorem getCatechism_keeps_entries
    (Response : Type) (http_Get : string -> option Response)
    (DumpResponse : Response -> option string)
    (NewDocumentFromReader : string -> option goquery.Document)
    (fuel : nat) (w w' : World) :
  final_world (getCatechism http_Get DumpResponse NewDocumentFromReader fuel w) = Some w' ->
  fs_extends (fs w) (fs w').
Proof. apply getCatechism_loop_extends. Qed.

Lemma getCatechism_keeps_entries_witness :
  fs_extends (fs (Mock.start Mock.empty_cache)) (fs Mock.finish).
Proof.
  refine (getCatechism_keeps_entries _ Mock.http_Get Mock.DumpResponse
            Mock.NewDocumentFromReader 3 (Mock.start Mock.empty_cache) Mock.finish _).
  vm_compute. reflexivity.
Defined.

(** X7: a crawl that has returned an index returns the same index when
    it is run again in the state it has left, and the second run makes
    no request to the network and leaves the file system as it is. *)
Theorem getCatechism_repeat_run
    (Response : Type) (http_Get : string -> option Response)
    (DumpResponse : Response -> option string)
    (NewDocumentFromReader : string -> option goquery.Document)
    (fuel : nat) (w : World) (idx : gmap Z Paragraph) (w' : World) :
  getCatechism http_Get DumpResponse NewDocumentFromReader fuel w = Return idx w' ->
  exists w'',
    getCatechism http_Get DumpResponse NewDocumentFromReader fuel w' = Return idx w''
    /\ requests w'' = requests w' /\ fs w'' = fs w'.
Proof.
  intros H.
  destruct (getCatechism_loop_replay http_Get DumpResponse NewDocumentFromReader
              fuel _ _ w idx w' w' H (fs_extends_refl _)) as (w'' & ? & ? & ?).
  by exists w''.
Qed.

Lemma getCatechism_repeat_run_witness :
  exists w'',
    getCatechism Mock.http_Get Mock.DumpResponse Mock.NewDocumentFromReader 3 Mock.finish
    = Return Mock.index w''
    /\ requests w'' = requests Mock.finish /\ fs w'' = fs Mock.finish.
Proof.
  refine (getCatechism_repeat_run _ Mock.http_Get Mock.DumpResponse
            Mock.NewDocumentFromReader 3 (Mock.start Mock.empty_cache) Mock.index
            Mock.finish _).
  vm_compute. reflexivity.
Defined.

(** ** The next link, in general *)

(** X8: [getNextLink] returns nil exactly when no link of the page has
    the text [Next]; a link that it returns is a link of the page whose
    text is [Next]; and when several links have that text it returns the
    one after which no other has it, the last in document order. *)
Theorem getNextLink_spec (doc : goquery.Document) :
  (getNextLink doc = None
   <-> forall s, s ∈ goquery.Find "a" doc -> goquery.Text s <> "Next")
  /\ (forall s, getNextLink doc = Some s ->
        s ∈ goquery.Find "a" doc /\ goquery.Text s = "Next")
  /\ (forall l1 s l2,
        goquery.Find "a" doc = (l1 ++ s :: l2)%list ->
        goquery.Text s = "Next" ->
        (forall s', s' ∈ l2 -> goquery.Text s' <> "Next") ->
        getNextLink doc = Some s).
Proof.
  rewrite getNextLink_last. split; [|split].
  - rewrite last_None. split.
    + intros Hf s Hin Ht.
      assert (Hs : s ∈ filter is_Next (goquery.Find "a" doc))
        by (by apply list_elem_of_filter).
      rewrite Hf in Hs. by apply elem_of_nil in Hs.
    + intros Hall. apply elem_of_nil_inv. intros s [Hn Hin]%list_elem_of_filter.
      by apply (Hall s).
  - intros s Hl.
    assert (Hs : s ∈ filter is_Next (goquery.Find "a" doc)).
    { apply last_Some in Hl as [l' ->]. apply elem_of_app. right. by left. }
    apply list_elem_of_filter in Hs as [Hn Hin]. by split.
  - intros l1 s l2 -> Ht Hall.
    rewrite filter_app, filter_cons, decide_True by done.
    assert (filter is_Next l2 = []) as ->.
    { apply elem_of_nil_inv. intros s' [Hn Hin]%list_elem_of_filter.
      by apply (Hall s'). }
    apply last_snoc.
Qed.

Lemma getNextLink_spec_witness :
  getNextLink two_next_page = Some two_next_second.
Proof.
  refine (proj2 (proj2 (getNextLink_spec two_next_page))
            [two_next_first] two_next_second [] _ _ _).
  - vm_compute. reflexivity.
  - vm_compute. reflexivity.
  - intros s' H. by apply elem_of_nil in H.
Defined.

(** ** Numbers *)

Lemma decimal_nonneg (ds : string) : all_digits ds -> 0 <= decimal ds.
Proof. intros H. by apply (decimal_from_mono ds 0). Qed.

(** X9: the number that [extractNumber] returns is never negative and
    never above 2^63 - 1; it is 0 whenever no number is reported; and a
    number is reported only for a text whose first byte is a decimal
    digit, so that a sign or a space before the digits gives none. *)
Theorem extractNumber_range (t : string) (n : Z) (b : bool) :
  extractNumber t = (n, b) ->
  0 <= n <= 2 ^ 63 - 1
  /\ (b = false -> n = 0)
  /\ (b = true -> exists c rest, t = String c rest /\ is_digit c = true).
Proof.
  rewrite extractNumber_leading_number.
  destruct (leading_number t) as [k|] eqn:E.
  - intros [= <- <-].
    apply leading_number_Some in E as (ds & (Hne & Hd & rest & -> & _) & <- & Hle).
    split; [split; [by apply decimal_nonneg|exact Hle]|]. split; [done|].
    intros _. destruct ds as [|c ds]; [done|].
    apply all_digits_cons in Hd as [Hc _]. by exists c, (ds ++ rest).
  - intros [= <- <-]. split; [done|]. by split.
Qed.

Lemma extractNumber_range_witness :
  0 <= 484 <= 2 ^ 63 - 1
  /\ (true = false -> 484 = 0)
  /\ (true = true -> exists c rest,
        "484 The Annunciation" = String c rest /\ is_digit c = true).
Proof.
  refine (extractNumber_range "484 The Annunciation" 484 true _).
  vm_compute. reflexivity.
Defined.

(** The keys of the index are numbers that [extractNumber] reports. *)
Definition keys_in_range (m : gmap Z Paragraph) : Prop :=
  forall n, is_Some (m !! n) -> 0 <= n <= 2 ^ 63 - 1.

Lemma store_paragraph_keys_in_range (m : gmap Z Paragraph) (s : goquery.Selection) :
  keys_in_range m -> keys_in_range (store_paragraph m s).
Proof.
  intros Hm n [p Hp]. rewrite store_paragraph_lookup in Hp.
  destruct (m !! n) as [q|] eqn:E; [by apply Hm; rewrite E|].
  destruct (decide (numbered n s)) as [D|D]; [|done].
  unfold numbered in D. by apply extractNumber_range in D as [? _].
Qed.

(** ** The command line *)

(** The arguments that [strconv.Atoi] can read: decimal digits, at least
    one, after at most one sign. *)
Definition is_int_syntax (s : string) : bool :=
  match s with
  | EmptyString => false
  | String c s' =>
      if Ascii.eqb c "+" || Ascii.eqb c "-"
      then negb (is_empty s') && strings.sforall is_digit s'
      else strings.sforall is_digit s
  end.

Lemma atoi_fast_Some (s : string) (n v : Z) :
  strconv.atoi_fast s n = Some v -> strings.sforall is_digit s = true.
Proof.
  revert n. induction s as [|c s IH]; intros n; simpl; [done|].
  change (byte_val "0") with 48.
  destruct (Z.gtb_spec ((byte_val c - 48) mod 256) 9) as [|Hle]; [done|].
  intros H. rewrite (IH _ H), andb_true_r. apply is_digit_val.
  assert (0 <= byte_val c < 256).
  { unfold byte_val. pose proof (N_ascii_bounded c). lia. }
  destruct (Z_lt_ge_dec (byte_val c) 48) as [Hlt|Hge].
  - replace ((byte_val c - 48) mod 256) with (byte_val c - 48 + 256) in Hle; [lia|].
    apply Z.mod_unique with (-1); lia.
  - rewrite Z.mod_small in Hle; lia.
Qed.

Lemma parseUint_loop_None (s : string) (n v : Z) :
  strconv.parseUint_loop s n = (v, None) -> strings.sforall is_digit s = true.
Proof.
  revert n. induction s as [|c s IH]; intros n; [done|].
  cbn [strconv.parseUint_loop strings.sforall]. cbv zeta.
  destruct (is_digit c) eqn:Hc.
  - destruct (_ >=? 10); [done|]. destruct (n >=? _); [done|].
    destruct (_ || _); [done|]. apply IH.
  - destruct (is_lower (strings.lower_byte c)) eqn:Hl; [|done].
    destruct (Z.geb_spec (byte_val (strings.lower_byte c) - byte_val "a" + 10) 10);
      [done|].
    unfold is_lower, in_range in Hl. apply andb_true_iff in Hl as [Hl _]. lia.
Qed.

Lemma parseUint_loop_ErrRange (s : string) (n v : Z) :
  strconv.parseUint_loop s n = (v, Some strconv.ErrRange) -> v = strconv.maxUint64.
Proof.
  revert n. induction s as [|c s IH]; intros n; [done|].
  cbn [strconv.parseUint_loop]. cbv zeta.
  destruct (if is_digit c then _ else _); [|by intros [=]].
  destruct (_ >=? 10); [by intros [=]|]. destruct (n >=? _); [by intros [= <-]|].
  destruct (_ || _); [by intros [= <-]|]. apply IH.
Qed.

Lemma ParseInt_range_check (neg : bool) (n : Z) :
  (if negb neg && (strconv.maxUint64 >=? 2 ^ (strconv.intSize - 1))
   then (2 ^ (strconv.intSize - 1) - 1, Some strconv.ErrRange)
   else if neg && (strconv.maxUint64 >? 2 ^ (strconv.intSize - 1))
        then (- 2 ^ (strconv.intSize - 1), Some strconv.ErrRange)
        else (if neg then - strconv.maxUint64 else strconv.maxUint64, None))
  <> (n, None).
Proof. by destruct neg. Qed.

(** [Atoi] succeeds only on the syntax of an integer. *)
Lemma Atoi_Ok_syntax (s : string) (n : Z) :
  strconv.Atoi s = (n, None) -> is_int_syntax s = true.
Proof.
  unfold strconv.Atoi, is_int_syntax.
  destruct s as [|c s']; [by vm_compute|].
  destruct (_ || _) eqn:Hfast.
  - rewrite (orb_comm (Ascii.eqb c "+")).
    destruct (Ascii.eqb c "-" || Ascii.eqb c "+") eqn:Hsign; cbn [andb].
    + destruct s' as [|d s'']; [by intros [=]|].
      cbn [String.length Nat.ltb Nat.leb is_empty negb andb].
      destruct (strconv.atoi_fast _ 0) eqn:Ha; [|by intros [=]].
      intros _. by apply atoi_fast_Some in Ha.
    + destruct (strconv.atoi_fast _ 0) eqn:Ha; [|by intros [=]].
      intros _. by apply atoi_fast_Some in Ha.
  - unfold strconv.ParseInt, strconv.ParseUint.
    destruct (Ascii.eqb c "+" || Ascii.eqb c "-") eqn:Hsign.
    + destruct s' as [|d s'']; [by intros [=]|].
      destruct (strconv.parseUint_loop (String d s'') 0) as [un [[]|]] eqn:Hp.
      * by intros [=].
      * apply parseUint_loop_ErrRange in Hp as ->. intros H.
        by apply ParseInt_range_check in H.
      * intros _. cbn [is_empty negb andb]. by apply parseUint_loop_None in Hp.
    + destruct (strconv.parseUint_loop (String c s') 0) as [un [[]|]] eqn:Hp.
      * by intros [=].
      * apply parseUint_loop_ErrRange in Hp as ->. intros H.
        by apply ParseInt_range_check in H.
      * intros _. by apply parseUint_loop_None in Hp.
Qed.

Section CommandLine.

Context {Response : Type}.
Variable http_Get : string -> option Response.
Variable DumpResponse : Response -> option string.
Variable NewDocumentFromReader : string -> option goquery.Document.

#[local] Abbreviation getCatechism' :=
  (getCatechism http_Get DumpResponse NewDocumentFromReader).
#[local] Abbreviation main' := (main http_Get DumpResponse NewDocumentFromReader).

Lemma getCatechism_keys_in_range (fuel : nat) (w : World) (idx : gmap Z Paragraph)
    (w' : World) :
  getCatechism' fuel w = Return idx w' -> keys_in_range idx.
Proof.
  intros H.
  eapply getCatechism_loop_preserves; [apply store_paragraph_keys_in_range| |exact H].
  intros n [p Hp]. by rewrite lookup_empty in Hp.
Qed.

Lemma getCatechism_consistent (fuel : nat) (w : World) (idx : gmap Z Paragraph)
    (w' : World) :
  getCatechism' fuel w = Return idx w' -> index_consistent idx.
Proof.
  intros H.
  eapply getCatechism_loop_preserves; [apply store_paragraph_consistent| |exact H].
  intros n p. by rewrite lookup_empty.
Qed.

(** X10: [main] reads its first argument only after the crawl; when the
    argument does not have the syntax of a decimal integer (digits, at
    least one, after at most one sign), [main] prints a message and ends
    the process with status 1, whatever the index holds and whatever
    arguments follow.  The words [begin] and [next] are such arguments. *)
Theorem main_rejects_non_numbers (fuel : nat) (prog arg : string) (more : list string)
    (w : World) (idx : gmap Z Paragraph) (w1 : World) :
  getCatechism' fuel w = Return idx w1 ->
  is_int_syntax arg = false ->
  main' fuel (prog :: arg :: more) w
  = Exit 1 {| fs := fs w1; requests := requests w1;
              stdout := (stdout w1 ++ [ErrorParsingArg arg])%list;
              fetched := fetched w1 |}.
Proof.
  intros Hc Hs. unfold main, mbind. rewrite Hc. unfold main_dispatch.
  cbn [List.length Nat.ltb Nat.leb nth].
  destruct (strconv.Atoi arg) as [n [e|]] eqn:Ha; [done|].
  apply Atoi_Ok_syntax in Ha. by rewrite Ha in Hs.
Qed.

(** X11: when the crawl has returned an index that holds the number
    given as first argument, [main] prints the text of that paragraph
    as it is stored, on one [Println], and returns; the paragraph has
    that number, and the text printed begins with the digits of that
    number. *)
Theorem main_prints_paragraph (fuel : nat) (prog arg : string) (more : list string)
    (n : Z) (p : Paragraph) (w : World) (idx : gmap Z Paragraph) (w1 : World) :
  getCatechism' fuel w = Return idx w1 ->
  strconv.Atoi arg = (n, None) ->
  idx !! n = Some p ->
  main' fuel (prog :: arg :: more) w
  = Return tt {| fs := fs w1; requests := requests w1;
                 stdout := (stdout w1 ++ [Line (Text p)])%list;
                 fetched := fetched w1 |}
  /\ Number p = n
  /\ begins_with_number (Text p) n.
Proof.
  intros Hc Ha Hp. split.
  - unfold main, mbind. rewrite Hc. unfold main_dispatch.
    cbn [List.length Nat.ltb Nat.leb nth]. rewrite Ha. unfold map_index.
    by rewrite Hp.
  - by apply (getCatechism_consistent fuel w idx w1 Hc).
Qed.

(** X12: no paragraph has a negative number, so that for a negative
    first argument [main] prints an empty line and returns, whatever the
    pages hold. *)
Theorem main_negative_number (fuel : nat) (prog arg : string) (more : list string)
    (n : Z) (w : World) (idx : gmap Z Paragraph) (w1 : World) :
  getCatechism' fuel w = Return idx w1 ->
  strconv.Atoi arg = (n, None) ->
  n < 0 ->
  idx !! n = None
  /\ main' fuel (prog :: arg :: more) w
     = Return tt {| fs := fs w1; requests := requests w1;
                    stdout := (stdout w1 ++ [Line EmptyString])%list;
                    fetched := fetched w1 |}.
Proof.
  intros Hc Ha Hn.
  assert (Hnone : idx !! n = None).
  { apply eq_None_not_Some. intros Hs.
    apply (getCatechism_keys_in_range fuel w idx w1 Hc) in Hs. lia. }
  split; [done|].
  unfold main, mbind. rewrite Hc. unfold main_dispatch.
  cbn [List.length Nat.ltb Nat.leb nth]. rewrite Ha. unfold map_index.
  by rewrite Hnone.
Qed.

End CommandLine.

(** The line that the listing prints for a text: each newline is
    replaced by a space. *)
Definition newline : ascii := "010"%char.

Definition newline_to_space (c : ascii) : ascii :=
  if Ascii.eqb c newline then " "%char else c.

Lemma ReplaceAll_newline (s : string) :
  strings.ReplaceAll s (String newline EmptyString) " "
  = strings.smap newline_to_space s.
Proof.
  unfold strings.ReplaceAll.
  induction s as [|c s IH]; [done|].
  cbn [strings.replace_from strings.HasPrefix strings.smap String.length Nat.sub].
  unfold newline_to_space at 1.
  rewrite andb_true_r. destruct (Ascii.eqb c newline); simpl; by rewrite IH.
Qed.

Lemma smap_newline_free (s : string) :
  byte_in newline (strings.smap newline_to_space s) = false.
Proof.
  induction s as [|c s IH]; [done|]. cbn [strings.smap byte_in]. rewrite IH, orb_false_r.
  unfold newline_to_space. destruct (Ascii.eqb c newline) eqn:E; [done|].
  by rewrite Ascii.eqb_sym.
Qed.

Lemma print_lines (l : list (Z * Paragraph)) (w : World) :
  fold_right
    (fun p k => run Printf (Line (strings.ReplaceAll (Text p.2) (String "010" EmptyString) " ")); k)
    (ret tt) l w
  = Return tt {| fs := fs w; requests := requests w;
                 stdout := (stdout w
                            ++ map (fun p => Line (strings.smap newline_to_space (Text p.2))) l)%list;
                 fetched := fetched w |}.
Proof.
  revert w. induction l as [|p l IH]; intros w.
  - simpl. unfold ret. rewrite app_nil_r. by destruct w.
  - cbn [fold_right map]. unfold mbind at 1, Printf at 1. rewrite IH.
    cbn [fs requests stdout fetched]. change (String "010" EmptyString) with (String newline EmptyString).
    by rewrite ReplaceAll_newline, <- app_assoc.
Qed.

(** X13: without an argument, [main] prints one line for each paragraph
    of the index, which is the text of the paragraph with each newline
    replaced by a space, so that no line printed holds a newline, and
    returns.  (The order of the lines is that of Go's range over the
    map, which is not specified: the lines are given up to their
    order.) *)
Theorem main_lists_paragraphs
    (Response : Type) (http_Get : string -> option Response)
    (DumpResponse : Response -> option string)
    (NewDocumentFromReader : string -> option goquery.Document)
    (fuel : nat) (prog : string) (w : World) (idx : gmap Z Paragraph) (w1 : World) :
  getCatechism http_Get DumpResponse NewDocumentFromReader fuel w = Return idx w1 ->
  exists lines,
    main http_Get DumpResponse NewDocumentFromReader fuel [prog] w
    = Return tt {| fs := fs w1; requests := requests w1;
                   stdout := (stdout w1 ++ map Line lines)%list;
                   fetched := fetched w1 |}
    /\ lines ≡ₚ map (fun kp => strings.smap newline_to_space (Text kp.2)) (map_to_list idx)
    /\ List.length lines = size idx
    /\ Forall (fun line => byte_in newline line = false) lines.
Proof.
  intros Hc.
  exists (map (fun kp => strings.smap newline_to_space (Text kp.2)) (map_to_list idx)).
  split; [|split; [done|split]].
  - unfold main, mbind. rewrite Hc. unfold main_dispatch.
    cbn [List.length Nat.ltb Nat.leb]. rewrite print_lines. by rewrite map_map.
  - by rewrite length_map, length_map_to_list.
  - apply Forall_map, Forall_forall. intros kp _. apply smap_newline_free.
Qed.

Lemma main_rejects_non_numbers_witness :
  main Mock.http_Get Mock.DumpResponse Mock.NewDocumentFromReader 3 ["ccc"; "begin"]
    (Mock.start Mock.empty_cache)
  = Exit 1 {| fs := fs Mock.finish; requests := requests Mock.finish;
              stdout := (stdout Mock.finish ++ [ErrorParsingArg "begin"])%list;
              fetched := fetched Mock.finish |}.
Proof.
  refine (main_rejects_non_numbers Mock.http_Get Mock.DumpResponse
            Mock.NewDocumentFromReader 3 "ccc" "begin" []
            (Mock.start Mock.empty_cache) Mock.index Mock.finish _ _).
  - vm_compute. reflexivity.
  - reflexivity.
Defined.

Lemma main_prints_paragraph_witness :
  main Mock.http_Get Mock.DumpResponse Mock.NewDocumentFromReader 3 ["ccc"; "3"]
    (Mock.start Mock.empty_cache)
  = Return tt {| fs := fs Mock.finish; requests := requests Mock.finish;
                 stdout := (stdout Mock.finish ++ [Line (Text (paragraph_of 3 "3 Third"))])%list;
                 fetched := fetched Mock.finish |}
  /\ Number (paragraph_of 3 "3 Third") = 3
  /\ begins_with_number (Text (paragraph_of 3 "3 Third")) 3.
Proof.
  refine (main_prints_paragraph Mock.http_Get Mock.DumpResponse
            Mock.NewDocumentFromReader 3 "ccc" "3" [] 3 (paragraph_of 3 "3 Third")
            (Mock.start Mock.empty_cache) Mock.index Mock.finish _ _ _).
  - vm_compute. reflexivity.
  - vm_compute. reflexivity.
  - vm_compute. reflexivity.
Defined.

Lemma main_negative_number_witness :
  Mock.index !! (-1) = None
  /\ main Mock.http_Get Mock.DumpResponse Mock.NewDocumentFromReader 3 ["ccc"; "-1"]
       (Mock.start Mock.empty_cache)
     = Return tt {| fs := fs Mock.finish; requests := requests Mock.finish;
                    stdout := (stdout Mock.finish ++ [Line EmptyString])%list;
                    fetched := fetched Mock.finish |}.
Proof.
  refine (main_negative_number Mock.http_Get Mock.DumpResponse
            Mock.NewDocumentFromReader 3 "ccc" "-1" [] (-1)
            (Mock.start Mock.empty_cache) Mock.index Mock.finish _ _ _).
  - vm_compute. reflexivity.
  - vm_compute. reflexivity.
  - lia.
Defined.

Lemma main_lists_paragraphs_witness :
  exists lines,
    main Mock.http_Get Mock.DumpResponse Mock.NewDocumentFromReader 3 ["ccc"]
      (Mock.start Mock.empty_cache)
    = Return tt {| fs := fs Mock.finish; requests := requests Mock.finish;
                   stdout := (stdout Mock.finish ++ map Line lines)%list;
                   fetched := fetched Mock.finish |}
    /\ lines ≡ₚ map (fun kp => strings.smap newline_to_space (Text kp.2))
                  (map_to_list Mock.index)
    /\ List.length lines = size Mock.index
    /\ Forall (fun line => byte_in newline line = false) lines.
Proof.
  refine (main_lists_paragraphs _ Mock.http_Get Mock.DumpResponse
            Mock.NewDocumentFromReader 3 "ccc"
            (Mock.start Mock.empty_cache) Mock.index Mock.finish _).
  vm_compute. reflexivity.
Defined.

(** ** Resolved URLs stay on the host *)

(** No two slashes in a row. *)
Fixpoint no_double_slash (s : string) : bool :=
  match s with
  | EmptyString => true
  | String a t =>
      match t with
      | EmptyString => true
      | String b _ => negb (path.is_slash a && path.is_slash b) && no_double_slash t
      end
  end.

(** The buffer of [Clean] on a rooted path, last byte first: the first
    byte written is a slash, no two slashes follow one another, and the
    last byte written is a slash only when it is the first one. *)
Definition rooted_buffer (out : string) : Prop :=
  (exists x, out = x ++ "/")
  /\ no_double_slash out = true
  /\ (out = "/" \/ strings.HasPrefix out "/" = false).

Lemma no_double_slash_tail (a : ascii) (t : string) :
  no_double_slash (String a t) = true -> no_double_slash t = true.
Proof.
  destruct t as [|b t]; [done|]. cbn [no_double_slash].
  by intros [_ H]%andb_true_iff.
Qed.

Lemma no_double_slash_cons (c : ascii) (o : string) :
  path.is_slash c = false \/ strings.HasPrefix o "/" = false ->
  no_double_slash o = true -> no_double_slash (String c o) = true.
Proof.
  intros H Hn. destruct o as [|b o]; [done|].
  change (no_double_slash (String c (String b o)))
    with (negb (path.is_slash c && path.is_slash b) && no_double_slash (String b o)).
  rewrite Hn, andb_true_r. destruct H as [->|H]; [done|].
  cbn in H. rewrite andb_true_r in H. unfold path.is_slash. rewrite H.
  by rewrite andb_false_r.
Qed.

Lemma HasPrefix_app_nonempty (s t : string) (c : ascii) :
  s <> EmptyString ->
  strings.HasPrefix (s ++ t) (String c EmptyString)
  = strings.HasPrefix s (String c EmptyString).
Proof. by destruct s. Qed.

Lemma srev_nonempty (s : string) : s <> EmptyString -> strings.srev s <> EmptyString.
Proof.
  intros Hs E. apply (f_equal strings.srev) in E. by rewrite srev_involutive in E.
Qed.

Lemma no_double_slash_last (x : string) :
  no_double_slash (x ++ "/") = true ->
  strings.HasPrefix (strings.srev x) "/" = false.
Proof.
  induction x as [|a x IH]; [done|]. intros Hn. rewrite srev_cons.
  destruct x as [|b x].
  - cbn in Hn |- *. rewrite !andb_true_r in *. unfold path.is_slash in Hn.
    by apply negb_true_iff in Hn.
  - rewrite HasPrefix_app_nonempty by (by apply srev_nonempty).
    apply IH. by apply no_double_slash_tail in Hn.
Qed.

Lemma rev_onto_rooted_buffer (e out : string) :
  strings.sforall not_slash e = true ->
  (exists x, out = x ++ "/") ->
  no_double_slash out = true ->
  (exists x, strings.rev_onto e out = x ++ "/")
  /\ no_double_slash (strings.rev_onto e out) = true.
Proof.
  revert out. induction e as [|c e IH]; intros out He Hx Hn; [done|].
  cbn [strings.sforall] in He. apply andb_true_iff in He as [Hc He].
  unfold not_slash in Hc. apply negb_true_iff in Hc.
  cbn [strings.rev_onto]. apply IH; [done| |].
  - destruct Hx as [x ->]. by exists (String c x).
  - apply no_double_slash_cons; [by left|done].
Qed.

Lemma rev_onto_head (e out : string) (c : ascii) :
  strings.sforall not_slash (String c e) = true ->
  strings.HasPrefix (strings.rev_onto (String c e) out) "/" = false.
Proof.
  intros He. cbn [strings.rev_onto].
  assert (H : forall e o, strings.sforall not_slash e = true ->
            strings.HasPrefix o "/" = false ->
            strings.HasPrefix (strings.rev_onto e o) "/" = false).
  { clear. induction e as [|d e IH]; intros o He Ho; [done|].
    cbn [strings.sforall] in He. apply andb_true_iff in He as [Hd He].
    cbn [strings.rev_onto]. apply IH; [done|].
    unfold not_slash, path.is_slash in Hd. apply negb_true_iff in Hd.
    cbn. by rewrite Hd. }
  cbn [strings.sforall] in He. apply andb_true_iff in He as [Hc He].
  apply H; [done|]. unfold not_slash, path.is_slash in Hc.
  apply negb_true_iff in Hc. cbn. by rewrite Hc.
Qed.

Lemma rooted_buffer_length_1 (out : string) :
  rooted_buffer out -> (String.length out =? 1)%nat = true -> out = "/".
Proof.
  intros ([x ->] & _ & _). destruct x as [|a [|b x]]; simpl; try done.
Qed.

(** A path element is pushed on the buffer. *)
Lemma push_rooted_buffer (c : ascii) (e out : string) :
  rooted_buffer out ->
  strings.sforall not_slash (String c e) = true ->
  rooted_buffer
    (strings.rev_onto (String c e)
       (if (true && negb (String.length out =? 1)%nat)
           || (negb true && negb (String.length out =? 0)%nat)
        then String "/" out else out)).
Proof.
  intros Hb He. cbn [andb negb orb]. rewrite orb_false_r.
  destruct (String.length out =? 1)%nat eqn:Hl; cbn [negb].
  - apply rooted_buffer_length_1 in Hl as ->; [|done].
    destruct (rev_onto_rooted_buffer (String c e) "/" He) as [Hx Hn];
      [by exists EmptyString|done|].
    split; [done|]. split; [done|]. right. by apply rev_onto_head.
  - destruct Hb as (Hx & Hn & [->|Hh]); [done|].
    destruct (rev_onto_rooted_buffer (String c e) (String "/" out) He) as [Hx' Hn'].
    + destruct Hx as [x ->]. by exists (String "/" x).
    + apply no_double_slash_cons; [by right|done].
    + split; [done|]. split; [done|]. right. by apply rev_onto_head.
Qed.

(** The buffer after [..] has removed an element. *)
Lemma backtrack_rooted_buffer (o : string) (removed : ascii) :
  (exists x, o = x ++ "/") ->
  no_double_slash (String removed o) = true ->
  rooted_buffer (path.backtrack o removed 1).
Proof.
  revert removed. induction o as [|h t IH]; intros removed [x Hx] Hn.
  { by destruct x. }
  cbn [path.backtrack String.length].
  destruct (1 <? S (String.length t))%nat eqn:Hl; cbn [andb].
  - destruct (path.is_slash removed) eqn:Hr; cbn [negb].
    + split; [by exists x|]. split; [by apply no_double_slash_tail in Hn|].
      right. cbn [no_double_slash] in Hn. apply andb_true_iff in Hn as [Hn _].
      rewrite Hr in Hn. cbn. rewrite andb_true_r.
      unfold path.is_slash in Hn. by apply negb_true_iff in Hn.
    + apply IH; [|by apply no_double_slash_tail in Hn].
      destruct x as [|a x]; simpl in Hx.
      * injection Hx as -> ->. simpl in Hl. done.
      * injection Hx as -> ->. by exists x.
  - assert (t = EmptyString) as ->.
    { destruct t; [done|]. simpl in Hl. done. }
    destruct x as [|a [|b x]]; simpl in Hx; try done.
    injection Hx as ->. split; [by exists EmptyString|]. split; [done|]. by left.
Qed.

Lemma drop_while_sforall (f : ascii -> bool) (s : string) :
  strings.sforall f (strings.take_while f s) = true.
Proof. apply take_while_forall. Qed.

(** The loop of [Clean] on a rooted path keeps the buffer rooted. *)
Lemma clean_loop_rooted_buffer (fuel : nat) :
  forall p out, rooted_buffer out -> rooted_buffer (path.clean_loop fuel true p out 1).
Proof.
  induction fuel as [|fuel IH]; intros p out Hb; [done|].
  cbn [path.clean_loop]. destruct p as [|c t]; [done|].
  destruct (path.is_slash c) eqn:Hc; [by apply IH|].
  destruct (Ascii.eqb c "." && path.at_end_or_slash t); [by apply IH|].
  destruct (Ascii.eqb c "." && strings.HasPrefix t "." && path.at_end_or_slash (strings.drop 1 t)).
  - destruct (1 <? String.length out)%nat eqn:Hl.
    + destruct out as [|removed out']; [by apply IH|].
      apply IH. destruct Hb as ([x Hx] & Hn & _).
      apply backtrack_rooted_buffer; [|done].
      destruct x as [|a x]; simpl in Hx.
      * injection Hx as -> ->. done.
      * injection Hx as -> ->. by exists x.
    + cbn [negb]. by apply IH.
  - apply IH.
    assert (Hs : strings.take_while (fun b => negb (path.is_slash b)) (String c t)
                 = String c (strings.take_while (fun b => negb (path.is_slash b)) t)).
    { cbn [strings.take_while]. by rewrite Hc. }
    rewrite Hs. apply push_rooted_buffer; [done|].
    cbn [strings.sforall]. unfold not_slash at 1. rewrite Hc. cbn [negb andb].
    apply take_while_forall.
Qed.

(** [Clean] of a rooted path is rooted, and no slash follows its first
    one. *)
Lemma Clean_rooted (p : string) :
  strings.HasPrefix p "/" = true ->
  exists r, path.Clean p = String "/" r /\ strings.HasPrefix r "/" = false.
Proof.
  intros (t & -> & _)%HasPrefix_cons. unfold path.Clean.
  change (path.is_slash "/") with true. cbv iota.
  cbn [strings.drop].
  assert (Hb : rooted_buffer
                 (path.clean_loop (S (String.length (String "/" t))) true t "/" 1)).
  { apply clean_loop_rooted_buffer.
    split; [by exists EmptyString|]. split; [done|]. by left. }
  destruct Hb as ([x Hx] & Hn & Hh).
  rewrite Hx in Hn |- *. exists (strings.srev x).
  split; [|by apply no_double_slash_last].
  replace (match x ++ "/" with EmptyString => "." | String _ _ => strings.srev (x ++ "/") end)
    with (strings.srev (x ++ "/")) by (by destruct x).
  rewrite srev_app. reflexivity.
Qed.

(** The string starts with one slash, not with two. *)
Definition rooted_once (s : string) : Prop :=
  exists r, s = String "/" r /\ strings.HasPrefix r "/" = false.

Lemma take_HasPrefix_false (k : nat) (r p : string) :
  p <> EmptyString ->
  strings.HasPrefix r p = false -> strings.HasPrefix (strings.take k r) p = false.
Proof.
  revert k r. induction p as [|b p IH]; intros k r Hp; [done|].
  destruct r as [|a r]; [by destruct k|]. destruct k as [|k]; [done|].
  cbn [strings.take strings.HasPrefix].
  destruct (Ascii.eqb a b); [|done]. cbn [andb].
  destruct p as [|b' p]; [done|]. by apply IH.
Qed.

Lemma take_rooted_once (k : nat) (s : string) :
  rooted_once s -> rooted_once (strings.take (S k) s).
Proof.
  intros (r & -> & Hr). exists (strings.take k r). split; [done|].
  by apply take_HasPrefix_false.
Qed.

Lemma Cut_rooted_once (s : string) (c : ascii) :
  c <> "/"%char ->
  rooted_once s -> rooted_once (strings.Cut s (String c EmptyString)).1.1.
Proof.
  intros Hc Hs. pose proof Hs as (r & -> & Hr). unfold strings.Cut.
  cbn [strings.Index strings.HasPrefix].
  destruct (Ascii.eqb_spec "/" c) as [<-|_]; [done|]. cbn [andb].
  destruct (strings.Index r (String c EmptyString)) as [i|]; [|done].
  cbn [option_map fst]. by apply take_rooted_once.
Qed.

Lemma rooted_once_HasPrefix (s : string) :
  rooted_once s ->
  strings.HasPrefix s "/" = true /\ strings.HasPrefix s "//" = false.
Proof.
  intros (r & -> & Hr). split; [done|].
  destruct r as [|a r]; [done|]. cbn in Hr |- *. by rewrite Hr.
Qed.

(** What [Parse] makes of a reference that starts with one slash: a
    path on no host. *)
Definition path_reference (u : url.URL) : Prop :=
  url.Scheme u = EmptyString /\ url.Opaque u = EmptyString
  /\ url.User u = None /\ url.Host u = EmptyString.

Definition rooted_path (u : url.URL) : Prop :=
  strings.HasPrefix (url.Path u) "/" = true
  /\ (url.RawPath u = EmptyString \/ strings.HasPrefix (url.RawPath u) "/" = true).

Lemma setPath_rooted (u u' : url.URL) (p : string) :
  strings.HasPrefix p "/" = true ->
  url.setPath u p = Ok u' ->
  rooted_path u'
  /\ url.Scheme u' = url.Scheme u /\ url.Opaque u' = url.Opaque u
  /\ url.User u' = url.User u /\ url.Host u' = url.Host u
  /\ url.ForceQuery u' = url.ForceQuery u /\ url.RawQuery u' = url.RawQuery u.
Proof.
  intros Hp. unfold url.setPath, url.bind.
  destruct (url.unescape p url.encodePath) as [q|] eqn:Hq; [|done].
  intros [= <-]. cbn. split; [|done].
  destruct (unescape_path_rooted p q (or_intror Hp) Hq) as [->|Hr].
  - apply HasPrefix_cons in Hp as (p' & -> & _). cbn in Hq.
    by destruct (url.unescape p' url.encodePath).
  - split; [done|]. destruct (String.eqb p _); auto.
Qed.

Lemma parse_rooted_once (s : string) (u : url.URL) :
  rooted_once s -> url.parse s false = Ok u -> path_reference u /\ rooted_path u.
Proof.
  intros Hs. pose proof Hs as (r & -> & Hr). unfold url.parse.
  destruct (url.stringContainsCTLByte _); [done|].
  cbn [is_empty andb].
  change (String.eqb (String "/" r) "*") with false. cbv iota.
  change (url.getScheme (String "/" r)) with
    (@Ok url.Error (string * string) (EmptyString, String "/" r)).
  unfold url.bind at 1. cbv iota beta.
  change (strings.ToLower EmptyString) with EmptyString.
  assert (Hrest : forall rest fq rq,
            (if strings.HasSuffix (String "/" r) "?"
                && (strings.Count (String "/" r) "?" =? 1)%nat
             then (strings.take (String.length (String "/" r) - 1) (String "/" r), true,
                   EmptyString)
             else let '(r0, q, _) := strings.Cut (String "/" r) "?" in (r0, false, q))
            = (rest, fq, rq) -> rooted_once rest).
  { intros rest fq rq. destruct (strings.HasSuffix _ _ && _) eqn:Hsuf.
    - intros [= <- _ _]. destruct r as [|a r']; [done|].
      cbn [String.length Nat.sub]. rewrite ?Nat.sub_0_r.
      by apply take_rooted_once.
    - pose proof (Cut_rooted_once (String "/" r) "?" ltac:(done) Hs) as Hc.
      destruct (strings.Cut (String "/" r) "?") as [[r0 q] b].
      by intros [= <- _ _]. }
  destruct (if strings.HasSuffix (String "/" r) "?" && _ then _ else _)
    as [[rest fq] rq] eqn:E.
  pose proof (Hrest rest fq rq eq_refl) as Hro.
  apply rooted_once_HasPrefix in Hro as [H1 H2].
  rewrite H1, H2. cbn [negb andb is_empty orb]. rewrite andb_false_r.
  intros (Hp & Hsc & Ho & Hu & Hh & _)%setPath_rooted; [|done].
  split; [|done]. by split.
Qed.

Lemma setFragment_fields (u u' : url.URL) (f : string) :
  url.setFragment u f = Ok u' ->
  url.Scheme u' = url.Scheme u /\ url.Opaque u' = url.Opaque u
  /\ url.User u' = url.User u /\ url.Host u' = url.Host u
  /\ url.Path u' = url.Path u /\ url.RawPath u' = url.RawPath u.
Proof.
  unfold url.setFragment, url.bind. destruct (url.unescape f url.encodeFragment); [|done].
  by intros [= <-].
Qed.

Lemma Parse_rooted_once (s : string) (u : url.URL) :
  rooted_once s -> url.Parse s = Ok u -> path_reference u /\ rooted_path u.
Proof.
  intros Hs. unfold url.Parse.
  pose proof (Cut_rooted_once s "#" ltac:(done) Hs) as Hc.
  destruct (strings.Cut s "#") as [[r frag] found]. cbn [fst] in Hc.
  unfold url.bind.
  destruct (url.parse r false) as [u0|] eqn:Hp; [|done].
  apply parse_rooted_once in Hp as [Hr Hpath]; [|done].
  destruct (is_empty frag); [by intros [= <-]|].
  intros (H1 & H2 & H3 & H4 & H5 & H6)%setFragment_fields.
  unfold path_reference, rooted_path in *. by rewrite H1, H2, H3, H4, H5, H6.
Qed.

(** What [path.Join] gives for the archive and a link. *)
Lemma Join_archeng_rooted_once (relativePath : string) :
  rooted_once (path.Join [archeng; relativePath]).
Proof.
  unfold path.Join. cbn [forallb archeng String.length Nat.eqb andb path.join_elems].
  destruct (Clean_rooted ("/archive/ENG0015" ++ "/" ++ relativePath)) as (r & Hc & Hr);
    [done|].
  exists r. split; [|done]. by destruct relativePath.
Qed.

Lemma HasPrefix_app_l (s t p : string) :
  strings.HasPrefix s p = true -> strings.HasPrefix (s ++ t) p = true.
Proof.
  revert s. induction p as [|b p IH]; intros s; [done|].
  destruct s as [|a s]; [done|]. cbn.
  intros [-> H]%andb_true_iff. by rewrite (IH _ H).
Qed.

Lemma escape_path_rooted (p : string) :
  strings.HasPrefix p "/" = true ->
  strings.HasPrefix (url.escape p url.encodePath) "/" = true.
Proof. by intros (p' & -> & _)%HasPrefix_cons. Qed.

Lemma EscapedPath_rooted (u : url.URL) :
  rooted_path u -> strings.HasPrefix (url.EscapedPath u) "/" = true.
Proof.
  intros [Hp Hr]. unfold url.EscapedPath.
  destruct (negb (is_empty (url.RawPath u)) && _ && _) eqn:E.
  - destruct Hr as [Hr|Hr]; [|done]. by rewrite Hr in E.
  - apply HasPrefix_cons in Hp as (p' & Hp & _). rewrite Hp.
    change (String.eqb (String "/" p') "*") with false. cbv iota.
    by apply escape_path_rooted.
Qed.

Lemma resolve_loop_rooted (elems : list string) :
  forall dst first,
    strings.HasPrefix dst "/" = true ->
    strings.HasPrefix (url.resolve_loop elems dst first) "/" = true.
Proof.
  induction elems as [|e elems IH]; intros dst first Hd; [done|].
  cbn [url.resolve_loop].
  destruct (String.eqb e "."); [by apply IH|].
  destruct (String.eqb e "..").
  - destruct (strings.LastIndex _ _); by apply IH.
  - apply IH. apply HasPrefix_app_l. destruct first; [done|]. by apply HasPrefix_app_l.
Qed.

Lemma resolvePath_rooted (base ref : string) :
  strings.HasPrefix ref "/" = true ->
  strings.HasPrefix (url.resolvePath base ref) "/" = true.
Proof.
  intros (r & -> & _)%HasPrefix_cons. unfold url.resolvePath.
  change (Ascii.eqb "/" "/") with true. cbv iota.
  set (dst := url.resolve_loop _ "/" true).
  assert (Hd : strings.HasPrefix dst "/" = true) by (by apply resolve_loop_rooted).
  set (r' := if _ || _ then dst ++ "/" else dst).
  assert (Hr : strings.HasPrefix r' "/" = true).
  { unfold r'. destruct (_ || _); [by apply HasPrefix_app_l|done]. }
  destruct ((1 <? String.length r')%nat && _) eqn:E; [|done].
  by apply andb_true_iff in E as [_ E].
Qed.

(** The base against which the links are resolved. *)
Definition vatican_base : url.URL :=
  {| url.Scheme := "https"; url.Opaque := EmptyString; url.User := None;
     url.Host := "www.vatican.va"; url.Path := EmptyString;
     url.RawPath := EmptyString; url.OmitHost := false;
     url.ForceQuery := false; url.RawQuery := EmptyString;
     url.Fragment := EmptyString; url.RawFragment := EmptyString |}.

Lemma Parse_vatican : url.Parse vatican = Ok vatican_base.
Proof. vm_compute. reflexivity. Qed.

(** The URL is on the host of the Vatican, over https, with a rooted
    path. *)
Definition on_vatican (u : url.URL) : Prop :=
  url.Scheme u = "https" /\ url.Opaque u = EmptyString /\ url.User u = None
  /\ url.Host u = "www.vatican.va" /\ rooted_path u.

Lemma with_path_on_vatican (u : url.URL) (p : string) :
  on_vatican u -> strings.HasPrefix p "/" = true -> on_vatican (url.with_path u p).
Proof.
  intros (Hs & Ho & Hu & Hh & Hr) Hp. unfold url.with_path.
  destruct (url.setPath u p) as [u'|] eqn:E; [|done].
  apply setPath_rooted in E as (Hr' & Hs' & Ho' & Hu' & Hh' & _); [|done].
  unfold on_vatican. by rewrite Hs', Ho', Hu', Hh'.
Qed.

Lemma ResolveReference_on_vatican (ref : url.URL) :
  path_reference ref -> rooted_path ref ->
  on_vatican (url.ResolveReference vatican_base ref).
Proof.
  intros (Hs & Ho & Hu & Hh) Hr. unfold url.ResolveReference.
  rewrite Hs, Ho, Hu, Hh. cbn [is_empty negb orb].
  pose proof Hr as [(p' & Hp & _)%HasPrefix_cons _]. rewrite Hp.
  cbn [is_empty andb url.Opaque vatican_base negb].
  apply with_path_on_vatican.
  - destruct Hr as [_ Hraw]. unfold on_vatican, rooted_path. cbn.
    split; [done|]. split; [done|]. split; [done|]. split; [done|]. by split.
  - apply resolvePath_rooted. by apply EscapedPath_rooted.
Qed.

(** The string of such a URL starts with the scheme and the host. *)
Lemma String_on_vatican (u : url.URL) :
  on_vatican u -> exists rest, url.String u = "https://www.vatican.va/" ++ rest.
Proof.
  intros (Hs & Ho & Hu & Hh & Hr). unfold url.String.
  apply EscapedPath_rooted in Hr as (p & Hp & _)%HasPrefix_cons.
  rewrite Hs, Ho, Hu, Hh, Hp.
  cbn [is_empty negb orb andb].
  destruct (url.OmitHost u); cbn [andb].
  all: change (url.escape "www.vatican.va" url.encodeHost) with "www.vatican.va".
  all: cbn [strings.HasPrefix Ascii.eqb andb negb is_empty].
  all: eexists; cbn; reflexivity.
Qed.

Lemma vaticanURL_relative (relativePath s : string) :
  ~ http_prefixed relativePath ->
  vaticanURL relativePath = Ok s ->
  exists rest, s = "https://www.vatican.va/" ++ rest.
Proof.
  intros Hn. unfold vaticanURL.
  destruct (strings.HasPrefix (strings.ToLower relativePath) "http") eqn:E.
  { by apply http_prefix_test in E. }
  rewrite Parse_vatican.
  destruct (url.Parse (path.Join [archeng; relativePath])) as [rel|] eqn:Hp; [|done].
  intros [= <-].
  apply Parse_rooted_once in Hp as [Hr Hpath]; [|apply Join_archeng_rooted_once].
  by apply String_on_vatican, ResolveReference_on_vatican.
Qed.

(** X14: whatever the link, [vaticanURL] either returns it unchanged,
    which it does exactly for the links that start with the letters of
    "http" in either case, or resolves it to a URL that starts with
    [https://www.vatican.va/]: a link in any other form, with dot
    segments, doubled slashes or a host of its own, cannot lead the
    crawl to another host. *)
Theorem vaticanURL_stays_on_host (relativePath s : string) :
  vaticanURL relativePath = Ok s ->
  (http_prefixed relativePath /\ s = relativePath)
  \/ (~ http_prefixed relativePath
      /\ exists rest, s = "https://www.vatican.va/" ++ rest).
Proof.
  intros H.
  destruct (strings.HasPrefix (strings.ToLower relativePath) "http") eqn:E.
  - left. unfold vaticanURL in H. rewrite E in H. injection H as <-.
    by apply http_prefix_test in E.
  - right. assert (Hn : ~ http_prefixed relativePath).
    { intros Hh. apply http_prefix_test in Hh. by rewrite Hh in E. }
    split; [done|]. by apply vaticanURL_relative with relativePath.
Qed.

Lemma vaticanURL_stays_on_host_witness :
  (http_prefixed "//example.com/x"
   /\ "https://www.vatican.va/archive/ENG0015/example.com/x" = "//example.com/x")
  \/ (~ http_prefixed "//example.com/x"
      /\ exists rest,
           "https://www.vatican.va/archive/ENG0015/example.com/x"
           = "https://www.vatican.va/" ++ rest).
Proof.
  refine (vaticanURL_stays_on_host "//example.com/x"
            "https://www.vatican.va/archive/ENG0015/example.com/x" _).
  vm_compute. reflexivity.
Defined.

Lemma vaticanURL_result_prefixed (relativePath s : string) :
  vaticanURL relativePath = Ok s -> http_prefixed s.
Proof.
  intros H.
  destruct (strings.HasPrefix (strings.ToLower relativePath) "http") eqn:E.
  - unfold vaticanURL in H. rewrite E in H. injection H as <-.
    by apply http_prefix_test in E.
  - destruct (vaticanURL_relative relativePath s) as [rest ->]; [|done|].
    { intros Hh. apply http_prefix_test in Hh. by rewrite Hh in E. }
    exists "h"%char, "t"%char, "t"%char, "p"%char, ("s://www.vatican.va/" ++ rest).
    repeat split; auto.
Qed.

(** X15: a URL that [vaticanURL] has returned is returned unchanged when
    it is resolved again, and it is the URL that [getOnce] requests for
    it: the case-sensitive test of [getOnce] and the case-insensitive
    test of [vaticanURL] never disagree on the URLs of the crawl. *)
Theorem vaticanURL_idempotent (relativePath s : string) :
  vaticanURL relativePath = Ok s ->
  vaticanURL s = Ok s /\ full_url s = s.
Proof.
  intros H. apply vaticanURL_result_prefixed in H.
  assert (Hs : vaticanURL s = Ok s).
  { apply http_prefix_test in H. unfold vaticanURL. by rewrite H. }
  split; [done|]. unfold full_url. rewrite Hs. by destruct (negb _).
Qed.

Lemma vaticanURL_idempotent_witness :
  vaticanURL "HTTP://example.com/x" = Ok "HTTP://example.com/x"
  /\ full_url "HTTP://example.com/x" = "HTTP://example.com/x".
Proof.
  refine (vaticanURL_idempotent "HTTP://example.com/x" "HTTP://example.com/x" _).
  vm_compute. reflexivity.
Defined.

(** ** The cache keys of the crawl *)

Definition starts_with_letter (s : string) : Prop :=
  exists c r, s = String c r /\ is_alpha c = true.

Lemma alpha_not (c d : ascii) : is_alpha c = true -> is_alpha d = false -> c <> d.
Proof. intros Hc Hd ->. by rewrite Hc in Hd. Qed.

Lemma alpha_eqb (c d : ascii) :
  is_alpha c = true -> is_alpha d = false -> Ascii.eqb c d = false.
Proof. intros Hc Hd. by apply Ascii.eqb_neq, alpha_not. Qed.

Lemma length_append (s t : string) :
  String.length (s ++ t) = (String.length s + String.length t)%nat.
Proof. induction s as [|c s IH]; simpl; [done|]. by rewrite IH. Qed.

Lemma take_append (s t : string) : strings.take (String.length s) (s ++ t) = s.
Proof. induction s as [|c s IH]; simpl; [by destruct t|]. by rewrite IH. Qed.

(** [getScheme] finds a scheme that is not empty, or none and then the
    whole string is what is left. *)
Lemma getScheme_from_cases (s : string) :
  forall pre sch rest,
    url.getScheme_from (pre ++ s) s (is_empty pre) = Ok (sch, rest) ->
    (sch = EmptyString /\ rest = pre ++ s) \/ sch <> EmptyString.
Proof.
  induction s as [|c s IH]; intros pre sch rest; cbn [url.getScheme_from].
  { intros [= <- <-]. by left. }
  assert (Hstep : url.getScheme_from (pre ++ String c s) s false = Ok (sch, rest) ->
                  (sch = EmptyString /\ rest = pre ++ String c s) \/ sch <> EmptyString).
  { replace (pre ++ String c s) with ((pre ++ String c EmptyString) ++ s)
      by (by rewrite append_assoc).
    replace false with (is_empty (pre ++ String c EmptyString)) by (by destruct pre).
    apply IH. }
  destruct (is_alpha c); [done|].
  destruct (is_digit c || byte_in c "+-.").
  { destruct (is_empty pre); [|done]. intros [= <- <-]. by left. }
  destruct (Ascii.eqb c ":"); [|intros [= <- <-]; by left].
  destruct pre as [|a pre]; [done|]. cbn [is_empty].
  intros [= <- <-]. right.
  rewrite length_append. cbn [String.length].
  clear Hstep IH. destruct (_ - _)%nat eqn:E; [lia|done].
Qed.

Lemma getScheme_cases (rawURL sch rest : string) :
  url.getScheme rawURL = Ok (sch, rest) ->
  (sch = EmptyString /\ rest = rawURL) \/ sch <> EmptyString.
Proof. apply (getScheme_from_cases rawURL EmptyString). Qed.

Lemma ToLower_nonempty (s : string) :
  s <> EmptyString -> strings.ToLower s <> EmptyString.
Proof. by destruct s. Qed.

Lemma take_starts_with_letter (k : nat) (s : string) :
  starts_with_letter s -> starts_with_letter (strings.take (S k) s).
Proof. intros (c & r & -> & Hc). by exists c, (strings.take k r). Qed.

Lemma Cut_starts_with_letter (s : string) (d : ascii) :
  is_alpha d = false ->
  starts_with_letter s -> starts_with_letter (strings.Cut s (String d EmptyString)).1.1.
Proof.
  intros Hd Hs. pose proof Hs as (c & r & -> & Hc). unfold strings.Cut.
  cbn [strings.Index strings.HasPrefix]. rewrite (alpha_eqb c d Hc Hd). cbn [andb].
  destruct (strings.Index r (String d EmptyString)) as [i|]; [|done].
  cbn [option_map fst]. by apply take_starts_with_letter.
Qed.

Lemma unescape_starts_with_letter (p q : string) :
  starts_with_letter p -> url.unescape p url.encodePath = Ok q -> starts_with_letter q.
Proof.
  intros (c & r & -> & Hc). cbn [url.unescape].
  rewrite (alpha_eqb c "%" Hc eq_refl), (alpha_eqb c "+" Hc eq_refl).
  cbn [url.is_host_mode andb].
  destruct (url.unescape r url.encodePath) as [t|]; [|done].
  intros [= <-]. by exists c, t.
Qed.

(** The path of a reference without a scheme that starts with a letter
    starts with a letter. *)
Lemma parse_starts_with_letter (s : string) (u : url.URL) :
  starts_with_letter s -> url.parse s false = Ok u ->
  url.Scheme u = EmptyString -> starts_with_letter (url.Path u).
Proof.
  intros Hs. pose proof Hs as (c & r & -> & Hc). unfold url.parse.
  destruct (url.stringContainsCTLByte _); [done|].
  cbn [is_empty andb].
  assert (Hstar : String.eqb (String c r) "*" = false).
  { apply String.eqb_neq. intros [= -> _]. done. }
  rewrite Hstar. unfold url.bind at 1.
  destruct (url.getScheme (String c r)) as [[sch rest0]|] eqn:Hg; [|done].
  apply getScheme_cases in Hg as [[-> ->]|Hne].
  2:{ apply ToLower_nonempty in Hne.
      assert (Hsc : forall u0 p, url.Scheme u0 = strings.ToLower sch ->
                url.setPath u0 p = Ok u -> url.Scheme u = EmptyString -> False).
      { intros u0 p H0 [Hs' _]%setPath_Ok Hu. by rewrite Hs', H0 in Hu. }
      destruct (if strings.HasSuffix rest0 "?" && _ then _ else _) as [[rest fq] rq].
      rewrite ?andb_false_r.
      destruct (negb (strings.HasPrefix rest "/") && negb (is_empty (strings.ToLower sch))).
      { intros [= <-] Hu. cbn in Hu. done. }
      destruct (negb (strings.HasPrefix rest "/") && _); [done|].
      destruct (_ && strings.HasPrefix rest "//").
      - destruct (match strings.Index _ _ with Some _ => _ | None => _ end) as [auth rest1].
        unfold url.bind. destruct (url.parseAuthority auth) as [[user host]|]; [|done].
        intros H Hu. by eapply Hsc in H.
      - intros H Hu. by eapply Hsc in H. }
  change (strings.ToLower EmptyString) with EmptyString.
  assert (Hrest : forall rest fq rq,
            (if strings.HasSuffix (String c r) "?"
                && (strings.Count (String c r) "?" =? 1)%nat
             then (strings.take (String.length (String c r) - 1) (String c r), true,
                   EmptyString)
             else let '(r0, q, _) := strings.Cut (String c r) "?" in (r0, false, q))
            = (rest, fq, rq) -> starts_with_letter rest).
  { intros rest fq rq. destruct (strings.HasSuffix _ _ && _) eqn:Hsuf.
    - intros [= <- _ _]. destruct r as [|a r'].
      + apply andb_true_iff in Hsuf as [Hsuf _]. cbn in Hsuf.
        rewrite (alpha_eqb c "?" Hc eq_refl) in Hsuf. done.
      + cbn [String.length Nat.sub]. rewrite ?Nat.sub_0_r.
        by apply take_starts_with_letter.
    - pose proof (Cut_starts_with_letter (String c r) "?" eq_refl Hs) as Hcut.
      destruct (strings.Cut (String c r) "?") as [[r0 q] b].
      by intros [= <- _ _]. }
  destruct (if strings.HasSuffix (String c r) "?" && _ then _ else _)
    as [[rest fq] rq] eqn:E.
  pose proof (Hrest rest fq rq eq_refl) as Hl. clear Hrest E.
  pose proof Hl as (c' & r' & -> & Hc').
  cbn [strings.HasPrefix]. rewrite (alpha_eqb c' "/" Hc' eq_refl).
  cbn [negb andb is_empty orb].
  destruct (strings.Contains _ _); [done|].
  intros [_ Hp]%setPath_Ok _. by apply unescape_starts_with_letter in Hp.
Qed.

Lemma Parse_starts_with_letter (s : string) (u : url.URL) :
  starts_with_letter s -> url.Parse s = Ok u ->
  url.Scheme u = EmptyString -> starts_with_letter (url.Path u).
Proof.
  intros Hs. unfold url.Parse.
  pose proof (Cut_starts_with_letter s "#" eq_refl Hs) as Hc.
  destruct (strings.Cut s "#") as [[r frag] found]. cbn [fst] in Hc.
  unfold url.bind.
  destruct (url.parse r false) as [u0|] eqn:Hp; [|done].
  destruct (is_empty frag).
  - intros [= <-]. by apply parse_starts_with_letter with r.
  - intros [Hsc Hpath]%setFragment_Ok. rewrite Hsc, Hpath.
    by apply parse_starts_with_letter with r.
Qed.

Lemma drop_while_snoc (f : ascii -> bool) (a : string) (c : ascii) :
  f c = false ->
  exists x, strings.drop_while f (a ++ String c EmptyString) = x ++ String c EmptyString.
Proof.
  intros Hc. induction a as [|b a [x IH]]; simpl.
  - rewrite Hc. by exists EmptyString.
  - destruct (f b); [by exists x|]. by exists (String b a).
Qed.

(** [TrimRight] keeps a first byte that is not of the cutset. *)
Lemma TrimRight_head (c : ascii) (t cutset : string) :
  byte_in c cutset = false ->
  exists t', strings.TrimRight (String c t) cutset = String c t'.
Proof.
  intros Hc. unfold strings.TrimRight. rewrite srev_cons.
  destruct (drop_while_snoc (fun b => byte_in b cutset) (strings.srev t) c Hc) as [x ->].
  rewrite srev_app. by exists (strings.srev x).
Qed.

(** The key of a path that starts with a letter starts with that
    letter. *)
Lemma filename_of_path_letter (p : string) :
  starts_with_letter p -> filename_of_path p <> "..".
Proof.
  intros (c & r & -> & Hc).
  assert (Hl : legal c = true).
  { unfold legal, illegalChars. cbn.
    rewrite (alpha_eqb c "<" Hc eq_refl), (alpha_eqb c ">" Hc eq_refl),
      (alpha_eqb c ":" Hc eq_refl), (alpha_eqb c url.dquote Hc eq_refl),
      (alpha_eqb c "|" Hc eq_refl), (alpha_eqb c "?" Hc eq_refl),
      (alpha_eqb c "*" Hc eq_refl). done. }
  assert (Hs : exists x, sanitized (String c r) = String c x).
  { unfold sanitized. cbn [strings.smap]. unfold slash_to_underscore at 1.
    rewrite (alpha_eqb c "/" Hc eq_refl).
    destruct (TrimRight_head c (strings.smap slash_to_underscore r) "_") as [t' ->].
    { cbn. by rewrite (alpha_eqb c "_" Hc eq_refl). }
    cbn [strings.sfilter]. rewrite Hl. eauto. }
  destruct Hs as [x Hs]. rewrite filename_of_path_sanitized, Hs. cbn [is_empty].
  intros [= -> _]. done.
Qed.

Lemma http_prefixed_letter (s : string) : http_prefixed s -> starts_with_letter s.
Proof.
  intros (c1 & c2 & c3 & c4 & rest & -> & [-> | ->] & _); eexists _, _; by split.
Qed.

(** The key of a URL that starts with the letters of "http" is not the
    parent directory. *)
Lemma cache_key_http_prefixed (s : string) :
  http_prefixed s -> cache_key s <> Some "..".
Proof.
  intros Hs%http_prefixed_letter. unfold cache_key.
  destruct (url.Parse s) as [u|] eqn:Hp; [|done].
  intros [= Hk]. revert Hk.
  destruct (url.Scheme u) eqn:Hsc.
  - apply filename_of_path_letter. by apply Parse_starts_with_letter with s.
  - apply filename_of_path_rooted. apply Parse_rooted with s; [done|]. by rewrite Hsc.
Qed.

(** The URLs that the walker gives to [getOnce]: the results of
    [vaticanURL], and the empty string after a link that could not be
    resolved. *)
Definition crawl_url (s : string) : Prop :=
  s = EmptyString \/ exists relativePath, vaticanURL relativePath = Ok s.

Lemma crawl_url_key (s : string) : crawl_url s -> cache_key s <> Some "..".
Proof.
  intros [->|[rel H]]; [by vm_compute|].
  by apply cache_key_http_prefixed, vaticanURL_result_prefixed with rel.
Qed.

Section CrawlUrls.

Context {Response : Type}.
Variable http_Get : string -> option Response.
Variable DumpResponse : Response -> option string.
Variable NewDocumentFromReader : string -> option goquery.Document.

#[local] Abbreviation loop := (getCatechism_loop http_Get DumpResponse NewDocumentFromReader).

Lemma getCatechism_loop_fetched (fuel : nat) :
  forall urlStr m w w',
    crawl_url urlStr ->
    final_world (loop fuel urlStr m w) = Some w' ->
    exists l, fetched w' = (fetched w ++ l)%list /\ Forall crawl_url l.
Proof.
  induction fuel as [|fuel IH]; intros urlStr m w w' Hu; [done|].
  cbn [getCatechism_loop]. unfold mbind at 1.
  destruct (getOnce_effects http_Get DumpResponse urlStr w) as (w1 & Hw1 & _ & Hf & _).
  assert (Hone : exists l, fetched w1 = (fetched w ++ l)%list /\ Forall crawl_url l).
  { exists [urlStr]. split; [done|]. by constructor. }
  destruct (getOnce http_Get DumpResponse urlStr w) as [body w0|c w0|]; [| |done].
  - injection Hw1 as ->.
    destruct (NewDocumentFromReader body) as [doc|].
    2:{ cbn. by intros [= <-]. }
    destruct (getNextLink doc) as [next|].
    2:{ cbn. by intros [= <-]. }
    destruct (vaticanURL _) as [u|e] eqn:Hv.
    + intros H. apply IH in H as (l & Hl & Hall); [|right; eauto].
      exists (urlStr :: l). split; [|by constructor].
      by rewrite Hl, Hf, <- app_assoc.
    + unfold mbind, Printf. intros H. apply IH in H as (l & Hl & Hall); [|by left].
      exists (urlStr :: l). split; [|by constructor].
      cbn [fetched] in Hl. by rewrite Hl, Hf, <- app_assoc.
  - injection Hw1 as ->. cbn. by intros [= <-].
Qed.

End CrawlUrls.

(** X16: whatever its outcome, every URL that the crawl has given to
    [getOnce] is the empty string or starts with the letters of "http",
    and its cache key is never the parent directory [..]: the crawl
    reads and writes no file outside the cache directory. *)
Theorem getCatechism_cache_keys
    (Response : Type) (http_Get : string -> option Response)
    (DumpResponse : Response -> option string)
    (NewDocumentFromReader : string -> option goquery.Document)
    (fuel : nat) (w w' : World) :
  final_world (getCatechism http_Get DumpResponse NewDocumentFromReader fuel w) = Some w' ->
  exists l,
    fetched w' = (fetched w ++ l)%list
    /\ Forall (fun s => (s = EmptyString \/ http_prefixed s)
                        /\ cache_key s <> Some "..") l.
Proof.
  intros H. apply getCatechism_loop_fetched in H as (l & Hl & Hall).
  - exists l. split; [done|]. eapply Forall_impl; [exact Hall|].
    intros s Hs. split; [|by apply crawl_url_key].
    destruct Hs as [->|[rel Hr]]; [by left|].
    right. by apply vaticanURL_result_prefixed with rel.
  - right. exists "/__P2.HTM". vm_compute. reflexivity.
Qed.

Lemma getCatechism_cache_keys_witness :
  exists l,
    fetched Mock.finish = (fetched (Mock.start Mock.empty_cache) ++ l)%list
    /\ Forall (fun s => (s = EmptyString \/ http_prefixed s)
                        /\ cache_key s <> Some "..") l.
Proof.
  refine (getCatechism_cache_keys _ Mock.http_Get Mock.DumpResponse
            Mock.NewDocumentFromReader 3 (Mock.start Mock.empty_cache) Mock.finish _).
  vm_compute. reflexivity.
Defined.

(** ** A next link that cannot be resolved *)

Section UnresolvedLink.

Context {Response : Type}.
Variable http_Get : string -> option Response.
Variable DumpResponse : Response -> option string.
Variable NewDocumentFromReader : string -> option goquery.Document.

#[local] Abbreviation getOnce' := (getOnce http_Get DumpResponse).
#[local] Abbreviation loop := (getCatechism_loop http_Get DumpResponse NewDocumentFromReader).

(** The cached fetch of the empty URL: its key is the cache directory
    itself, which cannot be read as a file. *)
Lemma getOnce_empty_url (w : World) :
  cache_dir (fs w) = DirOk \/ cache_dir (fs w) = DirReadOnly ->
  getOnce' EmptyString w
  = Return EmptyString
      {| fs := fs w; requests := requests w;
         stdout := (stdout w ++ [ErrorReadingFile "cache/."])%list;
         fetched := (fetched w ++ [EmptyString])%list |}.
Proof.
  intros Hd. rewrite getOnce_unfold.
  change (url.Parse EmptyString) with (@Ok url.Error url.URL url.empty).
  cbv zeta. change (cache_file (filename_of_path (url.Path url.empty))) with "cache/.".
  unfold os.Stat, read_back, os.ReadFile. cbn [noted fs].
  change (os.lookup (fs w) "cache/.") with (Some Directory).
  by destruct Hd as [-> | ->].
Qed.

(** X17: a next link that [vaticanURL] cannot resolve does not end the
    process.  The walker prints a message and goes on with the empty
    URL, whose cache key is the cache directory itself: reading it
    fails, a second message is printed, no request is made, and the
    empty page that results ends the crawl, which returns the
    paragraphs found so far. *)
Theorem unresolved_link_ends_crawl
    (fuel : nat) (urlStr : string) (m : gmap Z Paragraph) (w : World)
    (body : string) (w1 : World) (doc doc0 : goquery.Document)
    (next : goquery.Selection) (e : url.Error) :
  getOnce' urlStr w = Return body w1 ->
  NewDocumentFromReader body = Some doc ->
  getNextLink doc = Some next ->
  vaticanURL (goquery.Attr next "href").1 = Err e ->
  cache_dir (fs w1) = DirOk \/ cache_dir (fs w1) = DirReadOnly ->
  NewDocumentFromReader EmptyString = Some doc0 ->
  getNextLink doc0 = None ->
  loop (S (S fuel)) urlStr m w
  = Return (extract_paragraphs doc0 (extract_paragraphs doc m))
      {| fs := fs w1; requests := requests w1;
         stdout := (stdout w1
                    ++ [ErrorGeneratingVaticanURL (goquery.Attr next "href").1;
                        ErrorReadingFile "cache/."])%list;
         fetched := (fetched w1 ++ [EmptyString])%list |}.
Proof.
  intros Hg Hp Hn Hv Hd Hp0 Hn0.
  cbn [getCatechism_loop]. unfold mbind at 1. rewrite Hg, Hp, Hn, Hv.
  unfold mbind at 1, Printf at 1. unfold mbind at 1.
  rewrite getOnce_empty_url by done. rewrite Hp0, Hn0.
  cbn [fs requests stdout fetched]. unfold ret. by rewrite <- app_assoc.
Qed.

End UnresolvedLink.

(** A site whose first page has a next link with a percent sign that
    escapes nothing. *)
Module BadLink.

Definition next_link : Node := elem "a" [href "%zz"] [text "Next"].

Definition page : goquery.Document :=
  document [elem "html" [] [elem "body" [] [elem "p" [] [text "1 First"]; next_link]]].

Definition http_Get (u : string) : option string :=
  Mock.assoc u [(Mock.url1, "HTTP/1.1 200 OK bad link")].

Definition NewDocumentFromReader (body : string) : option goquery.Document :=
  Some (default (document []) (Mock.assoc body [("HTTP/1.1 200 OK bad link", page)])).

Definition cached : FS :=
  {| cache_dir := DirOk;
     entries := <["cache/_archive_ENG0015___P2.HTM"
                  := RegularFile "HTTP/1.1 200 OK bad link" true]> ∅;
     disk_full := false |}.

End BadLink.

Lemma unresolved_link_ends_crawl_witness :
  getCatechism_loop BadLink.http_Get Mock.DumpResponse BadLink.NewDocumentFromReader 2
    Mock.url1 ∅ (Mock.start Mock.empty_cache)
  = Return (extract_paragraphs (document []) (extract_paragraphs BadLink.page ∅))
      {| fs := BadLink.cached; requests := [Mock.url1];
         stdout := [ErrorGeneratingVaticanURL "%zz"; ErrorReadingFile "cache/."];
         fetched := [Mock.url1; EmptyString] |}.
Proof.
  refine (unresolved_link_ends_crawl BadLink.http_Get Mock.DumpResponse
            BadLink.NewDocumentFromReader 0 Mock.url1 ∅ (Mock.start Mock.empty_cache)
            "HTTP/1.1 200 OK bad link"
            {| fs := BadLink.cached; requests := [Mock.url1]; stdout := [];
               fetched := [Mock.url1] |}
            BadLink.page (document []) BadLink.next_link (url.EscapeError "%zz")
            _ _ _ _ _ _ _).
  - vm_compute. reflexivity.
  - vm_compute. reflexivity.
  - vm_compute. reflexivity.
  - vm_compute. reflexivity.
  - left. reflexivity.
  - vm_compute. reflexivity.
  - vm_compute. reflexivity.
Defined.

(** ** Cache keys that coincide *)

Lemma smap_append (f : ascii -> ascii) (s t : string) :
  strings.smap f (s ++ t) = strings.smap f s ++ strings.smap f t.
Proof. induction s as [|c s IH]; simpl; [done|]. by rewrite IH. Qed.

Lemma TrimRight_snoc (x cutset : string) (c : ascii) :
  byte_in c cutset = true ->
  strings.TrimRight (x ++ String c EmptyString) cutset = strings.TrimRight x cutset.
Proof.
  intros Hc. unfold strings.TrimRight. rewrite srev_app.
  change (strings.srev (String c EmptyString)) with (String c EmptyString).
  cbn [String.append strings.drop_while]. by rewrite Hc.
Qed.

Lemma smap_slash_to_underscore_idem (p : string) :
  strings.smap slash_to_underscore (strings.smap slash_to_underscore p)
  = strings.smap slash_to_underscore p.
Proof.
  induction p as [|c p IH]; simpl; [done|]. rewrite IH. f_equal.
  unfold slash_to_underscore. destruct (Ascii.eqb c "/") eqn:E; [done|]. by rewrite E.
Qed.

(** X18: the cache key does not tell apart a path from the same path
    with a slash at its end, nor a slash from an underscore: the paths
    [p], [p/] and [p] with its slashes written as underscores have the
    same key. *)
Theorem filename_of_path_collisions (p : string) :
  filename_of_path (p ++ "/") = filename_of_path p
  /\ filename_of_path (strings.smap slash_to_underscore p) = filename_of_path p.
Proof.
  rewrite !filename_of_path_sanitized. unfold sanitized.
  rewrite smap_append, smap_slash_to_underscore_idem.
  change (strings.smap slash_to_underscore "/") with "_".
  by rewrite TrimRight_snoc.
Qed.

(** ** The requests of a crawl *)

(** The URLs of the pages whose keys are free in the cache. *)
Fixpoint missing (f : FS) (names : list string) (pages : list Page) : list string :=
  match names, pages with
  | name :: names, pg :: pages =>
      match os.lookup f (cache_file name) with
      | None => page_url pg :: missing f names pages
      | Some _ => missing f names pages
      end
  | _, _ => []
  end.

Lemma missing_other (f f' : FS) (names : list string) (pages : list Page) :
  (forall name, name ∈ names ->
     os.lookup f' (cache_file name) = os.lookup f (cache_file name)) ->
  missing f' names pages = missing f names pages.
Proof.
  revert pages. induction names as [|name names IH]; intros pages H; [done|].
  destruct pages as [|pg pages]; [done|]. cbn [missing].
  rewrite H by (by left). rewrite IH; [done|]. intros name' Hin. apply H. by right.
Qed.

Lemma full_url_resolved (relativePath s : string) :
  vaticanURL relativePath = Ok s -> full_url s = s.
Proof.
  intros H. apply vaticanURL_result_prefixed, http_prefix_test in H.
  unfold full_url, vaticanURL. rewrite H. by destruct (negb _).
Qed.

Section Requests.

Context {Response : Type}.
Variable http_Get : string -> option Response.
Variable DumpResponse : Response -> option string.
Variable NewDocumentFromReader : string -> option goquery.Document.

#[local] Abbreviation loop := (getCatechism_loop http_Get DumpResponse NewDocumentFromReader).

Lemma getCatechism_loop_requests (pages : list Page) :
  forall (pg : Page) (rest : list Page) (names : list string)
         (m : gmap Z Paragraph) (w : World) (fuel : nat),
    pages = pg :: rest ->
    full_url (page_url pg) = page_url pg ->
    linked pages -> parsed NewDocumentFromReader pages ->
    Forall2 (served http_Get DumpResponse (fs w)) names pages -> NoDup names ->
    cache_dir (fs w) = DirOk -> disk_full (fs w) = false ->
    (List.length pages <= fuel)%nat ->
    exists w',
      loop fuel (page_url pg) m w = Return (index_of_pages pages m) w'
      /\ requests w' = (requests w ++ missing (fs w) names pages)%list.
Proof.
  induction pages as [|pg0 pages IH]; intros pg rest names m w fuel [= <- <-].
  intros Hfull_url Hl Hp Hs Hnd Hdir Hfull Hfuel.
  destruct fuel as [|fuel]; [simpl in Hfuel; lia|].
  apply Forall_cons in Hp as [Hp0 Hp].
  destruct names as [|name names]; [by apply Forall2_nil_cons_inv in Hs|].
  apply Forall2_cons in Hs as [Hs0 Hs]. apply NoDup_cons in Hnd as [Hnin Hnd].
  destruct (getOnce_served http_Get DumpResponse name pg0 w Hs0 Hdir Hfull)
    as (w1 & Hg & Hf & Hdir1 & Hfull1 & Hother).
  destruct (getOnce_effects http_Get DumpResponse (page_url pg0) w)
    as (w1' & Hw1 & _ & _ & Hq & _).
  rewrite Hg in Hw1. injection Hw1 as <-.
  assert (Hq1 : requests w1 = (requests w ++ missing (fs w) [name] [pg0])%list).
  { rewrite Hq. destruct Hs0 as [Hk Hc]. rewrite Hk. unfold os.Stat. rewrite Hdir.
    cbn [missing]. destruct Hc as [-> | [-> _]]; [by rewrite app_nil_r|].
    by rewrite Hfull_url. }
  assert (Hm : missing (fs w1) names pages = missing (fs w) names pages).
  { apply missing_other. intros name' Hin. apply Hother. by intros ->. }
  assert (Hsplit : missing (fs w) (name :: names) (pg0 :: pages)
                   = (missing (fs w) [name] [pg0] ++ missing (fs w) names pages)%list).
  { cbn [missing]. by destruct (os.lookup (fs w) (cache_file name)). }
  cbn [getCatechism_loop]. unfold mbind at 1. rewrite Hg, Hp0.
  cbn [index_of_pages fold_left].
  fold (index_of_pages pages (extract_paragraphs (page_doc pg0) m)).
  destruct pages as [|pg1 pages].
  - cbn [linked] in Hl. rewrite Hl. exists w1. split; [done|].
    rewrite Hq1, Hsplit.
    assert (missing (fs w) names [] = []) as -> by (by destruct names).
    by rewrite app_nil_r.
  - destruct Hl as [(next & Hn & Hv) Hl]. rewrite Hn, Hv.
    destruct (IH pg1 pages names (extract_paragraphs (page_doc pg0) m) w1 fuel eq_refl)
      as (w' & Hloop & Hqw); try done.
    + by apply full_url_resolved with (goquery.Attr next "href").1.
    + by apply served_preserved with (fs w) name.
    + simpl in Hfuel |- *. lia.
    + exists w'. split; [done|]. by rewrite Hqw, Hq1, Hsplit, Hm, <- app_assoc.
Qed.

End Requests.

(** X19: on a chain of pages that are served under keys that differ, the
    crawl asks the network for exactly the pages whose keys are free in
    the cache, each once and in the order of the chain, under the URL
    that the link before it resolved to; the other pages are read from
    the cache. *)
Theorem crawl_requests_missing_pages
    (Response : Type) (http_Get : string -> option Response)
    (DumpResponse : Response -> option string)
    (NewDocumentFromReader : string -> option goquery.Document)
    (first : Page) (rest : list Page) (names : list string) (w : World) (fuel : nat) :
  page_url first = vaticanFirstPage ->
  linked (first :: rest) ->
  parsed NewDocumentFromReader (first :: rest) ->
  Forall2 (served http_Get DumpResponse (fs w)) names (first :: rest) ->
  NoDup names ->
  cache_dir (fs w) = DirOk -> disk_full (fs w) = false ->
  (List.length (first :: rest) <= fuel)%nat ->
  exists w',
    getCatechism http_Get DumpResponse NewDocumentFromReader fuel w
    = Return (index_of_pages (first :: rest) ∅) w'
    /\ requests w' = (requests w ++ missing (fs w) names (first :: rest))%list.
Proof.
  intros Hfirst Hl Hp Hs Hnd Hdir Hfull Hfuel. unfold getCatechism. rewrite <- Hfirst.
  apply (getCatechism_loop_requests http_Get DumpResponse NewDocumentFromReader
           (first :: rest) first rest names ∅ w fuel eq_refl); [|assumption..].
  rewrite Hfirst. vm_compute. reflexivity.
Qed.

(** A cache that holds the second page of the mock site only. *)
Definition second_cached : FS :=
  {| cache_dir := DirOk;
     entries := <[cache_file (nth 1 MockChain.names EmptyString)
                  := RegularFile (page_body (nth 0 MockChain.rest MockChain.first)) true]> ∅;
     disk_full := false |}.

Lemma crawl_requests_missing_pages_witness :
  exists w',
    getCatechism Mock.http_Get Mock.DumpResponse Mock.NewDocumentFromReader 3
      (Mock.start second_cached)
    = Return (index_of_pages (MockChain.first :: MockChain.rest) ∅) w'
    /\ requests w'
       = (requests (Mock.start second_cached)
          ++ missing (fs (Mock.start second_cached)) MockChain.names
               (MockChain.first :: MockChain.rest))%list.
Proof.
  assert (H1 : page_url MockChain.first = vaticanFirstPage) by (vm_compute; reflexivity).
  assert (H2 : linked (MockChain.first :: MockChain.rest)).
  { split; [exists MockChain.next1; split; vm_compute; reflexivity|].
    split; [exists MockChain.next2; split; vm_compute; reflexivity|].
    vm_compute; reflexivity. }
  assert (H3 : parsed Mock.NewDocumentFromReader (MockChain.first :: MockChain.rest)).
  { unfold parsed. repeat constructor; vm_compute; reflexivity. }
  assert (H4 : Forall2 (served Mock.http_Get Mock.DumpResponse
                          (fs (Mock.start second_cached)))
                 MockChain.names (MockChain.first :: MockChain.rest)).
  { apply Forall2_cons; split.
    { split; [vm_compute; reflexivity|]. right.
      split; [vm_compute; reflexivity|]. eexists; split; vm_compute; reflexivity. }
    apply Forall2_cons; split.
    { split; [vm_compute; reflexivity|]. left. vm_compute; reflexivity. }
    apply Forall2_cons; split.
    { split; [vm_compute; reflexivity|]. right.
      split; [vm_compute; reflexivity|]. eexists; split; vm_compute; reflexivity. }
    apply Forall2_nil. exact I. }
  assert (H5 : NoDup MockChain.names).
  { apply NoDup_ListNoDup. repeat constructor; simpl; intros H;
      repeat (destruct H as [H|H]; [discriminate H|]); exact H. }
  exact (crawl_requests_missing_pages _ Mock.http_Get Mock.DumpResponse
           Mock.NewDocumentFromReader MockChain.first MockChain.rest MockChain.names
           (Mock.start second_cached) 3 H1 H2 H3 H4 H5 eq_refl eq_refl (le_n 3)).
Defined.

Example missing_second_cached :
  missing second_cached MockChain.names (MockChain.first :: MockChain.rest)
  = [Mock.url1; Mock.url3].
Proof. vm_compute. reflexivity. Qed.

(** ** How the process ends *)

(** The messages that report a failure, as opposed to the lines of the
    paragraphs. *)
Definition is_error (o : Output) : bool :=
  match o with
  | Line _ => false
  | _ => true
  end.

(** The last output of the world is a failure message. *)
Definition reported (w : World) : Prop :=
  exists out o, stdout w = (out ++ [o])%list /\ is_error o = true.

Section ExitStatus.

Context {Response : Type}.
Variable http_Get : string -> option Response.
Variable DumpResponse : Response -> option string.
Variable NewDocumentFromReader : string -> option goquery.Document.

#[local] Abbreviation getOnce' := (getOnce http_Get DumpResponse).
#[local] Abbreviation loop := (getCatechism_loop http_Get DumpResponse NewDocumentFromReader).
#[local] Abbreviation main' := (main http_Get DumpResponse NewDocumentFromReader).

Lemma read_back_no_Exit (filename : string) (w : World) (c : Z) (w' : World) :
  read_back filename w <> Exit c w'.
Proof. unfold read_back. by destruct (os.ReadFile _ _). Qed.

Lemma getOnce_Exit (urlStr : string) (w : World) (c : Z) (w' : World) :
  getOnce' urlStr w = Exit c w' -> c = 1 /\ reported w'.
Proof.
  rewrite getOnce_unfold. destruct (url.Parse urlStr) as [u|e].
  2:{ intros [= <- <-]. split; [done|]. by eexists _, _. }
  cbv zeta. destruct (os.Stat _ _) as [[]|[]]; try (by intros ?%read_back_no_Exit).
  unfold fetch_and_cache, mbind, http_get, os_Create, file_Write, Printf, os_Exit.
  destruct (http_Get _) as [res|].
  2:{ intros [= <- <-]. split; [done|]. by eexists _, _. }
  destruct (DumpResponse res) as [body|].
  2:{ intros [= <- <-]. split; [done|]. by eexists _, _. }
  cbn [fs]. destruct (os.Create _ _) as [f'|].
  - by intros ?%read_back_no_Exit.
  - intros [= <- <-]. split; [done|]. by eexists _, _.
Qed.

Lemma getCatechism_loop_Exit (fuel : nat) :
  forall urlStr m w c w',
    loop fuel urlStr m w = Exit c w' -> c = 1 /\ reported w'.
Proof.
  induction fuel as [|fuel IH]; intros urlStr m w c w'; [done|].
  cbn [getCatechism_loop]. unfold mbind at 1.
  destruct (getOnce' urlStr w) as [body w1|c1 w1|] eqn:Hg; [| |done].
  2:{ intros [= <- <-]. by apply getOnce_Exit in Hg. }
  destruct (NewDocumentFromReader body) as [doc|].
  2:{ intros [= <- <-]. split; [done|]. by eexists _, _. }
  destruct (getNextLink doc) as [next|]; [|done].
  destruct (vaticanURL _) as [u|e]; [by apply IH|].
  unfold mbind, Printf. by apply IH.
Qed.

Lemma listing_no_Exit (l : list (Z * Paragraph)) (w : World) (c : Z) (w' : World) :
  fold_right
    (fun p k => run Printf (Line (strings.ReplaceAll (Text p.2) (String "010" EmptyString) " ")); k)
    (ret tt) l w <> Exit c w'.
Proof.
  revert w. induction l as [|p l IH]; intros w; [done|].
  cbn [fold_right]. unfold mbind at 1, Printf at 1. apply IH.
Qed.

Lemma main_Exit (fuel : nat) (Args : list string) (w : World) (c : Z) (w' : World) :
  main' fuel Args w = Exit c w' -> c = 1 /\ reported w'.
Proof.
  unfold main, getCatechism, mbind.
  destruct (loop fuel vaticanFirstPage ∅ w) as [idx w1|c1 w1|] eqn:Hc; [| |done].
  2:{ intros [= <- <-]. by apply getCatechism_loop_Exit in Hc. }
  unfold main_dispatch. destruct (1 <? List.length Args)%nat.
  - destruct (strconv.Atoi _) as [n [e|]].
    + unfold mbind, Printf, os_Exit. intros [= <- <-]. split; [done|]. by eexists _, _.
    + done.
  - by intros ?%listing_no_Exit.
Qed.

End ExitStatus.

(** X20: whenever the program ends the process before [main] returns,
    the status is 1 and the last thing printed is a message that reports
    the failure: no failure of the crawl or of the argument ends the
    process silently or with another status. *)
Theorem main_exit_reported
    (Response : Type) (http_Get : string -> option Response)
    (DumpResponse : Response -> option string)
    (NewDocumentFromReader : string -> option goquery.Document)
    (fuel : nat) (Args : list string) (w : World) (c : Z) (w' : World) :
  main http_Get DumpResponse NewDocumentFromReader fuel Args w = Exit c w' ->
  c = 1 /\ reported w'.
Proof. apply main_Exit. Qed.

Lemma main_exit_reported_witness :
  1 = 1
  /\ reported {| fs := Mock.empty_cache; requests := [Mock.url1];
                 stdout := [ErrorGettingUrl Mock.url1]; fetched := [Mock.url1] |}.
Proof.
  refine (main_exit_reported string (fun _ => None) Mock.DumpResponse
            Mock.NewDocumentFromReader 3 ["ccc"] (Mock.start Mock.empty_cache) 1
            {| fs := Mock.empty_cache; requests := [Mock.url1];
               stdout := [ErrorGettingUrl Mock.url1]; fetched := [Mock.url1] |} _).
  vm_compute. reflexivity.
Defined.

(** ** The URLs given to the network *)

Lemma full_url_crawl_url (s : string) : crawl_url s -> http_prefixed (full_url s).
Proof.
  intros [->|[rel H]].
  - change (full_url EmptyString) with "https://www.vatican.va/archive/ENG0015".
    exists "h"%char, "t"%char, "t"%char, "p"%char, "s://www.vatican.va/archive/ENG0015".
    repeat split; auto.
  - rewrite (full_url_resolved rel s H). by apply vaticanURL_result_prefixed with rel.
Qed.

Section RequestUrls.

Context {Response : Type}.
Variable http_Get : string -> option Response.
Variable DumpResponse : Response -> option string.
Variable NewDocumentFromReader : string -> option goquery.Document.

#[local] Abbreviation loop := (getCatechism_loop http_Get DumpResponse NewDocumentFromReader).

Lemma getCatechism_loop_requested (fuel : nat) :
  forall urlStr m w w',
    crawl_url urlStr ->
    final_world (loop fuel urlStr m w) = Some w' ->
    exists l, requests w' = (requests w ++ l)%list /\ Forall http_prefixed l.
Proof.
  induction fuel as [|fuel IH]; intros urlStr m w w' Hu; [done|].
  cbn [getCatechism_loop]. unfold mbind at 1.
  destruct (getOnce_effects http_Get DumpResponse urlStr w) as (w1 & Hw1 & _ & _ & Hq & _).
  assert (Hone : exists l, requests w1 = (requests w ++ l)%list /\ Forall http_prefixed l).
  { rewrite Hq. destruct (cache_key urlStr) as [name|]; [|exists []; by rewrite app_nil_r].
    destruct (os.Stat _ _) as [[]|[]]; try (exists []; by rewrite app_nil_r).
    exists [full_url urlStr]. split; [done|]. constructor; [|done].
    by apply full_url_crawl_url. }
  destruct Hone as (l1 & Hl1 & Hall1).
  assert (Hstep : forall u m1 w2, crawl_url u -> requests w2 = requests w1 ->
            final_world (loop fuel u m1 w2) = Some w' ->
            exists l, requests w' = (requests w ++ l)%list /\ Forall http_prefixed l).
  { intros u m1 w2 Hcu Hq2 H. apply IH in H as (l & Hl & Hall); [|done].
    exists (l1 ++ l)%list. split; [|by apply Forall_app].
    by rewrite Hl, Hq2, Hl1, <- app_assoc. }
  destruct (getOnce http_Get DumpResponse urlStr w) as [body w0|c w0|]; [| |done].
  - injection Hw1 as ->.
    destruct (NewDocumentFromReader body) as [doc|].
    2:{ cbn. intros [= <-]. by exists l1. }
    destruct (getNextLink doc) as [next|].
    2:{ cbn. intros [= <-]. by exists l1. }
    destruct (vaticanURL _) as [u|e] eqn:Hv.
    + apply Hstep; [right; eauto|done].
    + unfold mbind, Printf. apply Hstep; [by left|done].
  - injection Hw1 as ->. cbn. intros [= <-]. by exists l1.
Qed.

End RequestUrls.

(** X21: every URL that a crawl gives to the network begins with the
    letters [http] in either case, whether the crawl returns or ends
    the process: the error that [getOnce] drops when it resolves a URL
    never makes the crawl request an empty or a relative URL. *)
Theorem getCatechism_requests_absolute
    (Response : Type) (http_Get : string -> option Response)
    (DumpResponse : Response -> option string)
    (NewDocumentFromReader : string -> option goquery.Document)
    (fuel : nat) (w w' : World) :
  final_world (getCatechism http_Get DumpResponse NewDocumentFromReader fuel w) = Some w' ->
  exists l, requests w' = (requests w ++ l)%list /\ Forall http_prefixed l.
Proof.
  apply getCatechism_loop_requested. right. exists "/__P2.HTM". vm_compute. reflexivity.
Qed.

Lemma getCatechism_requests_absolute_witness :
  exists l, requests Mock.finish = (requests (Mock.start Mock.empty_cache) ++ l)%list
            /\ Forall http_prefixed l.
Proof.
  refine (getCatechism_requests_absolute string Mock.http_Get Mock.DumpResponse
            Mock.NewDocumentFromReader 3 (Mock.start Mock.empty_cache) Mock.finish _).
  vm_compute. reflexivity.
Defined.
